(** * Code assistant: retrieval-and-analysis engine

    A shallow embedding of the repository's file corpus accessor
    ([mcp_servers/filesystem_server.py]), its code analyzer
    ([mcp_servers/code_analyzer.py]), its remote-repository client
    ([mcp_servers/github_server.py]) and the planning, search and analysis
    stages of the agent ([backend/agent.py]), with the properties of the
    specification stated and settled on it.

    Text.  A Python [str] is a [string]; each character is read as the
    Unicode code point of the same number, so the model covers the texts
    whose code points lie below 256.  On that range [lower], [splitlines],
    [strip], [len] and the regular expression of the issue detector are
    exactly Python's.  Beyond it [str.lower] is no map of single
    characters any more: a capital sigma at the end of a word becomes the
    final sigma, and a capital I with a dot becomes two code points.
    What is stated here through [lower] is stated of the texts of the
    model; the completeness of the text search is stated on the test of
    the code itself, [query.lower() in line.lower()], which is not
    containment without regard to case on all texts.  The only
    characters of the program outside the range are the pictograms in its
    progress and suggestion messages; they are kept as the source file
    stores them and nothing is computed on them.

    Environment.  What the code obtains from outside the repository is a
    parameter of the section that uses it: the shell-style matcher
    [fnmatch.fnmatch], the Python parser [ast.parse], radon's [cc_visit] and
    [mi_visit], the formatting of a float, and the HTTP client.  The file
    tree is an explicit value: a tree without symbolic links that
    [os.walk] and [iterdir] can walk in full.  What [os.stat] does on a
    path given to [read_file] is part of the environment too: it finds
    the entry, or misses it, or fails with another error, which
    [Path.exists] raises again. *)

From Stdlib Require Import String Ascii List ZArith Bool Lia Arith.
From Stdlib Require Import Numbers.DecimalString.
From Stdlib Require Import PrimFloat.
From Stdlib Require Import Permutation Sorted.
Import ListNotations.

Local Open Scope string_scope.
Local Open Scope list_scope.
Local Open Scope nat_scope.

(** Python's [+] on strings. *)
Infix "+++" := String.append (right associativity, at level 60).

(** ** Python text primitives *)

Module Py.

Definition ord (c : ascii) : nat := nat_of_ascii c.
Definition chr (n : nat) : ascii := ascii_of_nat n.

(** [str.lower] on one code point below 256: the upper-case letters are
    A..Z and U+00C0..U+00DE without the multiplication sign U+00D7; each
    has its lower case 32 places above.  On the texts of the model, and
    on them only, [str.lower] is this map applied to each character. *)
Definition is_upper (c : ascii) : bool :=
  let n := ord c in
  ((65 <=? n) && (n <=? 90))
  || ((192 <=? n) && (n <=? 222) && negb (n =? 215)).

Definition lower_char (c : ascii) : ascii :=
  if is_upper c then chr (ord c + 32) else c.

Fixpoint lower (s : string) : string :=
  match s with
  | EmptyString => EmptyString
  | String c s' => String (lower_char c) (lower s')
  end.

(** [needle in hay] on strings: [needle] occurs as a contiguous block. *)
Fixpoint contains (needle hay : string) : bool :=
  prefix needle hay
  || match hay with
     | EmptyString => false
     | String _ hay' => contains needle hay'
     end.

(** [str.isspace] for one code point below 256. *)
Definition isspace (c : ascii) : bool :=
  let n := ord c in
  ((9 <=? n) && (n <=? 13)) || ((28 <=? n) && (n <=? 32))
  || (n =? 133) || (n =? 160).

(** The line boundaries of [str.splitlines] below 256: LF, VT, FF, CR,
    FS, GS, RS and NEL. *)
Definition is_linebreak (c : ascii) : bool :=
  let n := ord c in
  ((10 <=? n) && (n <=? 13)) || ((28 <=? n) && (n <=? 30)) || (n =? 133).

Definition CR : ascii := chr 13.
Definition LF : ascii := chr 10.

(** What follows a line boundary [c]: a CR directly followed by LF is one
    boundary. *)
Definition after_break (c : ascii) (rest : string) : string :=
  match rest with
  | String d rest' =>
      if (Ascii.eqb c CR && Ascii.eqb d LF)%bool then rest' else rest
  | EmptyString => rest
  end.

(** [str.splitlines()]: CPython scans to the next boundary, emits the
    text before it and resumes after it; text left at the end is a last
    line, and nothing is emitted after a final boundary.  [cur] holds the
    characters of the line being scanned, most recent first. *)
Fixpoint rev_string (acc : string) (s : string) : string :=
  match s with
  | EmptyString => acc
  | String c s' => rev_string (String c acc) s'
  end.

Fixpoint splitlines_from (cur : string) (s : string) : list string :=
  match s with
  | EmptyString =>
      match cur with
      | EmptyString => []
      | _ => [rev_string "" cur]
      end
  | String c rest =>
      if is_linebreak c then
        rev_string "" cur ::
          match rest with
          | String d rest' =>
              if (Ascii.eqb c CR && Ascii.eqb d LF)%bool
              then splitlines_from "" rest'
              else splitlines_from "" rest
          | EmptyString => []
          end
      else splitlines_from (String c cur) rest
  end.

Definition splitlines (s : string) : list string := splitlines_from "" s.

(** [str.strip()]: white space removed at both ends. *)
Fixpoint lstrip (s : string) : string :=
  match s with
  | String c s' => if isspace c then lstrip s' else s
  | EmptyString => EmptyString
  end.

Definition strip (s : string) : string :=
  rev_string "" (lstrip (rev_string "" (lstrip s))).

(** [str.startswith] and [str.endswith]. *)
Definition startswith (s p : string) : bool := prefix p s.
Definition endswith (s p : string) : bool :=
  prefix (rev_string "" p) (rev_string "" s).

(** [str(n)] for an integer. *)
Definition str_of_Z (z : Z) : string := NilEmpty.string_of_int (Z.to_int z).

(** [sep.join(parts)]. *)
Fixpoint join (sep : string) (parts : list string) : string :=
  match parts with
  | [] => ""
  | [p] => p
  | p :: ps => p +++ sep +++ join sep ps
  end.

(** [s.split(sep)] for a one-character separator: never empty, and an
    empty piece for each adjacent pair of separators. *)
Fixpoint split (sep : ascii) (s : string) : list string :=
  match s with
  | EmptyString => [""]
  | String c s' =>
      if Ascii.eqb c sep then "" :: split sep s'
      else match split sep s' with
           | [] => [String c ""]
           | p :: ps => String c p :: ps
           end
  end.

(** [s.rstrip(c)] for a one-character set. *)
Fixpoint lstrip_char (c : ascii) (s : string) : string :=
  match s with
  | String d s' => if Ascii.eqb d c then lstrip_char c s' else s
  | EmptyString => EmptyString
  end.

Definition rstrip_char (c : ascii) (s : string) : string :=
  rev_string "" (lstrip_char c (rev_string "" s)).

(** [x in l] for a list or set of strings. *)
Definition mem (x : string) (l : list string) : bool :=
  existsb (String.eqb x) l.

(** [enumerate(l, start)]. *)
Fixpoint enumerate {A} (start : Z) (l : list A) : list (Z * A) :=
  match l with
  | [] => []
  | x :: l' => (start, x) :: enumerate (start + 1)%Z l'
  end.

(** [l[start:stop]] for [0 <= start] and [0 <= stop]. *)
Definition slice {A} (start stop : Z) (l : list A) : list A :=
  skipn (Z.to_nat start) (firstn (Z.to_nat stop) l).

(** [len] as a Python integer. *)
Definition len {A} (l : list A) : Z := Z.of_nat (List.length l).
Definition strlen (s : string) : Z := Z.of_nat (String.length s).

(** [l[:n]] for [n >= 0]. *)
Definition take {A} (n : nat) (l : list A) : list A := firstn n l.

(** [s[:n]] on a string. *)
Definition str_take (n : nat) (s : string) : string := substring 0 n s.

(** A call that returns a value or raises; [exn] is the text of the
    exception. *)
Inductive result (A : Type) : Type :=
| Ok (a : A)
| Raise (exn : string).
Arguments Ok {A} a.
Arguments Raise {A} exn.

(** The values stored in the dicts whose keys the code probes, and such a
    dict: its items in insertion order, each key once. *)
#[warnings="-register-all"]
Inductive pyval : Type :=
| PyNone
| PyBool (b : bool)
| PyInt (z : Z)
| PyStr (s : string)
| PyList (l : list pyval).

Definition dict : Type := list (string * pyval).

(** [d.get(k)], with [None] of the option for an absent key. *)
Fixpoint dict_get (d : dict) (k : string) : option pyval :=
  match d with
  | [] => None
  | (k', v) :: d' => if String.eqb k' k then Some v else dict_get d' k
  end.

(** [k in d]. *)
Definition dict_has (d : dict) (k : string) : bool :=
  match dict_get d k with Some _ => true | None => false end.

(** Truth value of an object. *)
Definition truthy (v : pyval) : bool :=
  match v with
  | PyNone => false
  | PyBool b => b
  | PyInt z => negb (Z.eqb z 0)
  | PyStr s => negb (String.eqb s "")
  | PyList l => match l with [] => false | _ => true end
  end.

End Py.


(** ** The file tree and [pathlib] *)

Module FS.

(** What [open(p, 'r', encoding='utf-8').read()] does on a regular file:
    it returns the text, fails to decode, or fails in another way with the
    text of the exception. *)
Inductive read_outcome : Type :=
| Text (content : string)
| Undecodable
| Unreadable (msg : string).

(** A file tree without symbolic links.  The entries of a directory are
    in the order in which the operating system lists them. *)
#[warnings="-register-all"]
Inductive node : Type :=
| File (st_size : Z) (data : read_outcome)
| Dir (entries : list (string * node)).

(** A [PurePosixPath]: its root ([""], ["/"] or ["//"]) and its parts. *)
Record path : Type := { root : string; parts : list string }.

(** The world outside the program: the file tree, the working directory,
    and the failures of [os.stat] that are not a missing entry.  On a
    path whose entry is missing [os.stat] fails with ENOENT or ENOTDIR,
    which the tree decides; [stat_error] gives the text of any other
    [OSError] it raises on a path (a name or a path beyond the limits of
    the file system, a directory that may not be searched), and [None]
    when it raises none. *)
Record filesystem : Type := {
  tree : node;              (* the directory [/] *)
  cwd : list string;        (* the working directory, from [/] *)
  stat_error : path -> option string
}.

Definition parse_root (s : string) : string :=
  match s with
  | String "/" (String "/" (String "/" _)) => "/"
  | String "/" (String "/" _) => "//"
  | String "/" _ => "/"
  | _ => ""
  end.

Definition is_part (x : string) : bool :=
  negb (String.eqb x "") && negb (String.eqb x ".").

(** [Path(s)]: empty and [.] components are dropped, [..] is kept. *)
Definition Path (s : string) : path :=
  {| root := parse_root s; parts := filter is_part (Py.split "/" s) |}.

(** [self / other]: an absolute [other] replaces [self]. *)
Definition joinpath (self other : path) : path :=
  if String.eqb (root other) "" then
    {| root := root self; parts := parts self ++ parts other |}
  else other.

(** [str(p)]. *)
Definition path_str (p : path) : string :=
  match root p, parts p with
  | "", [] => "."
  | r, ps => r +++ Py.join "/" ps
  end.

(** [p.name]. *)
Definition name (p : path) : string := last (parts p) "".

Fixpoint is_prefix (l1 l2 : list string) : bool :=
  match l1, l2 with
  | [], _ => true
  | x :: l1', y :: l2' => String.eqb x y && is_prefix l1' l2'
  | _ :: _, [] => false
  end.

(** [self.is_relative_to(other)]: a comparison of the parts as written;
    nothing is resolved. *)
Definition is_relative_to (self other : path) : bool :=
  String.eqb (root self) (root other) && is_prefix (parts other) (parts self).

(** [Path(name).suffix]: from the last dot, when that dot is neither the
    first nor the last character of the name. *)
Fixpoint suffix_from (s : string) : option string :=
  match s with
  | EmptyString => None
  | String c s' =>
      match suffix_from s' with
      | Some suf => Some suf
      | None => if Ascii.eqb c "." then Some s else None
      end
  end.

Definition suffix (name : string) : string :=
  match name with
  | EmptyString => ""
  | String _ rest =>
      match suffix_from rest with
      | Some suf => if String.eqb suf "." then "" else suf
      | None => ""
      end
  end.

Fixpoint lookup (name : string) (entries : list (string * node)) : option node :=
  match entries with
  | [] => None
  | (n, x) :: entries' => if String.eqb n name then Some x else lookup name entries'
  end.

(** Path resolution by the operating system, one component at a time:
    [anc] holds the directories above [cur], nearest first; [..] steps to
    the parent (and stays at [/]), a name steps into the entry of that
    name, and a component below a regular file fails. *)
Fixpoint walk_parts (anc : list node) (cur : node) (ps : list string) : option node :=
  match ps with
  | [] => Some cur
  | p :: ps' =>
      match cur with
      | File _ _ => None
      | Dir entries =>
          if String.eqb p ".." then
            match anc with
            | [] => walk_parts [] cur ps'
            | up :: anc' => walk_parts anc' up ps'
            end
          else
            match lookup p entries with
            | Some child => walk_parts (cur :: anc) child ps'
            | None => None
            end
      end
  end.

Definition resolve (fs : filesystem) (p : path) : option node :=
  walk_parts [] (tree fs)
    (if String.eqb (root p) "" then cwd fs ++ parts p else parts p).

(** [p.exists()]: [os.stat], with the errors of a missing entry turned
    into [False]; any other [OSError] is raised again. *)
Definition exists_ (fs : filesystem) (p : path) : Py.result bool :=
  match stat_error fs p with
  | Some e => Py.Raise e
  | None => Py.Ok (match resolve fs p with Some _ => true | None => false end)
  end.

(** [open(p, 'r', encoding='utf-8')] followed by [read()]. *)
Definition open_read (fs : filesystem) (p : path) : read_outcome :=
  match resolve fs p with
  | Some (File _ data) => data
  | Some (Dir _) => Unreadable ("[Errno 21] Is a directory: '" +++ path_str p +++ "'")
  | None => Unreadable ("[Errno 2] No such file or directory: '" +++ path_str p +++ "'")
  end.

Definition is_dir (n : node) : bool :=
  match n with Dir _ => true | File _ _ => false end.

End FS.

(** ** [FileSystemMCP] *)

Module FileSystemMCP.
Import FS.

(** A file descriptor of [list_files]: keys [path], [size], [extension]
    and [name]. *)
Record file_info : Type := {
  fi_path : string;
  fi_size : Z;
  fi_extension : string;
  fi_name : string
}.

(** The result of [read_file]: a dict with the keys [path], [content],
    [lines] and [size], or a dict with the single key [error]. *)
Inductive read_result : Type :=
| FileData (path_ : string) (content : string) (lines : Z) (size : Z)
| Error (error : string).

(** A search match: keys [file], [line], [content] and [context]. *)
Record search_match : Type := {
  sm_file : string;
  sm_line : Z;
  sm_content : string;
  sm_context : list string
}.

(** A node of [get_file_structure]. *)
#[warnings="-register-all"]
Inductive tree_node : Type :=
| TreeFile (name_ : string) (extension : string)
| TreeDir (name_ : string) (children : list tree_node).

Definition allowed_extensions : list string :=
  [".py"; ".js"; ".ts"; ".jsx"; ".tsx"; ".java"; ".cpp"; ".c"; ".h";
   ".go"; ".rs"; ".php"; ".rb"; ".cs"; ".swift"; ".kt"; ".scala";
   ".md"; ".txt"; ".json"; ".yaml"; ".yml"; ".toml"; ".xml"; ".html"; ".css"].

Section Server.

(** [fnmatch.fnmatch name pattern], from Python's library. *)
Variable fnmatch : string -> string -> bool.

(** The world the server reads, and its [repo_path]. *)
Variable fs : filesystem.
Variable repo_path : path.

(** The directories [os.walk] is left to descend into. *)
Definition walk_into (d : string) : bool :=
  negb (Py.startswith d ".")
  && negb (Py.mem d ["node_modules"; "venv"; "__pycache__"; "dist"; "build"]).

(** The descriptors contributed by the file names of one directory whose
    path from the repository is [rel]. *)
Fixpoint files_here (pattern : string) (rel : list string)
    (entries : list (string * node)) : list file_info :=
  match entries with
  | [] => []
  | (filename, File st_size _) :: entries' =>
      (if fnmatch filename pattern && Py.mem (suffix filename) allowed_extensions
       then [{| fi_path := Py.join "/" (rel ++ [filename]);
                fi_size := st_size;
                fi_extension := suffix filename;
                fi_name := filename |}]
       else [])
      ++ files_here pattern rel entries'
  | (_, Dir _) :: entries' => files_here pattern rel entries'
  end.

(** [os.walk], top down: the files of the directory, then each of its
    kept sub-directories in turn. *)
Fixpoint walk (pattern : string) (rel : list string) (n : node) : list file_info :=
  match n with
  | File _ _ => []
  | Dir entries =>
      files_here pattern rel entries
      ++ flat_map
           (fun '(d, child) =>
              if is_dir child && walk_into d
              then walk pattern (rel ++ [d]) child
              else [])
           entries
  end.

Definition list_files (pattern : string) : list file_info :=
  match resolve fs repo_path with
  | Some top => walk pattern [] top
  | None => []
  end.

(** [read_file(file_path)].  The test [full_path.exists()] stands before
    the [try]: what it raises leaves the function. *)
Definition read_file (file_path : string) : Py.result read_result :=
  let full_path := joinpath repo_path (Path file_path) in
  match exists_ fs full_path with
  | Py.Raise e => Py.Raise e
  | Py.Ok found =>
      Py.Ok
        (if negb found then
           Error ("File not found: " +++ file_path)
         else if negb (is_relative_to full_path repo_path) then
           Error "Access denied: Path outside repository"
         else
           match open_read fs full_path with
           | Text content =>
               FileData file_path content (Py.len (Py.splitlines content))
                 (Py.strlen content)
           | Undecodable => Error "Binary file or encoding issue"
           | Unreadable msg => Error msg
           end)
  end.

Definition _get_context (lines : list string) (line_num : Z) : list string :=
  let context_size := 2%Z in
  let start := Z.max 0 (line_num - context_size - 1) in
  let end_ := Z.min (Py.len lines) (line_num + context_size) in
  Py.slice start end_ lines.

(** The matches of one file: the body of the inner loop. *)
Definition matches_in (query : string) (file : string) (lines : list string)
  : list search_match :=
  flat_map
    (fun '(line_num, line) =>
       if Py.contains (Py.lower query) (Py.lower line)
       then [{| sm_file := file;
                sm_line := line_num;
                sm_content := Py.strip line;
                sm_context := _get_context lines line_num |}]
       else [])
    (Py.enumerate 1 lines).

(** The matches of one file, from what [read_file] returned for it. *)
Definition file_matches (query : string) (file_info : file_info)
    (file_data : read_result) : list search_match :=
  match file_data with
  | FileData _ content _ _ =>
      matches_in query (fi_path file_info) (Py.splitlines content)
  | Error _ => []
  end.

(** The outer loop; an exception of [read_file] leaves it. *)
Fixpoint search_files (query : string) (files : list file_info)
  : Py.result (list search_match) :=
  match files with
  | [] => Py.Ok []
  | file_info :: files' =>
      match read_file (fi_path file_info) with
      | Py.Raise e => Py.Raise e
      | Py.Ok file_data =>
          match search_files query files' with
          | Py.Raise e => Py.Raise e
          | Py.Ok results => Py.Ok (file_matches query file_info file_data ++ results)
          end
      end
  end.

Definition search_in_files (query : string) (file_pattern : string)
  : Py.result (list search_match) :=
  search_files query (list_files file_pattern).

(** [sorted(path.iterdir(), key=lambda x: (x.is_file(), x.name))]:
    directories before files, each group by name; a stable insertion
    sort. *)
Definition sort_key_le (a b : string * node) : bool :=
  match is_dir (snd a), is_dir (snd b) with
  | true, false => true
  | false, true => false
  | _, _ => String.leb (fst a) (fst b)
  end.

Fixpoint insert_sorted (x : string * node) (l : list (string * node)) :=
  match l with
  | [] => [x]
  | y :: l' => if sort_key_le x y then x :: l else y :: insert_sorted x l'
  end.

Definition sorted_entries (entries : list (string * node)) :=
  fold_right insert_sorted [] entries.

Definition tree_children (t : tree_node) : list tree_node :=
  match t with TreeDir _ cs => cs | TreeFile _ _ => [] end.

(** [build_tree(path, max_depth, current_depth)], with [depth] the levels
    left, [max_depth - current_depth]; [None] when none is left. *)
Fixpoint build_tree (depth : nat) (dirname : string) (entries : list (string * node))
  : option tree_node :=
  match depth with
  | O => None
  | S depth' =>
      Some (TreeDir dirname
        (flat_map
           (fun '(item, child) =>
              if Py.startswith item "."
                 || Py.mem item ["node_modules"; "venv"; "__pycache__"]
              then []
              else
                match child with
                | File _ _ =>
                    if Py.mem (suffix item) allowed_extensions
                    then [TreeFile item (suffix item)] else []
                | Dir sub =>
                    match build_tree depth' item sub with
                    | Some subtree =>
                        match tree_children subtree with
                        | [] => []
                        | _ => [subtree]
                        end
                    | None => []
                    end
                end)
           (sorted_entries entries)))
  end.

(** [get_file_structure()]: [build_tree(self.repo_path)].  [iterdir] on
    a path that is missing or is no directory raises an error that
    [build_tree] does not catch. *)
Definition get_file_structure : Py.result (option tree_node) :=
  match resolve fs repo_path with
  | Some (Dir entries) => Py.Ok (build_tree 3 (name repo_path) entries)
  | Some (File _ _) =>
      Py.Raise ("[Errno 20] Not a directory: '" +++ path_str repo_path +++ "'")
  | None =>
      Py.Raise ("[Errno 2] No such file or directory: '" +++ path_str repo_path +++ "'")
  end.

End Server.
End FileSystemMCP.

(** ** [CodeAnalyzerMCP] *)

Module CodeAnalyzerMCP.

(** The syntax tree of [ast.parse], as far as the analyzer looks into it:
    the class of a node, the fields it reads, and the child nodes in the
    order of [ast.iter_child_nodes].  The nodes of a parameter list, of an
    import alias and of an expression context hold no definition or
    import and are not carried. *)
#[warnings="-register-all"]
Inductive ast : Type :=
| Module_ (body : list ast)
| FunctionDef (name : string) (lineno : Z) (args : list string)
    (body : list ast) (decorator_list : list ast)
| AsyncFunctionDef (name : string) (lineno : Z) (args : list string)
    (body : list ast) (decorator_list : list ast)
| ClassDef (name : string) (lineno : Z) (bases : list ast)
    (body : list ast) (decorator_list : list ast)
| Import (names : list string)
| ImportFrom (module : option string)
| Expr (value : ast)
| Constant (str_value : option string)
| Name (id : string)
| Other (children : list ast).

(** What [ast.parse(content)] does. *)
Inductive parse_outcome : Type :=
| Parsed (tree : ast)
| SyntaxError (msg : string) (lineno : option Z)
| OtherException (msg : string).

(** A block of radon's [cc_visit]. *)
Record cc_block : Type := {
  cc_name : string;
  cc_complexity : Z;
  cc_lineno : Z
}.

(** An entry of [metrics['complexity']]: keys [name], [complexity],
    [line]. *)
Record complexity_entry : Type := {
  ce_name : string;
  ce_complexity : Z;
  ce_line : Z
}.

(** The dict [metrics]: each key is present or not. *)
Record metrics : Type := {
  complexity : option (list complexity_entry);
  maintainability_index : option float
}.

(** An issue: keys [type], [severity], [line], [message], [suggestion]. *)
Record issue : Type := {
  i_type : string;
  i_severity : string;
  i_line : Z;
  i_message : string;
  i_suggestion : string
}.

(** The analysis built on a successful parse. *)
Record analysis : Type := {
  a_file : string;
  a_language : string;
  a_metrics : metrics;
  a_functions : list Py.dict;
  a_classes : list Py.dict;
  a_imports : list string;
  a_issues : list issue
}.

(** The three dicts [analyze_python_file] can return. *)
Inductive analysis_result : Type :=
| Analysis (a : analysis)
| SyntaxErrorResult (file : string) (error : string) (line : option Z)
| ErrorResult (file : string) (error : string).

(** The keys of the returned dict. *)
Definition keys (r : analysis_result) : list string :=
  match r with
  | Analysis _ =>
      ["file"; "language"; "metrics"; "functions"; "classes"; "imports"; "issues"]
  | SyntaxErrorResult _ _ _ => ["file"; "error"; "line"]
  | ErrorResult _ _ => ["file"; "error"]
  end.

(** [ast.iter_child_nodes]. *)
Definition iter_child_nodes (n : ast) : list ast :=
  match n with
  | Module_ body => body
  | FunctionDef _ _ _ body decorator_list => body ++ decorator_list
  | AsyncFunctionDef _ _ _ body decorator_list => body ++ decorator_list
  | ClassDef _ _ bases body decorator_list => bases ++ body ++ decorator_list
  | Import _ => []
  | ImportFrom _ => []
  | Expr value => [value]
  | Constant _ => []
  | Name _ => []
  | Other children => children
  end.

Fixpoint size (n : ast) : nat :=
  S (match n with
     | Module_ body => list_sum (map size body)
     | FunctionDef _ _ _ body decorator_list =>
         list_sum (map size body) + list_sum (map size decorator_list)
     | AsyncFunctionDef _ _ _ body decorator_list =>
         list_sum (map size body) + list_sum (map size decorator_list)
     | ClassDef _ _ bases body decorator_list =>
         list_sum (map size bases) + list_sum (map size body)
         + list_sum (map size decorator_list)
     | Import _ => 0
     | ImportFrom _ => 0
     | Expr value => size value
     | Constant _ => 0
     | Name _ => 0
     | Other children => list_sum (map size children)
     end).

(** [ast.walk]: a queue, first in first out; the node taken is yielded
    and its children join the end.  [fuel] bounds the number of nodes
    taken. *)
Fixpoint walk_queue (fuel : nat) (todo : list ast) : list ast :=
  match fuel with
  | O => []
  | S fuel' =>
      match todo with
      | [] => []
      | node :: todo' => node :: walk_queue fuel' (todo' ++ iter_child_nodes node)
      end
  end.

Definition walk (tree : ast) : list ast := walk_queue (size tree) [tree].

(** [isinstance(n, ast.FunctionDef)]; an [AsyncFunctionDef] is no
    [FunctionDef]. *)
Definition is_FunctionDef (n : ast) : bool :=
  match n with FunctionDef _ _ _ _ _ => true | _ => false end.

(** The password pattern, [re.search] with [re.IGNORECASE]: the word,
    white space, an equals sign, white space, a quote.  [match_ci]
    returns what follows the word when [s] starts with it in any case. *)
Fixpoint match_ci (word s : string) : option string :=
  match word, s with
  | EmptyString, _ => Some s
  | String w word', String c s' =>
      if Ascii.eqb (Py.lower_char c) (Py.lower_char w) then match_ci word' s' else None
  | String _ _, EmptyString => None
  end.

Definition is_quote (c : ascii) : bool :=
  Ascii.eqb c (Py.chr 34) || Ascii.eqb c (Py.chr 39).

Definition password_here (s : string) : bool :=
  match match_ci "password" s with
  | Some r =>
      match Py.lstrip r with
      | String e r' =>
          if Ascii.eqb e "=" then
            match Py.lstrip r' with
            | String q _ => is_quote q
            | EmptyString => false
            end
          else false
      | EmptyString => false
      end
  | None => false
  end.

Fixpoint password_search (line : string) : bool :=
  password_here line
  || match line with
     | EmptyString => false
     | String _ line' => password_search line'
     end.

(** The body of the loop of [_detect_python_issues] for one line. *)
Definition line_issues (line_num : Z) (line : string) : list issue :=
  (if Py.contains "eval(" line then
     [{| i_type := "security"; i_severity := "high"; i_line := line_num;
         i_message := "Use of eval() is dangerous";
         i_suggestion := "Consider using ast.literal_eval() or safer alternatives" |}]
   else [])
  ++ (if Py.contains "exec(" line then
        [{| i_type := "security"; i_severity := "high"; i_line := line_num;
            i_message := "Use of exec() is dangerous";
            i_suggestion := "Avoid dynamic code execution" |}]
      else [])
  ++ (if password_search line then
        [{| i_type := "security"; i_severity := "critical"; i_line := line_num;
            i_message := "Hardcoded password detected";
            i_suggestion := "Use environment variables or secure secret management" |}]
      else [])
  ++ (if Py.contains "TODO" line || Py.contains "FIXME" line then
        [{| i_type := "maintenance"; i_severity := "low"; i_line := line_num;
            i_message := "TODO/FIXME comment found";
            i_suggestion := "Address this comment or create a ticket" |}]
      else [])
  ++ (if (120 <? Py.strlen line)%Z then
        [{| i_type := "style"; i_severity := "low"; i_line := line_num;
            i_message := "Line too long (" +++ Py.str_of_Z (Py.strlen line) +++ " characters)";
            i_suggestion := "Break into multiple lines (PEP 8 recommends max 79-120)" |}]
      else []).

Definition _detect_python_issues (content : string) : list issue :=
  flat_map (fun '(line_num, line) => line_issues line_num line)
    (Py.enumerate 1 (Py.splitlines content)).

(** The entries appended for one node of the walk. *)
Definition function_entry (n : ast) : list Py.dict :=
  match n with
  | FunctionDef name lineno args _ decorator_list =>
      [[("name", Py.PyStr name); ("line", Py.PyInt lineno);
        ("args", Py.PyInt (Py.len args));
        ("decorators", Py.PyInt (Py.len decorator_list))]]
  | _ => []
  end.

Definition class_entry (n : ast) : list Py.dict :=
  match n with
  | ClassDef name lineno _ body _ =>
      [[("name", Py.PyStr name); ("line", Py.PyInt lineno);
        ("methods", Py.PyInt (Py.len (filter is_FunctionDef body)))]]
  | _ => []
  end.

Definition import_entry (n : ast) : list string :=
  match n with
  | Import names => names
  | ImportFrom module => [match module with Some m => m | None => "" end]
  | _ => []
  end.

Definition warning_sign : string := "âš ï¸".
Definition memo_sign : string := "ğŸ“".

Section Analyzer.

(** [ast.parse], and radon's [cc_visit] and [mi_visit] with [None] for a
    raised exception. *)
Variable ast_parse : string -> parse_outcome.
Variable cc_visit : string -> option (list cc_block).
Variable mi_visit : string -> option float.
(** [f"{mi:.1f}"]. *)
Variable format_1f : float -> string.
(** [inspect.cleandoc], which [ast.get_docstring] applies. *)
Variable cleandoc : string -> string.

Definition analyze_python_file (content : string) (file_path : string)
  : analysis_result :=
  match ast_parse content with
  | Parsed tree =>
      let nodes := walk tree in
      Analysis
        {| a_file := file_path;
           a_language := "python";
           a_metrics :=
             {| complexity :=
                  match cc_visit content with
                  | Some blocks =>
                      Some (map (fun item =>
                                   {| ce_name := cc_name item;
                                      ce_complexity := cc_complexity item;
                                      ce_line := cc_lineno item |}) blocks)
                  | None => None
                  end;
                maintainability_index := mi_visit content |};
           a_functions := flat_map function_entry nodes;
           a_classes := flat_map class_entry nodes;
           a_imports := flat_map import_entry nodes;
           a_issues := _detect_python_issues content |}
  | SyntaxError msg lineno =>
      SyntaxErrorResult file_path ("Syntax error: " +++ msg) lineno
  | OtherException msg => ErrorResult file_path msg
  end.

(** [analysis.get('metrics', {})] and [analysis.get('functions', [])]. *)
Definition get_metrics (r : analysis_result) : metrics :=
  match r with
  | Analysis a => a_metrics a
  | _ => {| complexity := None; maintainability_index := None |}
  end.

Definition get_functions (r : analysis_result) : list Py.dict :=
  match r with
  | Analysis a => a_functions a
  | _ => []
  end.

(** [not f.get('docstring')]. *)
Definition lacks_docstring (f : Py.dict) : bool :=
  match Py.dict_get f "docstring" with
  | Some v => negb (Py.truthy v)
  | None => true
  end.

Definition complexity_suggestion (r : analysis_result) : list string :=
  match complexity (get_metrics r) with
  | Some items =>
      let high_complexity := filter (fun item => (10 <? ce_complexity item)%Z) items in
      match high_complexity with
      | [] => []
      | _ =>
          [warning_sign +++ " Found " +++ Py.str_of_Z (Py.len high_complexity)
             +++ " functions with high complexity (>10). "
             +++ "Consider refactoring: "
             +++ Py.join ", " (map ce_name (Py.take 3 high_complexity))]
      end
  | None => []
  end.

Definition maintainability_suggestion (r : analysis_result) : list string :=
  match maintainability_index (get_metrics r) with
  | Some mi =>
      if PrimFloat.ltb mi 20%float then
        [warning_sign +++ " Low maintainability index (" +++ format_1f mi +++ "). "
           +++ "Consider refactoring for better code quality."]
      else []
  | None => []
  end.

Definition doc_message (n : Z) : string :=
  memo_sign +++ " " +++ Py.str_of_Z n +++ " functions lack docstrings. "
    +++ "Add documentation for better maintainability.".

Definition doc_suggestion (r : analysis_result) : list string :=
  let functions_without_docs := filter lacks_docstring (get_functions r) in
  if (3 <? Py.len functions_without_docs)%Z
  then [doc_message (Py.len functions_without_docs)]
  else [].

Definition suggest_improvements (analysis : analysis_result) : list string :=
  complexity_suggestion analysis
  ++ maintainability_suggestion analysis
  ++ doc_suggestion analysis.

(** [ast.get_docstring(node)] on a function: the first statement of the
    body when it is a string constant, cleaned. *)
Definition get_docstring (body : list ast) : option string :=
  match body with
  | Expr (Constant (Some text)) :: _ => Some (cleandoc text)
  | _ => None
  end.

(** [find_functions(content, 'python')]; any exception leaves the list
    empty. *)
Definition find_function_entry (n : ast) : list Py.dict :=
  match n with
  | FunctionDef name lineno args body _ =>
      [[("name", Py.PyStr name); ("line", Py.PyInt lineno);
        ("args", Py.PyList (map Py.PyStr args));
        ("docstring",
           match get_docstring body with
           | Some docstring =>
               if String.eqb docstring "" then Py.PyNone
               else Py.PyStr (Py.str_take 100 docstring)
           | None => Py.PyNone
           end);
        ("is_async", Py.PyBool false)]]
  | _ => []
  end.

Definition find_functions (content : string) : list Py.dict :=
  match ast_parse content with
  | Parsed tree => flat_map find_function_entry (walk tree)
  | _ => []
  end.

End Analyzer.
End CodeAnalyzerMCP.

(** ** [GitHubMCP] *)

Module GitHubMCP.

(** What [requests.get(url, headers=...)] gives: a response with its
    status code and, from [response.json()], the list under the key
    [items] (empty when the key is absent), or an exception, raised by
    the request or by the decoding of the body. *)
Inductive http_outcome : Type :=
| Response (status_code : Z) (items : Py.result (list Py.dict))
| RequestException (msg : string).

(** [d[k]]: the value, or [KeyError]. *)
Definition getitem (d : Py.dict) (k : string) : Py.result Py.pyval :=
  match Py.dict_get d k with
  | Some v => Py.Ok v
  | None => Py.Raise ("'" +++ k +++ "'")
  end.

(** The loop over the items kept: the first failing item aborts it. *)
Fixpoint collect_items (items : list Py.dict) : Py.result (list Py.dict) :=
  match items with
  | [] => Py.Ok []
  | item :: items' =>
      match getitem item "name", getitem item "path", getitem item "html_url" with
      | Py.Ok name, Py.Ok path_, Py.Ok url =>
          match collect_items items' with
          | Py.Ok results => Py.Ok ([("name", name); ("path", path_); ("url", url)] :: results)
          | Py.Raise e => Py.Raise e
          end
      | Py.Raise e, _, _ => Py.Raise e
      | _, Py.Raise e, _ => Py.Raise e
      | _, _, Py.Raise e => Py.Raise e
      end
  end.

(** [parts[-2], parts[-1]] of [repo_url.rstrip('/').split('/')]. *)
Definition owner_repo (repo_url : string) : Py.result (string * string) :=
  match rev (Py.split "/" (Py.rstrip_char "/" repo_url)) with
  | repo :: owner :: _ => Py.Ok (owner, repo)
  | _ => Py.Raise "list index out of range"
  end.

Definition error_entry (msg : string) : list Py.dict := [[("error", Py.PyStr msg)]].

Section Client.

Variable requests_get : string -> http_outcome.

Definition search_code (query : string) (repo_url : string) : list Py.dict :=
  match owner_repo repo_url with
  | Py.Raise e => error_entry e
  | Py.Ok (owner, repo) =>
      let url := "https://api.github.com/search/code?q=" +++ query
                 +++ "+repo:" +++ owner +++ "/" +++ repo in
      match requests_get url with
      | RequestException e => error_entry e
      | Response status_code items =>
          if (status_code =? 200)%Z then
            match items with
            | Py.Raise e => error_entry e
            | Py.Ok items =>
                match collect_items (Py.take 10 items) with
                | Py.Ok results => results
                | Py.Raise e => error_entry e
                end
            end
          else error_entry ("Search failed: " +++ Py.str_of_Z status_code)
      end
  end.

End Client.
End GitHubMCP.

(** ** [CodeAssistantAgent]: the stages between the two calls of the
    language model *)

Module CodeAssistantAgent.
Import FS FileSystemMCP CodeAnalyzerMCP.

Record search_plan : Type := {
  patterns : list string;
  keywords : list string;
  file_types : list string
}.

(** An element of [results['matches']]: a match of the local search or a
    dict of the remote one. *)
Inductive match_entry : Type :=
| LocalMatch (m : search_match)
| RemoteMatch (d : Py.dict).

(** [results] of [execute_search]: the keys [files] and [matches], and
    [structure] and [repo_info] when set. *)
Record search_results : Type := {
  files : list file_info;
  matches : list match_entry;
  structure : option (option tree_node);
  repo_info : option Py.dict
}.

(** [analysis] of [analyze_code]. *)
Record code_analysis : Type := {
  file_analyses : list analysis_result;
  issues : list issue;
  suggestions : list string
}.

(** [state['analysis_results']]: each key is present or not. *)
Record analysis_results : Type := {
  r_search_plan : option search_plan;
  r_search_results : option search_results;
  r_code_analysis : option code_analysis
}.

(** [AgentState]; a message is the content of an [AIMessage]. *)
Record AgentState : Type := {
  messages : list string;
  repo_path : string;
  github_url : string;
  current_step : string;
  results : analysis_results;
  user_query : string
}.

(** The agent: [repo_path] and [github_url] as given to [__init__], with
    [None] for a missing or empty one ([fs_mcp] exists when [repo_path]
    is true, and the remote branch runs when [github_url] is). *)
Record agent : Type := {
  self_repo_path : option string;
  self_github_url : option string
}.

Definition nonempty (o : option string) : option string :=
  match o with
  | Some s => if String.eqb s EmptyString then None else Some s
  | None => None
  end.

Definition clipboard_sign : string := "📋".
Definition folder_sign : string := "📁".
Definition microscope_sign : string := "🔬".

(** The plan chosen by the chain of conditions of [plan_search]. *)
Definition choose_plan (user_query : string) : search_plan :=
  let q := Py.lower user_query in
  if Py.contains "authentication" q || Py.contains "auth" q then
    {| patterns := ["*auth*.py"; "*login*.py"];
       keywords := ["auth"; "login"; "password"; "token"];
       file_types := [] |}
  else if Py.contains "database" q || Py.contains "sql" q then
    {| patterns := ["*db*.py"; "*model*.py"];
       keywords := ["db"; "database"; "query"; "sql"];
       file_types := [] |}
  else if Py.contains "api" q || Py.contains "endpoint" q then
    {| patterns := ["*api*.py"; "*route*.py"; "*views*.py"];
       keywords := ["api"; "route"; "endpoint"; "@app"];
       file_types := [] |}
  else if Py.contains "bug" q || Py.contains "error" q then
    {| patterns := [];
       keywords := ["error"; "exception"; "try"; "except"];
       file_types := [".py"; ".js"] |}
  else
    {| patterns := ["*.py"; "*.js"]; keywords := []; file_types := [] |}.

Definition plan_search (state : AgentState) : AgentState :=
  let search_plan := choose_plan (user_query state) in
  {| messages :=
       messages state
       ++ [clipboard_sign +++ " Planning to search: "
             +++ Py.join ", " (Py.take 3 (patterns search_plan))];
     repo_path := repo_path state;
     github_url := github_url state;
     current_step := "Planning search";
     results := {| r_search_plan := Some search_plan;
                   r_search_results := None;
                   r_code_analysis := None |};
     user_query := user_query state |}.

Section Agent.

Variable fnmatch : string -> string -> bool.
Variable fs : filesystem.
Variable requests_get : string -> GitHubMCP.http_outcome.
(** [GitHubMCP.get_repo_info], kept as a parameter. *)
Variable get_repo_info : string -> Py.dict.
Variable ast_parse : string -> parse_outcome.
Variable cc_visit : string -> option (list cc_block).
Variable mi_visit : string -> option float.
Variable format_1f : float -> string.

Variable self : agent.

(** The two loops of the local branch. *)
Definition local_files (repo : path) (plan : search_plan) : list file_info :=
  flat_map (fun pattern => Py.take 10 (list_files fnmatch fs repo pattern))
    (Py.take 5 (patterns plan)).

(** The loop over the keywords; an exception of [search_in_files] leaves
    it. *)
Fixpoint search_keywords (repo : path) (keywords : list string)
  : Py.result (list match_entry) :=
  match keywords with
  | [] => Py.Ok []
  | keyword :: keywords' =>
      match search_in_files fnmatch fs repo keyword "*.py" with
      | Py.Raise e => Py.Raise e
      | Py.Ok matches =>
          match search_keywords repo keywords' with
          | Py.Raise e => Py.Raise e
          | Py.Ok more => Py.Ok (map LocalMatch (Py.take 20 matches) ++ more)
          end
      end
  end.

Definition local_matches (repo : path) (plan : search_plan)
  : Py.result (list match_entry) :=
  search_keywords repo (Py.take 3 (keywords plan)).

(** The loop of the remote branch. *)
Definition remote_matches (url : string) (plan : search_plan) : list match_entry :=
  flat_map
    (fun keyword => map RemoteMatch (GitHubMCP.search_code requests_get keyword url))
    (Py.take 3 (keywords plan)).

(** [results] as [execute_search] builds it; the search for a keyword
    and the call of [get_file_structure] may raise. *)
Definition search (plan : search_plan) : Py.result search_results :=
  match nonempty (self_repo_path self) with
  | Some repo_path =>
      let repo := Path repo_path in
      let files := local_files repo plan in
      match local_matches repo plan with
      | Py.Raise e => Py.Raise e
      | Py.Ok matches =>
          match files with
          | [] =>
              match get_file_structure fs repo with
              | Py.Ok tree =>
                  Py.Ok {| files := files; matches := matches;
                           structure := Some tree; repo_info := None |}
              | Py.Raise e => Py.Raise e
              end
          | _ =>
              Py.Ok {| files := files; matches := matches;
                       structure := None; repo_info := None |}
          end
      end
  | None =>
      match nonempty (self_github_url self) with
      | Some url =>
          Py.Ok {| files := []; matches := remote_matches url plan;
                   structure := None; repo_info := Some (get_repo_info url) |}
      | None =>
          Py.Ok {| files := []; matches := []; structure := None; repo_info := None |}
      end
  end.

Definition execute_search (state : AgentState) : Py.result AgentState :=
  match r_search_plan (results state) with
  | None => Py.Raise "'search_plan'"
  | Some search_plan =>
      match search search_plan with
      | Py.Raise e => Py.Raise e
      | Py.Ok found =>
          Py.Ok
            {| messages :=
                 messages state
                 ++ [folder_sign +++ " Found " +++ Py.str_of_Z (Py.len (files found))
                       +++ " files, " +++ Py.str_of_Z (Py.len (matches found))
                       +++ " code matches"];
               repo_path := repo_path state;
               github_url := github_url state;
               current_step := "Executing search";
               results := {| r_search_plan := r_search_plan (results state);
                             r_search_results := Some found;
                             r_code_analysis := r_code_analysis (results state) |};
               user_query := user_query state |}
      end
  end.

(** One round of the loop of [analyze_code] on the analysis so far, from
    what [read_file] returned for the file. *)
Definition analyze_one (acc : code_analysis) (file_info : file_info)
    (file_data : read_result) : code_analysis :=
  match file_data with
  | FileData _ content _ _ =>
      if Py.endswith (fi_path file_info) ".py" then
        let file_analysis :=
          analyze_python_file ast_parse cc_visit mi_visit content (fi_path file_info) in
        {| file_analyses := file_analyses acc ++ [file_analysis];
           issues := issues acc
                     ++ match file_analysis with
                        | Analysis a => a_issues a
                        | _ => []
                        end;
           suggestions := suggestions acc
                          ++ suggest_improvements format_1f file_analysis |}
      else acc
  | Error _ => acc
  end.

(** The loop of [analyze_code]; an exception of [read_file] leaves it. *)
Fixpoint analyze_files (repo : path) (files : list file_info) (acc : code_analysis)
  : Py.result code_analysis :=
  match files with
  | [] => Py.Ok acc
  | file_info :: files' =>
      match read_file fs repo (fi_path file_info) with
      | Py.Raise e => Py.Raise e
      | Py.Ok file_data =>
          analyze_files repo files' (analyze_one acc file_info file_data)
      end
  end.

Definition analyze_code (state : AgentState) : Py.result AgentState :=
  match r_search_results (results state) with
  | None => Py.Raise "'search_results'"
  | Some found =>
      let empty := {| file_analyses := []; issues := []; suggestions := [] |} in
      match
        match nonempty (self_repo_path self) with
        | Some repo_path => analyze_files (Path repo_path) (Py.take 5 (files found)) empty
        | None => Py.Ok empty
        end
      with
      | Py.Raise e => Py.Raise e
      | Py.Ok analysis =>
          Py.Ok
            {| messages :=
                 messages state
                 ++ [microscope_sign +++ " Analysis complete. Found "
                       +++ Py.str_of_Z (Py.len (issues analysis))
                       +++ " potential issues"];
               repo_path := repo_path state;
               github_url := github_url state;
               current_step := "Analyzing code";
               results := {| r_search_plan := r_search_plan (results state);
                             r_search_results := r_search_results (results state);
                             r_code_analysis := Some analysis |};
               user_query := user_query state |}
      end
  end.

(** The stages in the order of the graph, from the plan to the analysis;
    the two calls of the language model before and after them only add a
    message each. *)
Definition run_stages (state : AgentState) : Py.result AgentState :=
  match execute_search (plan_search state) with
  | Py.Ok searched => analyze_code searched
  | Py.Raise e => Py.Raise e
  end.

End Agent.
End CodeAssistantAgent.

(** ** More of [FileSystemMCP] and [CodeAnalyzerMCP] *)

Module FileSystemTools.
Import FS FileSystemMCP.

(** The test of [analyze_imports] on a stripped line. *)
Definition is_import_line (line : string) : bool :=
  Py.startswith line "import " || Py.startswith line "from ".

(** [analyze_imports(file_path)]: the stripped lines that start with
    [import ] or [from ]; nothing when the file gives no content. *)
Definition analyze_imports (fs : filesystem) (repo_path : path) (file_path : string)
  : Py.result (list string) :=
  match read_file fs repo_path file_path with
  | Py.Raise e => Py.Raise e
  | Py.Ok (FileData _ content _ _) =>
      Py.Ok (filter is_import_line (map Py.strip (Py.splitlines content)))
  | Py.Ok (Error _) => Py.Ok []
  end.

End FileSystemTools.

Module CodeAnalyzerTools.
Import CodeAnalyzerMCP.

(** The dict of [calculate_metrics]. *)
Record line_metrics : Type := {
  total_lines : Z;
  code_lines : Z;
  comment_lines : Z;
  blank_lines : Z
}.

Definition triple_double : string :=
  String (Py.chr 34) (String (Py.chr 34) (String (Py.chr 34) EmptyString)).
Definition triple_single : string := "'''".

Definition starts_triple (stripped : string) : bool :=
  Py.startswith stripped triple_double || Py.startswith stripped triple_single.

(** One round of the loop over the lines: the flag
    [in_multiline_comment] and the counts. *)
Definition count_line (state : bool * line_metrics) (line : string)
  : bool * line_metrics :=
  let '(in_multiline_comment, m) := state in
  let stripped := Py.strip line in
  if String.eqb stripped EmptyString then
    (in_multiline_comment,
     {| total_lines := total_lines m; code_lines := code_lines m;
        comment_lines := comment_lines m; blank_lines := blank_lines m + 1 |})
  else if starts_triple stripped then
    (negb in_multiline_comment,
     {| total_lines := total_lines m; code_lines := code_lines m;
        comment_lines := comment_lines m + 1; blank_lines := blank_lines m |})
  else if in_multiline_comment then
    (in_multiline_comment,
     {| total_lines := total_lines m; code_lines := code_lines m;
        comment_lines := comment_lines m + 1; blank_lines := blank_lines m |})
  else if Py.startswith stripped "#" then
    (in_multiline_comment,
     {| total_lines := total_lines m; code_lines := code_lines m;
        comment_lines := comment_lines m + 1; blank_lines := blank_lines m |})
  else
    (in_multiline_comment,
     {| total_lines := total_lines m; code_lines := code_lines m + 1;
        comment_lines := comment_lines m; blank_lines := blank_lines m |}).

Definition calculate_metrics (content : string) (language : string) : line_metrics :=
  let lines := Py.splitlines content in
  let metrics :=
    {| total_lines := Py.len lines; code_lines := 0;
       comment_lines := 0; blank_lines := 0 |}%Z in
  if String.eqb language "python"
  then snd (fold_left count_line lines (false, metrics))
  else metrics.

(** [isinstance(n, ast.Name)] and [b.id]. *)
Definition name_id (n : ast) : list string :=
  match n with Name id => [id] | _ => [] end.

Definition method_name (n : ast) : list string :=
  match n with FunctionDef name _ _ _ _ => [name] | _ => [] end.

Section Classes.

Variable ast_parse : string -> parse_outcome.
Variable cleandoc : string -> string.

(** The entry [find_classes] appends for one node of the walk. *)
Definition find_class_entry (n : ast) : list Py.dict :=
  match n with
  | ClassDef name lineno bases body _ =>
      [[("name", Py.PyStr name); ("line", Py.PyInt lineno);
        ("methods", Py.PyList (map Py.PyStr (flat_map method_name body)));
        ("docstring",
           match get_docstring cleandoc body with
           | Some docstring =>
               if String.eqb docstring EmptyString then Py.PyNone
               else Py.PyStr (Py.str_take 100 docstring)
           | None => Py.PyNone
           end);
        ("bases", Py.PyList (map Py.PyStr (flat_map name_id bases)))]]
  | _ => []
  end.

(** [find_classes(content, 'python')]; an exception of the parser leaves
    the list empty, and any other language gives no class. *)
Definition find_classes (content : string) (language : string) : list Py.dict :=
  if String.eqb language "python" then
    match ast_parse content with
    | Parsed tree => flat_map find_class_entry (walk tree)
    | _ => []
    end
  else [].

End Classes.
End CodeAnalyzerTools.

(** ** GitHub server: the clone URL *)

Module GitHubTools.

(** [clone_repo_url(repo_url)]. *)
Definition clone_repo_url (repo_url : string) : string :=
  if Py.endswith repo_url ".git" then repo_url
  else Py.rstrip_char "/" repo_url +++ ".git".

End GitHubTools.

(** ** Fixtures: a file tree, a matcher, and sources with their trees *)

Module Examples.
Import FS FileSystemMCP CodeAnalyzerMCP CodeAssistantAgent.

Definition nl : string := String Py.LF EmptyString.
Definition dq : string := String (Py.chr 34) EmptyString.

(** Shell patterns with [*] and [?] only; enough for the patterns of the
    planner. *)
Fixpoint glob (pattern : string) : string -> bool :=
  match pattern with
  | EmptyString => fun s => match s with EmptyString => true | _ => false end
  | String p pattern' =>
      if Ascii.eqb p "*" then
        fix star (s : string) : bool :=
          glob pattern' s
          || match s with
             | EmptyString => false
             | String _ s' => star s'
             end
      else if Ascii.eqb p "?" then
        fun s => match s with
                 | String _ s' => glob pattern' s'
                 | EmptyString => false
                 end
      else
        fun s => match s with
                 | String c s' => Ascii.eqb c p && glob pattern' s'
                 | EmptyString => false
                 end
  end.

Definition fnmatch (name pattern : string) : bool := glob pattern name.

Definition auth_py : string :=
  "def login(user):" +++ nl
  +++ "    password = " +++ dq +++ "hunter2" +++ dq +++ nl
  +++ "    return user  # TODO: check Auth token" +++ nl.

Definition login_utils_py : string :=
  "import os" +++ nl +++ "AUTH_HEADER = 1" +++ nl +++ "x = eval(y)" +++ nl.

Definition passwd : string := "root:x:0:0:root:/root:/bin/sh" +++ nl.

Definition text_file (content : string) : node :=
  File (Py.strlen content) (Text content).

(** [/etc/passwd] next to the repository [/srv/repo]. *)
(** The length in bytes of the UTF-8 form of a text. *)
Fixpoint utf8_length (s : string) : nat :=
  match s with
  | EmptyString => 0
  | String c s' => (if Py.ord c <? 128 then 1 else 2) + utf8_length s'
  end.

(** Whether the walk along [ps] stops at a name of more than 255 bytes:
    the directories before the name exist, and the name is refused before
    the directory is searched for it. *)
Fixpoint long_name_reached (anc : list node) (cur : node) (ps : list string) : bool :=
  match ps with
  | [] => false
  | p :: ps' =>
      match cur with
      | File _ _ => false
      | Dir entries =>
          if String.eqb p ".." then
            match anc with
            | [] => long_name_reached [] cur ps'
            | up :: anc' => long_name_reached anc' up ps'
            end
          else if 255 <? utf8_length p then true
          else
            match lookup p entries with
            | Some child => long_name_reached (cur :: anc) child ps'
            | None => false
            end
      end
  end.

(** [stat_error] of a Linux file system: [os.stat] fails with
    ENAMETOOLONG on a path of 4096 bytes or more and on a path whose walk
    reaches a name of more than 255 bytes. *)
Definition linux_stat_error (top : node) (cwd : list string) (p : path)
  : option string :=
  if (4096 <=? utf8_length (path_str p))
     || long_name_reached [] top
          (if String.eqb (root p) "" then cwd ++ parts p else parts p)
  then Some ("[Errno 36] File name too long: '" +++ path_str p +++ "'")
  else None.

Definition disk_tree : node :=
  Dir [("etc", Dir [("passwd", text_file passwd)]);
       ("srv",
        Dir [("repo",
              Dir [("auth.py", text_file auth_py);
                   ("notes.txt", text_file "authorisation notes");
                   ("blob.py", File 4 Undecodable);
                   (".git", Dir [("auth_hook.py", text_file "auth")]);
                   ("lib", Dir [("login_utils.py", text_file login_utils_py)])])])].

Definition disk : filesystem :=
  {| tree := disk_tree;
     cwd := ["srv"];
     stat_error := linux_stat_error disk_tree ["srv"] |}.

(** A name of 300 characters. *)
Definition long_name : string := String.concat "" (repeat "a" 300).

Definition repo : path := Path "/srv/repo".

(** A module of four functions, each with a docstring, and its tree. *)
Definition documented_function (name : string) : string :=
  "def " +++ name +++ "():" +++ nl
  +++ "    " +++ dq +++ "Return the " +++ name +++ "." +++ dq +++ nl
  +++ "    return 0" +++ nl.

Definition documented_py : string :=
  documented_function "north" +++ documented_function "east"
  +++ documented_function "south" +++ documented_function "west".

Definition documented_def (name : string) (lineno : Z) : ast :=
  FunctionDef name lineno []
    [Expr (Constant (Some ("Return the " +++ name +++ ".")));
     Other [Constant None]]
    [].

Definition documented_tree : ast :=
  Module_ [documented_def "north" 1; documented_def "east" 4;
           documented_def "south" 7; documented_def "west" 10].

Definition broken_py : string := "def login(user:" +++ nl.

(** A source with a NUL character; CPython before 3.12 raises
    [ValueError] on it. *)
Definition nul_py : string := String (Py.chr 0) EmptyString.

(** A repository that holds the documented module only. *)
Definition documented_tree_on_disk : node :=
  Dir [("srv", Dir [("repo", Dir [("documented.py", text_file documented_py)])])].

Definition documented_disk : filesystem :=
  {| tree := documented_tree_on_disk;
     cwd := [];
     stat_error := linux_stat_error documented_tree_on_disk [] |}.

(** [ast.parse], tabulated on the sources above. *)
Definition ast_parse (content : string) : parse_outcome :=
  if String.eqb content documented_py then Parsed documented_tree
  else if String.eqb content broken_py then
    SyntaxError "'(' was never closed (<unknown>, line 1)" (Some 1%Z)
  else if String.eqb content nul_py then
    OtherException "source code string cannot contain null bytes"
  else if String.eqb content auth_py then
    Parsed (Module_ [FunctionDef "login" 1 ["user"]
                       [Other [Name "password"; Constant (Some "hunter2")];
                        Other [Name "user"]] []])
  else Parsed (Module_ []).

Definition cc_visit (content : string) : option (list cc_block) :=
  if String.eqb content documented_py then
    Some [{| cc_name := "north"; cc_complexity := 1; cc_lineno := 1 |};
          {| cc_name := "east"; cc_complexity := 1; cc_lineno := 4 |};
          {| cc_name := "south"; cc_complexity := 1; cc_lineno := 7 |};
          {| cc_name := "west"; cc_complexity := 1; cc_lineno := 10 |}]
  else None.

Definition mi_visit (content : string) : option float :=
  if String.eqb content documented_py then Some 100%float else None.

Definition format_1f (mi : float) : string :=
  if PrimFloat.eqb mi 100%float then "100.0" else "0.0".

Definition cleandoc (text : string) : string := text.

Definition requests_get (url : string) : GitHubMCP.http_outcome :=
  GitHubMCP.Response 403 (Py.Ok []).

Definition get_repo_info (url : string) : Py.dict :=
  [("error", Py.PyStr "Failed to fetch repo: 403")].

Definition local_agent : agent :=
  {| self_repo_path := Some "/srv/repo"; self_github_url := None |}.

Definition start (query : string) : AgentState :=
  {| messages := [];
     repo_path := "/srv/repo";
     github_url := EmptyString;
     current_step := "start";
     results := {| r_search_plan := None; r_search_results := None;
                   r_code_analysis := None |};
     user_query := query |}.

End Examples.

(** ** The notions the properties are stated with *)

(** [query] occurs in [text] when case is ignored: a block of [text]
    and [query] have the same lower-case form. *)
Definition occurs_ignoring_case (query text : string) : Prop :=
  exists pre mid post,
    text = pre +++ mid +++ post /\ Py.lower mid = Py.lower query.

(** The test of [search_in_files] on one line. *)
Definition line_contains (query line : string) : bool :=
  Py.contains (Py.lower query) (Py.lower line).



(** [os.stat] raises no error of its own on the files of a list, at the
    paths by which [read_file] reaches them from the repository. *)
Definition stat_quiet (fs : FS.filesystem) (repo_path : FS.path)
    (files : list FileSystemMCP.file_info) : Prop :=
  Forall
    (fun f =>
       FS.stat_error fs (FS.joinpath repo_path (FS.Path (FileSystemMCP.fi_path f)))
       = None)
    files.

(** A list assembled from at most [n] pieces of at most [per] elements
    each. *)
Definition chunked {A} (n per : nat) (l : list A) : Prop :=
  exists chunks,
    l = concat chunks
    /\ length chunks <= n
    /\ Forall (fun chunk => length chunk <= per) chunks.


(** [os.stat] raises no error of its own on the files that the analysis
    stage reads: the first five of the stored file list, when the agent
    has a local repository. *)
Definition analysis_quiet (fs : FS.filesystem) (self : CodeAssistantAgent.agent)
    (found : CodeAssistantAgent.search_results) : Prop :=
  match CodeAssistantAgent.nonempty (CodeAssistantAgent.self_repo_path self) with
  | Some p => stat_quiet fs (FS.Path p) (firstn 5 (CodeAssistantAgent.files found))
  | None => True
  end.

(** The local repository of the agent, when it has one, is a directory
    of the file tree. *)
Definition repo_is_directory (fs : FS.filesystem) (self : CodeAssistantAgent.agent) : bool :=
  match CodeAssistantAgent.nonempty (CodeAssistantAgent.self_repo_path self) with
  | Some p =>
      match FS.resolve fs (FS.Path p) with
      | Some (FS.Dir _) => true
      | _ => false
      end
  | None => true
  end.

(** The last character of a text. *)
Fixpoint last_char (s : string) : option ascii :=
  match s with
  | EmptyString => None
  | String c s' =>
      match s' with
      | EmptyString => Some c
      | String _ _ => last_char s'
      end
  end.

Definition starts_with_LF (s : string) : bool :=
  match s with
  | String c _ => Ascii.eqb c Py.LF
  | EmptyString => false
  end.

(** [a] is empty or ends with a line boundary, and that boundary is not
    a CR which the LF at the start of [b] would complete: the join of
    [a] and [b] falls between two lines. *)
Definition joined_at_line_boundary (a b : string) : bool :=
  match last_char a with
  | None => true
  | Some c => Py.is_linebreak c && negb (Ascii.eqb c Py.CR && starts_with_LF b)
  end.

(** An issue with its line number moved down by [k] lines. *)
Definition offset_issue (k : Z) (i : CodeAnalyzerMCP.issue) : CodeAnalyzerMCP.issue :=
  {| CodeAnalyzerMCP.i_type := CodeAnalyzerMCP.i_type i;
     CodeAnalyzerMCP.i_severity := CodeAnalyzerMCP.i_severity i;
     CodeAnalyzerMCP.i_line := (CodeAnalyzerMCP.i_line i + k)%Z;
     CodeAnalyzerMCP.i_message := CodeAnalyzerMCP.i_message i;
     CodeAnalyzerMCP.i_suggestion := CodeAnalyzerMCP.i_suggestion i |}.

Fixpoint all_space (s : string) : bool :=
  match s with
  | EmptyString => true
  | String c s' => Py.isspace c && all_space s'
  end.

(** The line matches the pattern of the detector: somewhere in it the
    word password in any case, then white space, an equals sign, white
    space and an opening quote. *)
Definition password_assignment (line : string) : Prop :=
  exists pre word ws1 ws2 q post,
    line = pre +++ word +++ ws1 +++ String "=" (ws2 +++ String q post)
    /\ Py.lower word = "password"
    /\ all_space ws1 = true
    /\ all_space ws2 = true
    /\ CodeAnalyzerMCP.is_quote q = true.

(** The issue the detector files for a hard-coded password on line [i]. *)
Definition password_issue (i : Z) : CodeAnalyzerMCP.issue :=
  {| CodeAnalyzerMCP.i_type := "security";
     CodeAnalyzerMCP.i_severity := "critical";
     CodeAnalyzerMCP.i_line := i;
     CodeAnalyzerMCP.i_message := "Hardcoded password detected";
     CodeAnalyzerMCP.i_suggestion :=
       "Use environment variables or secure secret management" |}.

(** A name that a directory entry can have. *)
Definition proper_name (n : string) : bool :=
  negb (String.eqb n EmptyString) && negb (String.eqb n ".")
  && negb (String.eqb n "..") && negb (Py.contains "/" n).

Fixpoint names_distinct {A} (entries : list (string * A)) : bool :=
  match entries with
  | [] => true
  | (n, _) :: entries' =>
      negb (existsb (fun e => String.eqb (fst e) n) entries')
      && names_distinct entries'
  end.

(** A file tree as a file system holds it: in every directory the names
    are proper and differ from each other. *)
Fixpoint well_formed (n : FS.node) : bool :=
  match n with
  | FS.File _ _ => true
  | FS.Dir entries =>
      names_distinct entries
      && forallb (fun e => proper_name (fst e) && well_formed (snd e)) entries
  end.

Fixpoint node_size (n : FS.node) : nat :=
  match n with
  | FS.File _ _ => 1
  | FS.Dir entries => S (list_sum (map (fun e => node_size (snd e)) entries))
  end.

(** The node reached from [cur] along the names [rel]. *)
Fixpoint descend (cur : FS.node) (rel : list string) : option FS.node :=
  match rel with
  | [] => Some cur
  | p :: rel' =>
      match cur with
      | FS.Dir entries =>
          match FS.lookup p entries with
          | Some child => descend child rel'
          | None => None
          end
      | FS.File _ _ => None
      end
  end.

(** What [read_file] makes of the outcome of reading a file. *)
Definition read_result_of (file_path : string) (data : FS.read_outcome)
  : FileSystemMCP.read_result :=
  match data with
  | FS.Text content =>
      FileSystemMCP.FileData file_path content
        (Py.len (Py.splitlines content)) (Py.strlen content)
  | FS.Undecodable => FileSystemMCP.Error "Binary file or encoding issue"
  | FS.Unreadable msg => FileSystemMCP.Error msg
  end.

(** [target] lies in the tree below [cur] under the names [rel], one
    directory entry for each name. *)
Fixpoint at_path (cur : FS.node) (rel : list string) (target : FS.node) : Prop :=
  match rel with
  | [] => cur = target
  | d :: rel' =>
      match cur with
      | FS.Dir entries =>
          exists child, In (d, child) entries /\ at_path child rel' target
      | FS.File _ _ => False
      end
  end.

(** The descriptor [list_files] makes for the file [filename] of size
    [st_size] in the directory [dirs] of the repository. *)
Definition descriptor (dirs : list string) (filename : string) (st_size : Z)
  : FileSystemMCP.file_info :=
  {| FileSystemMCP.fi_path := Py.join "/" (dirs ++ [filename]);
     FileSystemMCP.fi_size := st_size;
     FileSystemMCP.fi_extension := FS.suffix filename;
     FileSystemMCP.fi_name := filename |}.

(** The match [search_in_files] makes for line [idx] (from 0) of a file. *)
Definition match_of (file : string) (lines : list string) (idx : nat) (line : string)
  : FileSystemMCP.search_match :=
  {| FileSystemMCP.sm_file := file;
     FileSystemMCP.sm_line := Z.of_nat idx + 1;
     FileSystemMCP.sm_content := Py.strip line;
     FileSystemMCP.sm_context :=
       FileSystemMCP._get_context lines (Z.of_nat idx + 1) |}.

(** The number of lines of a file as [read_file] gives it; what it does
    not return as text has none. *)
Definition lines_of (r : Py.result FileSystemMCP.read_result) : nat :=
  match r with
  | Py.Ok (FileSystemMCP.FileData _ content _ _) => length (Py.splitlines content)
  | _ => 0
  end.

(** How [calculate_metrics] sees a line once it is stripped. *)
Definition is_blank (line : string) : bool :=
  String.eqb (Py.strip line) EmptyString.

Definition is_triple (line : string) : bool :=
  CodeAnalyzerTools.starts_triple (Py.strip line).

Definition is_hash (line : string) : bool :=
  negb (is_blank line) && Py.startswith (Py.strip line) "#".

Definition is_plain (line : string) : bool :=
  negb (is_blank line) && negb (Py.startswith (Py.strip line) "#").

Definition count {A} (test : A -> bool) (l : list A) : Z :=
  Z.of_nat (length (filter test l)).

(** All the nodes of a tree, parents first. *)
Fixpoint nodes (n : CodeAnalyzerMCP.ast) : list CodeAnalyzerMCP.ast :=
  n ::
  match n with
  | CodeAnalyzerMCP.Module_ body => flat_map nodes body
  | CodeAnalyzerMCP.FunctionDef _ _ _ body decorator_list =>
      flat_map nodes body ++ flat_map nodes decorator_list
  | CodeAnalyzerMCP.AsyncFunctionDef _ _ _ body decorator_list =>
      flat_map nodes body ++ flat_map nodes decorator_list
  | CodeAnalyzerMCP.ClassDef _ _ bases body decorator_list =>
      flat_map nodes bases ++ flat_map nodes body ++ flat_map nodes decorator_list
  | CodeAnalyzerMCP.Import _ => []
  | CodeAnalyzerMCP.ImportFrom _ => []
  | CodeAnalyzerMCP.Expr value => nodes value
  | CodeAnalyzerMCP.Constant _ => []
  | CodeAnalyzerMCP.Name _ => []
  | CodeAnalyzerMCP.Other children => flat_map nodes children
  end.

(** What an entry for a function says of it, with the parameters as
    their number. *)
Definition function_summary (f : Py.dict)
  : option Py.pyval * option Py.pyval * option Py.pyval :=
  (Py.dict_get f "name", Py.dict_get f "line",
   match Py.dict_get f "args" with
   | Some (Py.PyList l) => Some (Py.PyInt (Py.len l))
   | other => other
   end).

(** What an entry for a class says of it, with the methods as their
    number. *)
Definition class_summary (c : Py.dict)
  : option Py.pyval * option Py.pyval * option Py.pyval :=
  (Py.dict_get c "name", Py.dict_get c "line",
   match Py.dict_get c "methods" with
   | Some (Py.PyList l) => Some (Py.PyInt (Py.len l))
   | other => other
   end).

(** The lines [calculate_metrics] has classified. *)
Definition counted_lines (m : CodeAnalyzerTools.line_metrics) : Z :=
  (CodeAnalyzerTools.code_lines m + CodeAnalyzerTools.comment_lines m
   + CodeAnalyzerTools.blank_lines m)%Z.

(** ** More fixtures *)

Module MoreExamples.

(** A function whose docstring opens and closes on one line. *)
Definition north_docstring : string :=
  "    " +++ CodeAnalyzerTools.triple_double +++ "Return the north."
  +++ CodeAnalyzerTools.triple_double.

Definition north_py : string :=
  "def north():" +++ Examples.nl +++ north_docstring +++ Examples.nl
  +++ "    return 0" +++ Examples.nl.

(** A class with a base, two methods and an asynchronous one, and its
    tree. *)
Definition shapes_py : string :=
  "class Square(Shape, abc.ABC):" +++ Examples.nl
  +++ "    def area(self):" +++ Examples.nl
  +++ "        return self.side ** 2" +++ Examples.nl
  +++ "    def name(self):" +++ Examples.nl
  +++ "        return 'square'" +++ Examples.nl
  +++ "    async def draw(self):" +++ Examples.nl
  +++ "        pass" +++ Examples.nl.

Definition shapes_tree : CodeAnalyzerMCP.ast :=
  CodeAnalyzerMCP.Module_
    [CodeAnalyzerMCP.ClassDef "Square" 1
       [CodeAnalyzerMCP.Name "Shape";
        CodeAnalyzerMCP.Other [CodeAnalyzerMCP.Name "abc"]]
       [CodeAnalyzerMCP.FunctionDef "area" 2 ["self"]
          [CodeAnalyzerMCP.Other [CodeAnalyzerMCP.Other [CodeAnalyzerMCP.Name "self"]]] [];
        CodeAnalyzerMCP.FunctionDef "name" 4 ["self"]
          [CodeAnalyzerMCP.Other [CodeAnalyzerMCP.Constant (Some "square")]] [];
        CodeAnalyzerMCP.AsyncFunctionDef "draw" 6 ["self"]
          [CodeAnalyzerMCP.Other []] []]
       []].

Definition ast_parse (content : string) : CodeAnalyzerMCP.parse_outcome :=
  if String.eqb content shapes_py then CodeAnalyzerMCP.Parsed shapes_tree
  else Examples.ast_parse content.

(** An agent whose local repository does not exist. *)
Definition lost_agent : CodeAssistantAgent.agent :=
  {| CodeAssistantAgent.self_repo_path := Some "/srv/missing";
     CodeAssistantAgent.self_github_url := None |}.

(** An agent with a GitHub URL and no local repository. *)
Definition remote_agent : CodeAssistantAgent.agent :=
  {| CodeAssistantAgent.self_repo_path := None;
     CodeAssistantAgent.self_github_url :=
       Some "https://github.com/abuzerexe/code-assistant" |}.

(** The state after the search stage on a question about authentication. *)
Definition searched : CodeAssistantAgent.AgentState :=
  match CodeAssistantAgent.execute_search Examples.fnmatch Examples.disk
          Examples.requests_get Examples.get_repo_info Examples.local_agent
          (CodeAssistantAgent.plan_search
             (Examples.start "How does authentication work?")) with
  | Py.Ok state => state
  | Py.Raise _ => Examples.start "How does authentication work?"
  end.

End MoreExamples.

(** The docstring value of an entry of [find_functions] is [None] or a
    text of 1 to 100 characters. *)
Definition short_docstring (f : Py.dict) : Prop :=
  Py.dict_get f "docstring" = Some Py.PyNone
  \/ exists text,
       Py.dict_get f "docstring" = Some (Py.PyStr text)
       /\ 1 <= String.length text <= 100.

(** The issues an analysis holds under the key [issues]. *)
Definition issues_of (r : CodeAnalyzerMCP.analysis_result) : list CodeAnalyzerMCP.issue :=
  match r with
  | CodeAnalyzerMCP.Analysis a => CodeAnalyzerMCP.a_issues a
  | _ => []
  end.

(** The value under the key [file] of an analysis. *)
Definition file_of (r : CodeAnalyzerMCP.analysis_result) : string :=
  match r with
  | CodeAnalyzerMCP.Analysis a => CodeAnalyzerMCP.a_file a
  | CodeAnalyzerMCP.SyntaxErrorResult file _ _ => file
  | CodeAnalyzerMCP.ErrorResult file _ => file
  end.


(** [k] slashes. *)
Fixpoint slashes (k : nat) : string :=
  match k with
  | O => EmptyString
  | S k' => String "/" (slashes k')
  end.

(** The paths to the files shown under a list of tree nodes: the names
    of the directories to go through, then the name of the file. *)
Inductive shown : list FileSystemMCP.tree_node -> list string -> Prop :=
| shown_file cs f ext :
    In (FileSystemMCP.TreeFile f ext) cs -> shown cs [f]
| shown_dir cs d sub rel :
    In (FileSystemMCP.TreeDir d sub) cs -> shown sub rel -> shown cs (d :: rel).

(** A name that the directory tree does not skip. *)
Definition tree_visible (item : string) : bool :=
  negb (Py.startswith item "."
        || Py.mem item ["node_modules"; "venv"; "__pycache__"]).

Definition is_tree_file (t : FileSystemMCP.tree_node) : bool :=
  match t with
  | FileSystemMCP.TreeFile _ _ => true
  | FileSystemMCP.TreeDir _ _ => false
  end.

(** Directories stand before files. *)
Fixpoint dirs_first (cs : list FileSystemMCP.tree_node) : bool :=
  match cs with
  | [] => true
  | FileSystemMCP.TreeDir _ _ :: cs' => dirs_first cs'
  | FileSystemMCP.TreeFile _ _ :: cs' => forallb is_tree_file cs'
  end.

(** A subtree as the directory tree holds it: no directory in it is
    empty, and in each one directories stand before files. *)
Fixpoint tidy (t : FileSystemMCP.tree_node) : bool :=
  match t with
  | FileSystemMCP.TreeFile _ _ => true
  | FileSystemMCP.TreeDir _ cs =>
      match cs with [] => false | _ :: _ => true end
      && dirs_first cs && forallb tidy cs
  end.

(** Finds an entry in a list written out. *)
Ltac find_entry := first [left; reflexivity | right; find_entry].

(** * Properties *)

(** ** Text *)

Section TextFacts.

Lemma append_empty_r (s : string) : s +++ EmptyString = s.
Proof. induction s as [|c s IH]; simpl; [reflexivity | now rewrite IH]. Qed.

Lemma append_assoc (a b c : string) : (a +++ b) +++ c = a +++ b +++ c.
Proof. induction a as [|x a IH]; simpl; [reflexivity | now rewrite IH]. Qed.

Lemma prefix_refl_app (n post : string) : prefix n (n +++ post) = true.
Proof.
  induction n as [|c n IH]; simpl.
  - now destruct post.
  - destruct (ascii_dec c c) as [_|ne]; [exact IH | now elim ne].
Qed.

Lemma prefix_inv (n h : string) :
  prefix n h = true -> exists post, h = n +++ post.
Proof.
  revert h; induction n as [|c n IH]; intros h H.
  - exists h; reflexivity.
  - destruct h as [|d h]; simpl in H; [discriminate|].
    destruct (ascii_dec c d) as [->|]; [|discriminate].
    destruct (IH h H) as [post ->].
    exists post; reflexivity.
Qed.

Lemma contains_nil (n : string) :
  Py.contains n EmptyString = prefix n EmptyString.
Proof. unfold Py.contains. apply orb_false_r. Qed.

Lemma contains_cons (n : string) (c : ascii) (h : string) :
  Py.contains n (String c h) = prefix n (String c h) || Py.contains n h.
Proof. reflexivity. Qed.

(** [needle in hay] holds exactly when [hay] splits around [needle]. *)
Lemma contains_iff (n h : string) :
  Py.contains n h = true <-> exists pre post, h = pre +++ n +++ post.
Proof.
  split.
  - induction h as [|c h IH]; intro H.
    + rewrite contains_nil in H.
      destruct (prefix_inv _ _ H) as [post E]. now exists EmptyString, post.
    + rewrite contains_cons in H. apply orb_true_iff in H as [H|H].
      * destruct (prefix_inv _ _ H) as [post E]. now exists EmptyString, post.
      * destruct (IH H) as (pre & post & ->).
        now exists (String c pre), post.
  - intros (pre & post & ->).
    induction pre as [|c pre IH].
    + change (EmptyString +++ n +++ post) with (n +++ post).
      assert (P := prefix_refl_app n post).
      destruct (n +++ post).
      * now rewrite contains_nil.
      * now rewrite contains_cons, P.
    + change (String c pre +++ n +++ post) with (String c (pre +++ n +++ post)).
      rewrite contains_cons, IH. apply orb_true_r.
Qed.

Lemma lower_app (a b : string) : Py.lower (a +++ b) = Py.lower a +++ Py.lower b.
Proof. induction a as [|c a IH]; simpl; [reflexivity | now rewrite IH]. Qed.

Lemma lower_app_inv (s x y : string) :
  Py.lower s = x +++ y ->
  exists a b, s = a +++ b /\ Py.lower a = x /\ Py.lower b = y.
Proof.
  revert s; induction x as [|c x IH]; intros s H.
  - now exists EmptyString, s.
  - destruct s as [|d s]; simpl in H; [discriminate|].
    injection H as Hc Hs.
    destruct (IH s Hs) as (a & b & -> & Ha & Hb).
    exists (String d a), b. simpl. now rewrite Hc, Ha.
Qed.

End TextFacts.

(** The test of the code, [query.lower() in text.lower()], decides it. *)
Lemma contains_lower_iff (query text : string) :
  Py.contains (Py.lower query) (Py.lower text) = true
  <-> occurs_ignoring_case query text.
Proof.
  rewrite contains_iff. split.
  - intros (pre & post & H).
    apply lower_app_inv in H as (a & b & -> & Ha & Hb).
    apply lower_app_inv in Hb as (m & c & -> & Hm & Hc).
    now exists a, m, c.
  - intros (pre & mid & post & -> & H).
    exists (Py.lower pre), (Py.lower post).
    now rewrite !lower_app, H.
Qed.

(** ** The search planner *)

Section Planner.
Import CodeAssistantAgent.

Lemma choose_plan_auth (q : string) :
  Py.contains "auth" (Py.lower q) = true
  \/ Py.contains "authentication" (Py.lower q) = true ->
  choose_plan q =
    {| patterns := ["*auth*.py"; "*login*.py"];
       keywords := ["auth"; "login"; "password"; "token"];
       file_types := [] |}.
Proof.
  intros H. unfold choose_plan.
  destruct H as [H|H]; rewrite H; [rewrite orb_true_r|]; reflexivity.
Qed.

(** C2.  For every query that contains "auth" or "authentication" when
    case is ignored, the plan that [plan_search] stores has the keyword
    list auth, login, password, token and the pattern list *auth*.py,
    *login*.py, in that order. *)
Theorem plan_search_authentication (state : AgentState) :
  occurs_ignoring_case "auth" (user_query state)
  \/ occurs_ignoring_case "authentication" (user_query state) ->
  exists plan,
    r_search_plan (results (plan_search state)) = Some plan
    /\ keywords plan = ["auth"; "login"; "password"; "token"]
    /\ patterns plan = ["*auth*.py"; "*login*.py"].
Proof.
  intros H.
  exists (choose_plan (user_query state)). split; [reflexivity|].
  rewrite choose_plan_auth; [split; reflexivity|].
  destruct H as [H|H]; [left|right];
    apply (proj2 (contains_lower_iff _ _)) in H; exact H.
Qed.

Lemma plan_search_authentication_witness :
  exists plan,
    r_search_plan
      (results (plan_search (Examples.start "How does AUTHentication work?")))
    = Some plan
    /\ keywords plan = ["auth"; "login"; "password"; "token"]
    /\ patterns plan = ["*auth*.py"; "*login*.py"].
Proof.
  apply plan_search_authentication. left.
  exists "How does ", "AUTH", "entication work?". split; reflexivity.
Defined.

(** The stage leaves the query alone, replaces the analysis payload and
    appends one message. *)
Lemma plan_search_state (state : AgentState) :
  user_query (plan_search state) = user_query state
  /\ current_step (plan_search state) = "Planning search"
  /\ r_search_results (results (plan_search state)) = None
  /\ length (messages (plan_search state)) = S (length (messages state)).
Proof.
  repeat split. simpl. rewrite length_app. simpl. lia.
Qed.

End Planner.

(** ** Reading a file *)

Section ReadFile.
Import FS FileSystemMCP.

Variable fs : filesystem.
Variable repo_path : path.


(** When [os.stat] raises an error of its own, it leaves [read_file]:
    nothing is returned. *)
Lemma read_file_raises (file_path e : string) :
  stat_error fs (joinpath repo_path (Path file_path)) = Some e ->
  read_file fs repo_path file_path = Py.Raise e.
Proof. intros H. unfold read_file, exists_. now rewrite H. Qed.

(** [read_file] returns exactly when [os.stat] raises no such error. *)
Lemma read_file_returns (file_path : string) :
  stat_error fs (joinpath repo_path (Path file_path)) = None
  <-> exists r, read_file fs repo_path file_path = Py.Ok r.
Proof.
  unfold read_file, exists_.
  destruct (stat_error fs (joinpath repo_path (Path file_path))) as [e|].
  - split; [discriminate | intros [r H]; discriminate H].
  - split; [intros _; eexists; reflexivity | reflexivity].
Qed.

Lemma is_prefix_app (l l' : list string) : is_prefix l (l ++ l') = true.
Proof.
  induction l as [|x l IH]; simpl; [reflexivity|].
  now rewrite String.eqb_refl, IH.
Qed.

(** The containment test compares the parts as written, so a relative
    argument always passes it, with [..] or without. *)
Lemma relative_argument_passes (file_path : string) :
  root (Path file_path) = EmptyString ->
  is_relative_to (joinpath repo_path (Path file_path)) repo_path = true.
Proof.
  intros H. unfold joinpath, is_relative_to. rewrite H. simpl.
  now rewrite String.eqb_refl, is_prefix_app.
Qed.

(** What [read_file] returns for a relative argument that exists: the
    outcome of reading it, never the access-denied error of its own. *)
Lemma read_file_relative (file_path : string) :
  root (Path file_path) = EmptyString ->
  exists_ fs (joinpath repo_path (Path file_path)) = Py.Ok true ->
  read_file fs repo_path file_path =
    Py.Ok
      match open_read fs (joinpath repo_path (Path file_path)) with
      | Text content =>
          FileData file_path content (Py.len (Py.splitlines content))
            (Py.strlen content)
      | Undecodable => Error "Binary file or encoding issue"
      | Unreadable msg => Error msg
      end.
Proof.
  intros Hrel Hex. unfold read_file.
  now rewrite Hex, (relative_argument_passes _ Hrel).
Qed.

End ReadFile.



(** C1.  The repository is [/srv/repo] and [/etc/passwd] exists: the
    argument [../../etc/passwd] leaves the repository, and [read_file]
    returns the content of [/etc/passwd]. *)
Theorem read_file_escapes_repository :
  FileSystemMCP.read_file Examples.disk Examples.repo "../../etc/passwd"
  = Py.Ok (FileSystemMCP.FileData "../../etc/passwd" Examples.passwd 1 30).
Proof. reflexivity. Qed.

(** An absolute argument outside the repository is the one case the
    containment test refuses. *)
Example read_file_absolute_outside :
  FileSystemMCP.read_file Examples.disk Examples.repo "/etc/passwd"
  = Py.Ok (FileSystemMCP.Error "Access denied: Path outside repository").
Proof. reflexivity. Qed.

Example read_file_inside :
  FileSystemMCP.read_file Examples.disk Examples.repo "lib/login_utils.py"
  = Py.Ok (FileSystemMCP.FileData "lib/login_utils.py" Examples.login_utils_py 3 38).
Proof. reflexivity. Qed.

(** A name of 300 characters below a directory that is missing: the walk
    stops at the missing directory, and the location is simply not
    found. *)
Example read_file_long_name_below_missing :
  FileSystemMCP.read_file Examples.disk Examples.repo
    ("missing/" +++ Examples.long_name)
  = Py.Ok (FileSystemMCP.Error ("File not found: missing/" +++ Examples.long_name)).
Proof. vm_compute. reflexivity. Qed.

Example list_files_example :
  map FileSystemMCP.fi_path
    (FileSystemMCP.list_files Examples.fnmatch Examples.disk Examples.repo "*.py")
  = ["auth.py"; "blob.py"; "lib/login_utils.py"].
Proof. reflexivity. Qed.

(** ** Searching text *)

Section Search.
Import FS FileSystemMCP.

Variable fnmatch : string -> string -> bool.
Variable fs : filesystem.
Variable repo_path : path.

Lemma line_contains_iff (query line : string) :
  line_contains query line = true <-> occurs_ignoring_case query line.
Proof. apply contains_lower_iff. Qed.

(** A loop that appends one item for each enumerated element passing a
    test appends as many items as elements pass. *)
Lemma length_selected {A B} (test : A -> bool) (item : Z -> A -> B)
    (start : Z) (l : list A) :
  length (flat_map (fun '(n, x) => if test x then [item n x] else [])
            (Py.enumerate start l))
  = length (filter test l).
Proof.
  revert start; induction l as [|x l IH]; intros start; simpl; [reflexivity|].
  rewrite length_app, IH. now destruct (test x).
Qed.

Lemma length_matches_in (query file : string) (lines : list string) :
  length (matches_in query file lines) = length (filter (line_contains query) lines).
Proof.
  unfold matches_in.
  apply (length_selected (line_contains query)
           (fun line_num line =>
              {| sm_file := file; sm_line := line_num;
                 sm_content := Py.strip line;
                 sm_context := _get_context lines line_num |})).
Qed.

(** What the loop over the files returns, when it returns: the matches
    of each file in turn, from what [read_file] returned for it. *)
Lemma search_files_in (query : string) (files : list file_info)
    (ms : list search_match) (m : search_match) :
  search_files fs repo_path query files = Py.Ok ms ->
  In m ms
  <-> exists f d,
        In f files
        /\ read_file fs repo_path (fi_path f) = Py.Ok d
        /\ In m (file_matches query f d).
Proof.
  revert ms; induction files as [|f files IH]; intros ms H; simpl in H.
  - injection H as <-. split; [contradiction | intros (f & d & [] & _)].
  - destruct (read_file fs repo_path (fi_path f)) as [d|] eqn:R; [|discriminate].
    destruct (search_files fs repo_path query files) as [rest|]; [|discriminate].
    injection H as <-. rewrite in_app_iff, (IH rest eq_refl). split.
    + intros [H|(f' & d' & Hf & Hr & Hm)].
      * exists f, d. repeat split; [now left | assumption..].
      * exists f', d'. repeat split; [now right | assumption..].
    + intros (f' & d' & [<-|Hf] & Hr & Hm).
      * left. rewrite R in Hr. now injection Hr as <-.
      * right. now exists f', d'.
Qed.

Lemma search_files_length (query : string) (files : list file_info)
    (ms : list search_match) :
  search_files fs repo_path query files = Py.Ok ms ->
  length ms
  = list_sum
      (map (fun f =>
              match read_file fs repo_path (fi_path f) with
              | Py.Ok d => length (file_matches query f d)
              | Py.Raise _ => 0
              end) files).
Proof.
  revert ms; induction files as [|f files IH]; intros ms H; simpl in H.
  - now injection H as <-.
  - simpl. destruct (read_file fs repo_path (fi_path f)) as [d|]; [|discriminate].
    destruct (search_files fs repo_path query files) as [rest|]; [|discriminate].
    injection H as <-. now rewrite length_app, (IH rest eq_refl).
Qed.


(** Every match names a listed file, a line of it that contains the
    query, and that line's number. *)
Lemma search_in_files_sound (query file_pattern : string)
    (ms : list search_match) (m : search_match) :
  search_in_files fnmatch fs repo_path query file_pattern = Py.Ok ms ->
  In m ms ->
  exists file_info p content n k line,
    In file_info (list_files fnmatch fs repo_path file_pattern)
    /\ sm_file m = fi_path file_info
    /\ read_file fs repo_path (fi_path file_info) = Py.Ok (FileData p content n k)
    /\ nth_error (Py.splitlines content) (Z.to_nat (sm_line m - 1)) = Some line
    /\ (1 <= sm_line m)%Z
    /\ occurs_ignoring_case query line
    /\ sm_content m = Py.strip line.
Proof.
  unfold search_in_files. intros Hok Hin.
  apply (search_files_in _ _ _ _ Hok) in Hin as (file_info & d & Hin & E & Hm).
  destruct d as [p content n k|]; [|contradiction].
  exists file_info, p, content, n, k.
  unfold file_matches, matches_in in Hm.
  set (lines := Py.splitlines content) in *.
  assert (G : forall start ls,
             In m (flat_map
                     (fun '(line_num, line) =>
                        if Py.contains (Py.lower query) (Py.lower line)
                        then [{| sm_file := fi_path file_info; sm_line := line_num;
                                 sm_content := Py.strip line;
                                 sm_context := _get_context lines line_num |}]
                        else []) (Py.enumerate start ls)) ->
             exists line, nth_error ls (Z.to_nat (sm_line m - start)) = Some line
                          /\ (start <= sm_line m)%Z
                          /\ line_contains query line = true
                          /\ sm_file m = fi_path file_info
                          /\ sm_content m = Py.strip line).
  { intros start ls; revert start.
    induction ls as [|x ls IH]; intros start H; simpl in H; [contradiction|].
    apply in_app_or in H as [H|H].
    - destruct (Py.contains (Py.lower query) (Py.lower x)) eqn:C; [|contradiction].
      destruct H as [<-|[]]. simpl. exists x.
      rewrite Z.sub_diag. repeat split; try assumption. lia.
    - destruct (IH _ H) as (line & Hn & Hle & Hc & Hf & Hs).
      exists line. repeat split; try assumption; [|lia].
      replace (Z.to_nat (sm_line m - start)) with (S (Z.to_nat (sm_line m - (start + 1))))
        by lia.
      exact Hn. }
  destruct (G 1%Z lines Hm) as (line & Hn & Hle & Hc & Hf & Hs).
  exists line. repeat split; try assumption.
  now apply line_contains_iff.
Qed.

End Search.

Example search_in_files_example :
  match FileSystemMCP.search_in_files Examples.fnmatch Examples.disk Examples.repo
          "auth" "*.py" with
  | Py.Ok ms =>
      map (fun m => (FileSystemMCP.sm_file m, FileSystemMCP.sm_line m,
                     FileSystemMCP.sm_content m)) ms
      = [("auth.py", 3%Z, "return user  # TODO: check Auth token");
         ("lib/login_utils.py", 2%Z, "AUTH_HEADER = 1")]
  | Py.Raise _ => False
  end.
Proof. reflexivity. Qed.

(** ** Bounded fan-out of the search stage *)

Section Chunks.
Context {A B : Type}.

Lemma chunked_length (n per : nat) (l : list A) :
  chunked n per l -> length l <= n * per.
Proof.
  intros (chunks & -> & Hn & Hall).
  enough (length (concat chunks) <= length chunks * per) by nia.
  clear Hn. induction Hall as [|c cs Hc _ IH]; simpl; [lia|].
  rewrite length_app. lia.
Qed.

Lemma chunked_nil (n per : nat) : chunked n per (@nil A).
Proof. exists []. repeat split; simpl; [lia | constructor]. Qed.

Lemma chunked_weaken (n per per' : nat) (l : list A) :
  per <= per' -> chunked n per l -> chunked n per' l.
Proof.
  intros Hle (chunks & -> & Hn & Hall).
  exists chunks. repeat split; [assumption|].
  eapply Forall_impl; [|exact Hall]. simpl. intros; lia.
Qed.

(** A loop over the first [n] elements that keeps at most [per] results
    in each round. *)
Lemma chunked_loop (n per : nat) (f : B -> list A) (l : list B) :
  (forall x, length (f x) <= per) ->
  chunked n per (flat_map f (Py.take n l)).
Proof.
  intros Hf. exists (map f (Py.take n l)). repeat split.
  - apply flat_map_concat_map.
  - rewrite length_map. apply firstn_le_length.
  - apply Forall_forall. intros c Hc. apply in_map_iff in Hc as (x & <- & _).
    apply Hf.
Qed.

End Chunks.

Section RemoteSearch.
Import GitHubMCP.

Variable requests_get : string -> http_outcome.

Lemma collect_items_length (items results : list Py.dict) :
  collect_items items = Py.Ok results -> length results = length items.
Proof.
  revert results; induction items as [|item items IH]; intros results H; simpl in H.
  - now injection H as <-.
  - destruct (getitem item "name"), (getitem item "path"), (getitem item "html_url");
      try discriminate.
    destruct (collect_items items) as [rs|]; [|discriminate].
    injection H as <-. simpl. now rewrite (IH rs).
Qed.

(** [search_code] returns at most 10 entries. *)
Lemma search_code_length (query repo_url : string) :
  length (search_code requests_get query repo_url) <= 10.
Proof.
  unfold search_code.
  destruct (owner_repo repo_url) as [[owner repo]|]; [|simpl; lia].
  destruct (requests_get _) as [status items|]; [|simpl; lia].
  destruct (status =? 200)%Z; [|simpl; lia].
  destruct items as [items|]; [|simpl; lia].
  destruct (collect_items (Py.take 10 items)) as [rs|] eqn:E; [|simpl; lia].
  rewrite (collect_items_length _ _ E). apply firstn_le_length.
Qed.

End RemoteSearch.

Section ExecuteSearch.
Import FS FileSystemMCP CodeAssistantAgent.

Variable fnmatch : string -> string -> bool.
Variable fs : filesystem.
Variable requests_get : string -> GitHubMCP.http_outcome.
Variable get_repo_info : string -> Py.dict.
Variable self : agent.

Let search := search fnmatch fs requests_get get_repo_info self.
Let execute_search := execute_search fnmatch fs requests_get get_repo_info self.







Lemma remote_matches_chunked (url : string) (plan : search_plan) :
  chunked 3 10 (remote_matches requests_get url plan).
Proof.
  apply chunked_loop. intros x. rewrite length_map. apply search_code_length.
Qed.


(** It raises when the local repository is not: no file is listed, and
    the directory tree asked for instead cannot be built. *)
Lemma search_raises (plan : search_plan) :
  repo_is_directory fs self = false -> exists e, search plan = Py.Raise e.
Proof.
  unfold repo_is_directory, search, CodeAssistantAgent.search.
  destruct (nonempty (self_repo_path self)) as [p|]; [|discriminate].
  intros Hdir.
  assert (Hnone : forall pattern, list_files fnmatch fs (Path p) pattern = []).
  { intros pattern. unfold list_files.
    destruct (resolve fs (Path p)) as [[sz data|entries]|]; try discriminate;
      reflexivity. }
  destruct (local_matches fnmatch fs (Path p) plan) as [found|e];
    [|now exists e].
  assert (E : local_files fnmatch fs (Path p) plan = []).
  { unfold local_files.
    induction (Py.take 5 (patterns plan)) as [|pattern l IH]; simpl;
      [reflexivity|]. rewrite Hnone. exact IH. }
  rewrite E. unfold get_file_structure.
  destruct (resolve fs (Path p)) as [[sz data|entries]|]; try discriminate;
    eexists; reflexivity.
Qed.



End ExecuteSearch.


Example execute_search_example :
  match CodeAssistantAgent.search Examples.fnmatch Examples.disk Examples.requests_get
          Examples.get_repo_info Examples.local_agent
          (CodeAssistantAgent.choose_plan "How does authentication work?") with
  | Py.Ok found =>
      map FileSystemMCP.fi_path (CodeAssistantAgent.files found) = ["auth.py"; "lib/login_utils.py"]
      /\ length (CodeAssistantAgent.matches found) = 4
  | Py.Raise _ => False
  end.
Proof. vm_compute. split; reflexivity. Qed.

(** ** Lines *)

Section Lines.

Lemma splitlines_from_nil (cur : string) :
  Py.splitlines_from cur EmptyString
  = match cur with EmptyString => [] | _ => [Py.rev_string EmptyString cur] end.
Proof. reflexivity. Qed.

Lemma splitlines_from_char (cur : string) (c : ascii) (rest : string) :
  Py.is_linebreak c = false ->
  Py.splitlines_from cur (String c rest) = Py.splitlines_from (String c cur) rest.
Proof. intros H. simpl. now rewrite H. Qed.

Lemma splitlines_from_break (cur : string) (c : ascii) (rest : string) :
  Py.is_linebreak c = true ->
  Py.splitlines_from cur (String c rest)
  = Py.rev_string EmptyString cur :: Py.splitlines (Py.after_break c rest).
Proof.
  intros H. simpl. rewrite H. f_equal.
  destruct rest as [|d rest]; [reflexivity|].
  unfold Py.after_break, Py.splitlines.
  now destruct (Ascii.eqb c Py.CR && Ascii.eqb d Py.LF).
Qed.

Lemma joined_cons (c d : ascii) (s b : string) :
  joined_at_line_boundary (String c (String d s)) b
  = joined_at_line_boundary (String d s) b.
Proof. reflexivity. Qed.

Lemma after_break_app (c d : ascii) (s b : string) :
  Py.after_break c (String d s +++ b) = Py.after_break c (String d s) +++ b.
Proof.
  simpl. now destruct (Ascii.eqb c Py.CR && Ascii.eqb d Py.LF).
Qed.

Lemma after_break_length (c : ascii) (s : string) :
  String.length (Py.after_break c s) <= String.length s.
Proof.
  destruct s as [|d s]; simpl; [lia|].
  destruct (Ascii.eqb c Py.CR && Ascii.eqb d Py.LF); simpl; lia.
Qed.

Lemma after_break_joined (c d : ascii) (s b : string) :
  joined_at_line_boundary (String c (String d s)) b = true ->
  joined_at_line_boundary (Py.after_break c (String d s)) b = true.
Proof.
  rewrite joined_cons. intros H. simpl.
  destruct (Ascii.eqb c Py.CR && Ascii.eqb d Py.LF); [|exact H].
  destruct s as [|e s]; [reflexivity|].
  now rewrite joined_cons in H.
Qed.

(** When the join falls between two lines, the lines of the whole are
    the lines of the first text followed by the lines of the second. *)
Lemma splitlines_from_app (n : nat) :
  forall a, String.length a <= n ->
  forall cur b,
    (a = EmptyString -> cur = EmptyString) ->
    joined_at_line_boundary a b = true ->
    Py.splitlines_from cur (a +++ b) = Py.splitlines_from cur a ++ Py.splitlines b.
Proof.
  induction n as [|n IH]; intros a Hlen cur b Hcur Hj.
  - destruct a; [|simpl in Hlen; lia]. now rewrite (Hcur eq_refl).
  - destruct a as [|c a]; [now rewrite (Hcur eq_refl)|].
    change (String c a +++ b) with (String c (a +++ b)).
    simpl in Hlen.
    destruct (Py.is_linebreak c) eqn:Hc.
    + rewrite !splitlines_from_break by assumption.
      simpl. f_equal.
      destruct a as [|d a].
      * change (EmptyString +++ b) with b.
        unfold joined_at_line_boundary in Hj. simpl in Hj. rewrite Hc in Hj.
        destruct b as [|e b]; [reflexivity|].
        simpl in Hj. simpl. unfold Py.after_break.
        destruct (Ascii.eqb c Py.CR && Ascii.eqb e Py.LF); [discriminate | reflexivity].
      * rewrite after_break_app. unfold Py.splitlines. apply IH.
        -- assert (L := after_break_length c (String d a)).
           change (String.length (String d a)) with (S (String.length a)) in *. lia.
        -- reflexivity.
        -- now apply after_break_joined.
    + rewrite !splitlines_from_char by assumption.
      destruct a as [|d a].
      * unfold joined_at_line_boundary in Hj. simpl in Hj.
        rewrite Hc in Hj. discriminate.
      * apply IH; [simpl in *; lia | discriminate | now rewrite joined_cons in Hj].
Qed.

Lemma splitlines_app (a b : string) :
  joined_at_line_boundary a b = true ->
  Py.splitlines (a +++ b) = Py.splitlines a ++ Py.splitlines b.
Proof.
  intros H. unfold Py.splitlines.
  now apply (splitlines_from_app (String.length a)).
Qed.

Lemma enumerate_app {A} (start : Z) (l1 l2 : list A) :
  Py.enumerate start (l1 ++ l2)
  = Py.enumerate start l1 ++ Py.enumerate (start + Py.len l1)%Z l2.
Proof.
  revert start; induction l1 as [|x l1 IH]; intros start; simpl.
  - unfold Py.len. simpl. now rewrite Z.add_0_r.
  - rewrite IH. do 3 f_equal. unfold Py.len. simpl length. lia.
Qed.

Lemma enumerate_nth {A} (start : Z) (l : list A) (k : nat) (x : A) :
  nth_error l k = Some x -> In ((start + Z.of_nat k)%Z, x) (Py.enumerate start l).
Proof.
  revert start k; induction l as [|y l IH]; intros start k H.
  - now destruct k.
  - destruct k as [|k]; simpl in *.
    + injection H as ->. left. f_equal. lia.
    + right. replace (start + Z.pos (Pos.of_succ_nat k))%Z
        with ((start + 1) + Z.of_nat k)%Z by lia.
      now apply IH.
Qed.

End Lines.

(** ** The issue detector *)

Section Issues.
Import CodeAnalyzerMCP.

(** The rules look at the text of the line only: on another line number
    the same issues are filed, with that number. *)
Lemma line_issues_offset (k line_num : Z) (line : string) :
  line_issues (line_num + k) line = map (offset_issue k) (line_issues line_num line).
Proof.
  unfold line_issues. rewrite !map_app.
  repeat (f_equal; [match goal with |- context [if ?b then _ else _] =>
                      destruct b; reflexivity end|]).
  match goal with |- context [if ?b then _ else _] => destruct b; reflexivity end.
Qed.

Lemma detect_offset (k start : Z) (lines : list string) :
  flat_map (fun '(line_num, line) => line_issues line_num line)
    (Py.enumerate (start + k) lines)
  = map (offset_issue k)
      (flat_map (fun '(line_num, line) => line_issues line_num line)
         (Py.enumerate start lines)).
Proof.
  revert start; induction lines as [|l lines IH]; intros start; simpl; [reflexivity|].
  rewrite map_app, <- line_issues_offset. f_equal.
  replace (start + k + 1)%Z with ((start + 1) + k)%Z by lia.
  apply IH.
Qed.

(** C5, as amended.  When the first content is empty or ends with a line
    boundary that the second does not complete, the issues of the
    concatenation are the issues of the first content followed by those of
    the second with each line number raised by the line count of the
    first. *)
Theorem detect_issues_concat (a b : string) :
  joined_at_line_boundary a b = true ->
  _detect_python_issues (a +++ b)
  = _detect_python_issues a
    ++ map (offset_issue (Py.len (Py.splitlines a))) (_detect_python_issues b).
Proof.
  intros H. unfold _detect_python_issues.
  rewrite (splitlines_app a b H), enumerate_app, flat_map_app. f_equal.
  apply detect_offset.
Qed.

Lemma detect_issues_concat_witness :
  joined_at_line_boundary Examples.auth_py Examples.login_utils_py = true
  /\ _detect_python_issues (Examples.auth_py +++ Examples.login_utils_py)
     = _detect_python_issues Examples.auth_py
       ++ map (offset_issue (Py.len (Py.splitlines Examples.auth_py)))
            (_detect_python_issues Examples.login_utils_py).
Proof.
  split; [reflexivity|].
  apply (detect_issues_concat Examples.auth_py Examples.login_utils_py).
  reflexivity.
Defined.

(** C5, as stated, fails: the first content ends inside a line, the
    join completes a call of eval, and an issue appears that neither
    content has. *)
Lemma detect_issues_concat_counterexample :
  _detect_python_issues ("x = ev" +++ "al(y)")
  <> _detect_python_issues "x = ev"
     ++ map (offset_issue (Py.len (Py.splitlines "x = ev")))
          (_detect_python_issues "al(y)").
Proof. vm_compute. discriminate. Qed.

(** Without a new issue the line numbers still differ: the two contents
    share line 1 of the concatenation. *)
Example detect_issues_concat_numbers :
  map i_line (_detect_python_issues ("eval(x)" +++ "eval(y)")) = [1%Z]
  /\ map i_line
       (_detect_python_issues "eval(x)"
        ++ map (offset_issue (Py.len (Py.splitlines "eval(x)")))
             (_detect_python_issues "eval(y)")) = [1%Z; 2%Z].
Proof. split; reflexivity. Qed.

End Issues.

(** ** The password rule *)

Section PasswordRule.
Import CodeAnalyzerMCP.

Lemma match_ci_lower (w word rest : string) :
  Py.lower word = Py.lower w -> match_ci w (word +++ rest) = Some rest.
Proof.
  revert word; induction w as [|x w IH]; intros word H.
  - destruct word; [reflexivity | discriminate].
  - destruct word as [|c word]; [discriminate|].
    simpl in H. injection H as Hc Hw.
    simpl. rewrite Hc, Ascii.eqb_refl. now apply IH.
Qed.

Lemma match_ci_inv (w s rest : string) :
  match_ci w s = Some rest ->
  exists word, s = word +++ rest /\ Py.lower word = Py.lower w.
Proof.
  revert s; induction w as [|x w IH]; intros s H; simpl in H.
  - injection H as ->. now exists EmptyString.
  - destruct s as [|c s]; [discriminate|].
    destruct (Ascii.eqb (Py.lower_char c) (Py.lower_char x)) eqn:E; [|discriminate].
    apply Ascii.eqb_eq in E.
    destruct (IH s H) as (word & -> & Hw).
    exists (String c word). simpl. now rewrite E, Hw.
Qed.

Lemma lstrip_spaces (ws s : string) :
  all_space ws = true -> Py.lstrip (ws +++ s) = Py.lstrip s.
Proof.
  induction ws as [|c ws IH]; simpl; [reflexivity|].
  intros H. apply andb_true_iff in H as [Hc Hws]. rewrite Hc. now apply IH.
Qed.

Lemma lstrip_inv (s : string) :
  exists ws, s = ws +++ Py.lstrip s /\ all_space ws = true.
Proof.
  induction s as [|c s (ws & E & H)].
  - now exists EmptyString.
  - simpl. destruct (Py.isspace c) eqn:Hc.
    + exists (String c ws). simpl. rewrite Hc, H. now rewrite <- E.
    + now exists EmptyString.
Qed.

Lemma lstrip_head (c : ascii) (s : string) :
  Py.isspace c = false -> Py.lstrip (String c s) = String c s.
Proof. intros H. simpl. now rewrite H. Qed.

Lemma quote_not_space (q : ascii) : is_quote q = true -> Py.isspace q = false.
Proof.
  unfold is_quote. intros H.
  apply orb_true_iff in H as [H|H]; apply Ascii.eqb_eq in H; subst; reflexivity.
Qed.

Lemma password_search_nil : password_search EmptyString = false.
Proof. reflexivity. Qed.

Lemma password_search_cons (c : ascii) (line : string) :
  password_search (String c line)
  = password_here (String c line) || password_search line.
Proof. reflexivity. Qed.

Lemma password_here_search (pre s : string) :
  password_here s = true -> password_search (pre +++ s) = true.
Proof.
  intros H. induction pre as [|c pre IH].
  - destruct s as [|c s]; [discriminate H|].
    change (EmptyString +++ String c s) with (String c s).
    now rewrite password_search_cons, H.
  - change (String c pre +++ s) with (String c (pre +++ s)).
    rewrite password_search_cons, IH. apply orb_true_r.
Qed.

Lemma password_search_inv (line : string) :
  password_search line = true ->
  exists pre s, line = pre +++ s /\ password_here s = true.
Proof.
  induction line as [|c line IH]; [discriminate|].
  rewrite password_search_cons. intros H.
  apply orb_true_iff in H as [H|H].
  - now exists EmptyString, (String c line).
  - destruct (IH H) as (pre & s & -> & Hs). now exists (String c pre), s.
Qed.

(** The matcher of the model decides the pattern. *)
Lemma password_search_iff (line : string) :
  password_search line = true <-> password_assignment line.
Proof.
  split.
  - intros H. apply password_search_inv in H as (pre & s & -> & H).
    unfold password_here in H.
    destruct (match_ci "password" s) as [r|] eqn:M; [|discriminate].
    apply match_ci_inv in M as (word & -> & Hw).
    destruct (lstrip_inv r) as (ws1 & E1 & H1).
    destruct (Py.lstrip r) as [|e r']; [discriminate|].
    destruct (Ascii.eqb e "=") eqn:Ee; [|discriminate].
    apply Ascii.eqb_eq in Ee. subst e.
    destruct (lstrip_inv r') as (ws2 & E2 & H2).
    destruct (Py.lstrip r') as [|q post]; [discriminate|].
    exists pre, word, ws1, ws2, q, post.
    repeat split; try assumption.
    now rewrite E1, E2.
  - intros (pre & word & ws1 & ws2 & q & post & -> & Hw & H1 & H2 & Hq).
    apply password_here_search. unfold password_here.
    rewrite (match_ci_lower "password" word _ Hw).
    rewrite (lstrip_spaces _ _ H1), lstrip_head by reflexivity.
    rewrite (lstrip_spaces _ _ H2), lstrip_head by now apply quote_not_space.
    exact Hq.
Qed.

(** C6.  For every content and every line number [i], counted from 1,
    whose line matches the password pattern, the detector files the
    issue of category security and severity critical on line [i] with the
    message Hardcoded password detected. *)
Theorem hardcoded_password_reported (content : string) (i : Z) (line : string) :
  (1 <= i)%Z ->
  nth_error (Py.splitlines content) (Z.to_nat (i - 1)) = Some line ->
  password_assignment line ->
  In (password_issue i) (_detect_python_issues content).
Proof.
  intros Hi Hnth Hline.
  unfold _detect_python_issues. apply in_flat_map.
  exists (i, line). split.
  - replace i with (1 + Z.of_nat (Z.to_nat (i - 1)))%Z at 1 by lia.
    now apply enumerate_nth.
  - unfold line_issues.
    rewrite (proj2 (password_search_iff line) Hline).
    apply in_or_app; right. apply in_or_app; right. apply in_or_app; left.
    now left.
Qed.

End PasswordRule.

Lemma hardcoded_password_reported_witness :
  In (password_issue 2) (CodeAnalyzerMCP._detect_python_issues Examples.auth_py).
Proof.
  apply (hardcoded_password_reported Examples.auth_py 2
           ("    password = " +++ Examples.dq +++ "hunter2" +++ Examples.dq)).
  - lia.
  - reflexivity.
  - exists "    ", "password", " ", " ", (Py.chr 34), ("hunter2" +++ Examples.dq).
    repeat split; reflexivity.
Defined.

Example detect_issues_example :
  map (fun i => (CodeAnalyzerMCP.i_severity i, CodeAnalyzerMCP.i_line i))
    (CodeAnalyzerMCP._detect_python_issues Examples.auth_py)
  = [("critical", 2%Z); ("low", 3%Z)].
Proof. reflexivity. Qed.

Example password_rule_examples :
  CodeAnalyzerMCP.password_search ("PassWord='x'") = true
  /\ CodeAnalyzerMCP.password_search ("db_password   =  'x'") = true
  /\ CodeAnalyzerMCP.password_search ("password == 'x'") = false
  /\ CodeAnalyzerMCP.password_search ("password = x") = false.
Proof. repeat split; reflexivity. Qed.

(** ** The structural analyzer *)

Section TreeWalk.
Import CodeAnalyzerMCP.

Lemma size_children (n : ast) :
  size n = S (list_sum (map size (iter_child_nodes n))).
Proof.
  destruct n; simpl; rewrite ?map_app, ?list_sum_app; simpl; lia.
Qed.

(** The fuel of [walk] is enough: the queue empties and every node of
    the tree is yielded once. *)
Lemma walk_queue_length (fuel : nat) :
  forall todo,
    list_sum (map size todo) <= fuel ->
    length (walk_queue fuel todo) = list_sum (map size todo).
Proof.
  induction fuel as [|fuel IH]; intros todo H.
  - destruct todo as [|n todo]; [reflexivity|].
    simpl in H. rewrite size_children in H. lia.
  - destruct todo as [|n todo]; [reflexivity|].
    simpl in *. rewrite size_children in *.
    rewrite IH; rewrite map_app, list_sum_app; lia.
Qed.

Lemma walk_length (tree : ast) : length (walk tree) = size tree.
Proof.
  unfold walk. rewrite walk_queue_length; simpl; lia.
Qed.

Lemma function_entries_length (nodes : list ast) :
  length (flat_map function_entry nodes) = length (filter is_FunctionDef nodes).
Proof.
  induction nodes as [|n nodes IH]; [reflexivity|].
  simpl. rewrite length_app, IH. now destruct n.
Qed.

(** No entry that [analyze_python_file] makes for a function has the key
    [docstring]. *)
Lemma function_entries_lack_docstring (nodes : list ast) :
  filter lacks_docstring (flat_map function_entry nodes)
  = flat_map function_entry nodes.
Proof.
  induction nodes as [|n nodes IH]; [reflexivity|].
  simpl. rewrite filter_app, IH. f_equal. now destruct n.
Qed.

End TreeWalk.

Section Analysis.
Import CodeAnalyzerMCP.

Variable ast_parse : string -> parse_outcome.
Variable cc_visit : string -> option (list cc_block).
Variable mi_visit : string -> option float.
Variable format_1f : float -> string.

Let analyze := analyze_python_file ast_parse cc_visit mi_visit.

(** C7, as amended.  When [ast.parse] fails with a syntax error, the
    analysis is the error result with the line number of that error, and
    it has none of the keys functions, classes, imports, metrics and
    issues. *)
Theorem analyze_syntax_error (content file_path msg : string) (lineno : option Z) :
  ast_parse content = SyntaxError msg lineno ->
  analyze content file_path
  = SyntaxErrorResult file_path ("Syntax error: " +++ msg) lineno
  /\ forall key,
       In key ["functions"; "classes"; "imports"; "metrics"; "issues"] ->
       ~ In key (keys (analyze content file_path)).
Proof.
  intros H. unfold analyze, analyze_python_file. rewrite H.
  split; [reflexivity|].
  intros key Hkey Hin. simpl in Hkey, Hin.
  repeat (destruct Hkey as [<-|Hkey];
          [repeat (destruct Hin as [Hin|Hin]; [discriminate Hin|]); exact Hin|]).
  exact Hkey.
Qed.

(** Any other exception of the parser gives an error result too, without
    a line number. *)
Lemma analyze_other_exception (content file_path msg : string) :
  ast_parse content = OtherException msg ->
  analyze content file_path = ErrorResult file_path msg
  /\ keys (analyze content file_path) = ["file"; "error"].
Proof.
  intros H. unfold analyze, analyze_python_file. now rewrite H.
Qed.

(** A partial analysis is never returned: all seven keys or none of the
    five that hold results. *)
Lemma analyze_all_or_nothing (content file_path : string) :
  (exists a, analyze content file_path = Analysis a)
  \/ (forall key,
        In key ["functions"; "classes"; "imports"; "metrics"; "issues"] ->
        ~ In key (keys (analyze content file_path))).
Proof.
  unfold analyze, analyze_python_file.
  destruct (ast_parse content); [left; eexists; reflexivity | right | right];
    intros key Hkey Hin; simpl in Hkey, Hin;
    repeat (destruct Hkey as [<-|Hkey];
            [repeat (destruct Hin as [Hin|Hin]; [discriminate Hin|]); exact Hin|]);
    exact Hkey.
Qed.

(** The doc-suggestion on an analysis counts every function definition
    of the tree, with a docstring or without. *)
Lemma doc_suggestion_counts_definitions (content file_path : string) (tree : ast) :
  ast_parse content = Parsed tree ->
  let n := Py.len (filter is_FunctionDef (walk tree)) in
  doc_suggestion (analyze content file_path)
  = if (3 <? n)%Z then [doc_message n] else [].
Proof.
  intros H n. unfold analyze, analyze_python_file, doc_suggestion. rewrite H.
  simpl get_functions. rewrite function_entries_lack_docstring.
  unfold n, Py.len. now rewrite function_entries_length.
Qed.

(** On the dict alone: [suggest_improvements] has the doc-suggestion
    exactly when more than 3 of its function entries have no true value
    under [docstring]. *)
Lemma doc_suggestion_iff (r : analysis_result) :
  (exists n, In (doc_message n) (suggest_improvements format_1f r))
  <-> 3 < length (filter lacks_docstring (get_functions r)).
Proof.
  unfold suggest_improvements, doc_suggestion, Py.len.
  set (k := length (filter lacks_docstring (get_functions r))).
  split.
  - intros (n & H).
    apply in_app_or in H as [H|H].
    { unfold complexity_suggestion in H.
      destruct (complexity (get_metrics r)) as [items|]; [|contradiction].
      destruct (filter _ items); [contradiction|].
      destruct H as [H|[]]. discriminate H. }
    apply in_app_or in H as [H|H].
    { unfold maintainability_suggestion in H.
      destruct (maintainability_index (get_metrics r)) as [mi|]; [|contradiction].
      destruct (PrimFloat.ltb mi 20); [|contradiction].
      destruct H as [H|[]]. discriminate H. }
    destruct (3 <? Z.of_nat k)%Z eqn:E; [|contradiction].
    apply Z.ltb_lt in E. lia.
  - intros H. exists (Z.of_nat k).
    apply in_or_app; right. apply in_or_app; right.
    replace (3 <? Z.of_nat k)%Z with true by (symmetry; apply Z.ltb_lt; lia).
    now left.
Qed.

End Analysis.

Lemma analyze_syntax_error_witness :
  CodeAnalyzerMCP.analyze_python_file Examples.ast_parse Examples.cc_visit
    Examples.mi_visit Examples.broken_py "broken.py"
  = CodeAnalyzerMCP.SyntaxErrorResult "broken.py"
      "Syntax error: '(' was never closed (<unknown>, line 1)" (Some 1%Z)
  /\ forall key,
       In key ["functions"; "classes"; "imports"; "metrics"; "issues"] ->
       ~ In key
           (CodeAnalyzerMCP.keys
              (CodeAnalyzerMCP.analyze_python_file Examples.ast_parse Examples.cc_visit
                 Examples.mi_visit Examples.broken_py "broken.py")).
Proof.
  apply (analyze_syntax_error Examples.ast_parse Examples.cc_visit Examples.mi_visit
           Examples.broken_py "broken.py"
           "'(' was never closed (<unknown>, line 1)" (Some 1%Z)).
  reflexivity.
Defined.

(** C7, as stated, fails: the parser fails on the source with another
    exception than a syntax error, and the error result carries no line
    number. *)
Lemma analyze_parse_failure_counterexample :
  Examples.ast_parse Examples.nul_py
  = CodeAnalyzerMCP.OtherException "source code string cannot contain null bytes"
  /\ ~ In "line"
        (CodeAnalyzerMCP.keys
           (CodeAnalyzerMCP.analyze_python_file Examples.ast_parse Examples.cc_visit
              Examples.mi_visit Examples.nul_py "nul.py")).
Proof.
  split; [reflexivity|].
  vm_compute. intros [H|[H|[]]]; discriminate H.
Qed.

Example documented_analysis_suggestions :
  CodeAnalyzerMCP.suggest_improvements Examples.format_1f
    (CodeAnalyzerMCP.analyze_python_file Examples.ast_parse Examples.cc_visit
       Examples.mi_visit Examples.documented_py "documented.py")
  = [CodeAnalyzerMCP.doc_message 4].
Proof. vm_compute. reflexivity. Qed.

(** C8.  The repository holds one module of four functions, each with a
    docstring: the stages list it, analyse it, and the suggestions of the
    analysis are the doc-suggestion for four functions. *)
Theorem documented_functions_get_doc_suggestion :
  forallb (fun n =>
             match n with
             | CodeAnalyzerMCP.FunctionDef _ _ _ body _ =>
                 match CodeAnalyzerMCP.get_docstring Examples.cleandoc body with
                 | Some _ => true
                 | None => false
                 end
             | _ => true
             end)
    (CodeAnalyzerMCP.walk Examples.documented_tree) = true
  /\ match CodeAssistantAgent.run_stages Examples.fnmatch Examples.documented_disk
            Examples.requests_get Examples.get_repo_info Examples.ast_parse
            Examples.cc_visit Examples.mi_visit Examples.format_1f Examples.local_agent
            (Examples.start "Review the helper functions") with
     | Py.Ok state =>
         option_map CodeAssistantAgent.suggestions
           (CodeAssistantAgent.r_code_analysis (CodeAssistantAgent.results state))
         = Some [CodeAnalyzerMCP.doc_message 4]
     | Py.Raise _ => False
     end.
Proof. split; vm_compute; reflexivity. Qed.

(** The sibling [find_functions] keeps the docstring of each of the four. *)
Example find_functions_keeps_docstrings :
  map (fun f => Py.dict_get f "docstring")
    (CodeAnalyzerMCP.find_functions Examples.ast_parse Examples.cleandoc
       Examples.documented_py)
  = [Some (Py.PyStr "Return the north."); Some (Py.PyStr "Return the east.");
     Some (Py.PyStr "Return the south."); Some (Py.PyStr "Return the west.")]
  /\ map CodeAnalyzerMCP.lacks_docstring
       (CodeAnalyzerMCP.find_functions Examples.ast_parse Examples.cleandoc
          Examples.documented_py)
     = [false; false; false; false].
Proof. split; reflexivity. Qed.

Example analyze_example :
  match CodeAnalyzerMCP.analyze_python_file Examples.ast_parse Examples.cc_visit
          Examples.mi_visit Examples.auth_py "auth.py" with
  | CodeAnalyzerMCP.Analysis a =>
      map (fun f => Py.dict_get f "name") (CodeAnalyzerMCP.a_functions a)
        = [Some (Py.PyStr "login")]
      /\ CodeAnalyzerMCP.a_classes a = []
      /\ map CodeAnalyzerMCP.i_severity (CodeAnalyzerMCP.a_issues a) = ["critical"; "low"]
  | _ => False
  end.
Proof. vm_compute. repeat split. Qed.

Example str_of_Z_examples :
  Py.str_of_Z 0 = "0" /\ Py.str_of_Z 121 = "121" /\ Py.str_of_Z (-5) = "-5".
Proof. repeat split; reflexivity. Qed.

Example text_examples :
  Py.lower "How does AUTHentication Work?" = "how does authentication work?"
  /\ Py.splitlines ("a" +++ String Py.CR (String Py.LF (String Py.LF "b")))
     = ["a"; EmptyString; "b"]
  /\ Py.splitlines ("a" +++ String Py.LF EmptyString) = ["a"]
  /\ Py.strip "  x = 1  " = "x = 1"
  /\ Py.split "/" "a//b" = ["a"; EmptyString; "b"]
  /\ FS.suffix "archive.tar.gz" = ".gz"
  /\ FS.suffix ".bashrc" = EmptyString
  /\ FS.parts (FS.Path "/srv/./repo//x/../y/") = ["srv"; "repo"; "x"; ".."; "y"].
Proof. repeat split; reflexivity. Qed.

(** ** A listed file is the file that is read *)

Section ReadBack.
Import FS FileSystemMCP.

Variable fnmatch : string -> string -> bool.

Lemma proper_name_facts (n : string) :
  proper_name n = true ->
  n <> EmptyString /\ n <> "." /\ n <> ".." /\ Py.contains "/" n = false.
Proof.
  unfold proper_name. intros H.
  apply andb_true_iff in H as [H H4]. apply andb_true_iff in H as [H H3].
  apply andb_true_iff in H as [H1 H2].
  apply negb_true_iff in H1, H2, H3, H4.
  apply String.eqb_neq in H1, H2, H3. now repeat split.
Qed.

Lemma no_slash_head (c : ascii) (n : string) :
  Py.contains "/" (String c n) = false ->
  Ascii.eqb c "/" = false /\ Py.contains "/" n = false.
Proof.
  rewrite contains_cons. intros H. apply orb_false_iff in H as [H1 H2].
  split; [|assumption].
  destruct (Ascii.eqb c "/") eqn:E; [|reflexivity].
  apply Ascii.eqb_eq in E. subst c. simpl in H1. now destruct n.
Qed.

Lemma split_no_slash (n : string) :
  Py.contains "/" n = false -> Py.split "/" n = [n].
Proof.
  induction n as [|c n IH]; intros H; [reflexivity|].
  apply no_slash_head in H as [Hc Hn]. simpl. now rewrite Hc, (IH Hn).
Qed.

Lemma split_name_sep (n s : string) :
  Py.contains "/" n = false ->
  Py.split "/" (n +++ String "/" s) = n :: Py.split "/" s.
Proof.
  induction n as [|c n IH]; intros H; [reflexivity|].
  apply no_slash_head in H as [Hc Hn]. simpl. now rewrite Hc, (IH Hn).
Qed.

Lemma split_join (rel : list string) :
  rel <> [] ->
  Forall (fun n => proper_name n = true) rel ->
  Py.split "/" (Py.join "/" rel) = rel.
Proof.
  induction rel as [|n rel IH]; intros Hne Hall; [contradiction|].
  inversion Hall as [|? ? Hn Hrel]; subst.
  apply proper_name_facts in Hn as (_ & _ & _ & Hn).
  destruct rel as [|m rel].
  - now apply split_no_slash.
  - change (Py.join "/" (n :: m :: rel))
      with (n +++ String "/" (Py.join "/" (m :: rel))).
    rewrite split_name_sep by assumption.
    f_equal. apply IH; [discriminate | assumption].
Qed.

Lemma parse_root_relative (c : ascii) (s : string) :
  Ascii.eqb c "/" = false -> parse_root (String c s) = EmptyString.
Proof.
  destruct c as [[] [] [] [] [] [] [] []]; intros H;
    try reflexivity; discriminate H.
Qed.

Lemma filter_parts (rel : list string) :
  Forall (fun n => proper_name n = true) rel -> filter is_part rel = rel.
Proof.
  induction 1 as [|n rel Hn _ IH]; [reflexivity|].
  simpl. rewrite IH.
  apply proper_name_facts in Hn as (H1 & H2 & _).
  apply String.eqb_neq in H1, H2. unfold is_part. now rewrite H1, H2.
Qed.

(** The path of a descriptor parses back to the names it was joined
    from. *)
Lemma Path_join (rel : list string) :
  rel <> [] ->
  Forall (fun n => proper_name n = true) rel ->
  Path (Py.join "/" rel) = {| root := EmptyString; parts := rel |}.
Proof.
  intros Hne Hall. unfold Path.
  rewrite (split_join rel Hne Hall), (filter_parts rel Hall). f_equal.
  destruct rel as [|n rel]; [contradiction|].
  inversion Hall as [|? ? Hn _]; subst.
  apply proper_name_facts in Hn as (H1 & _ & _ & H4).
  destruct n as [|c n]; [contradiction|].
  apply no_slash_head in H4 as [Hc _].
  destruct rel; simpl; now apply parse_root_relative.
Qed.

Lemma walk_parts_descend (rel : list string) :
  Forall (fun n => proper_name n = true) rel ->
  forall anc cur, walk_parts anc cur rel = descend cur rel.
Proof.
  induction 1 as [|p rel Hp _ IH]; intros anc cur; [reflexivity|].
  simpl. destruct cur as [|entries]; [reflexivity|].
  apply proper_name_facts in Hp as (_ & _ & Hp & _).
  apply String.eqb_neq in Hp. rewrite Hp.
  destruct (lookup p entries); [apply IH | reflexivity].
Qed.

Lemma walk_parts_app (l1 : list string) :
  forall anc cur mid rel,
    walk_parts anc cur l1 = Some mid ->
    Forall (fun n => proper_name n = true) rel ->
    walk_parts anc cur (l1 ++ rel) = descend mid rel.
Proof.
  induction l1 as [|p l1 IH]; intros anc cur mid rel H Hrel.
  - injection H as ->. now apply walk_parts_descend.
  - simpl in *. destruct cur as [|entries]; [discriminate|].
    destruct (String.eqb p "..").
    + destruct anc; now apply IH.
    + destruct (lookup p entries); [now apply IH | discriminate].
Qed.

Lemma lookup_distinct (entries : list (string * node)) (name : string) (child : node) :
  names_distinct entries = true ->
  In (name, child) entries ->
  lookup name entries = Some child.
Proof.
  induction entries as [|[n x] entries IH]; intros Hd Hin; [contradiction|].
  simpl in Hd. apply andb_true_iff in Hd as [Hn Hd].
  apply negb_true_iff in Hn. simpl.
  destruct Hin as [E|Hin].
  - injection E as -> ->. now rewrite String.eqb_refl.
  - destruct (String.eqb n name) eqn:E; [|now apply IH].
    apply String.eqb_eq in E. subst n.
    assert (X : existsb (fun e => String.eqb (fst e) name) entries = true).
    { apply existsb_exists. exists (name, child). split; [assumption|].
      apply String.eqb_refl. }
    rewrite X in Hn. discriminate.
Qed.

Lemma files_here_sound (pattern : string) (rel : list string)
    (entries : list (string * node)) (f : file_info) :
  In f (files_here fnmatch pattern rel entries) ->
  exists filename st_size data,
    In (filename, File st_size data) entries
    /\ f = {| fi_path := Py.join "/" (rel ++ [filename]);
              fi_size := st_size;
              fi_extension := suffix filename;
              fi_name := filename |}
    /\ fnmatch filename pattern = true
    /\ Py.mem (suffix filename) allowed_extensions = true.
Proof.
  induction entries as [|[n x] entries IH]; intros H; [contradiction|].
  cbn [files_here] in H. destruct x as [sz data|sub].
  - apply in_app_or in H as [H|H].
    + destruct (fnmatch n pattern && Py.mem (suffix n) allowed_extensions) eqn:E;
        [|contradiction].
      destruct H as [<-|[]]. apply andb_true_iff in E as [E1 E2].
      exists n, sz, data. repeat split; try assumption. now left.
    + destruct (IH H) as (fn & sz' & d' & Hin & Hf).
      exists fn, sz', d'. split; [now right | assumption].
  - destruct (IH H) as (fn & sz' & d' & Hin & Hf).
    exists fn, sz', d'. split; [now right | assumption].
Qed.

Lemma in_node_size (entries : list (string * node)) (d : string) (child : node) :
  In (d, child) entries ->
  node_size child <= list_sum (map (fun e => node_size (snd e)) entries).
Proof.
  induction entries as [|e entries IH]; intros H; [contradiction|].
  destruct H as [->|H]; simpl; [lia | specialize (IH H); lia].
Qed.

Lemma well_formed_entry (entries : list (string * node)) (d : string) (child : node) :
  well_formed (Dir entries) = true ->
  In (d, child) entries ->
  proper_name d = true /\ well_formed child = true
  /\ lookup d entries = Some child.
Proof.
  simpl. intros H Hin. apply andb_true_iff in H as [Hd Hall].
  rewrite forallb_forall in Hall. specialize (Hall _ Hin). simpl in Hall.
  apply andb_true_iff in Hall as [Hp Hw].
  repeat split; try assumption. now apply lookup_distinct.
Qed.

(** Every descriptor of the walk names a regular file of the tree, by
    the names that lead to it; the file matches the pattern and has an
    allowed extension. *)
Lemma walk_sound (pattern : string) (k : nat) :
  forall top, node_size top <= k ->
  forall rel f,
    well_formed top = true ->
    In f (walk fnmatch pattern rel top) ->
    exists rel' filename st_size data,
      fi_path f = Py.join "/" (rel ++ rel' ++ [filename])
      /\ Forall (fun n => proper_name n = true) (rel' ++ [filename])
      /\ descend top (rel' ++ [filename]) = Some (File st_size data)
      /\ fi_size f = st_size
      /\ fi_name f = filename
      /\ fi_extension f = suffix filename
      /\ fnmatch filename pattern = true
      /\ Py.mem (suffix filename) allowed_extensions = true.
Proof.
  induction k as [|k IH]; intros top Hk rel f Hwf Hin.
  - destruct top; simpl in Hk; lia.
  - destruct top as [|entries]; [contradiction|].
    simpl in Hin. apply in_app_or in Hin as [Hin|Hin].
    + apply files_here_sound in Hin as (fn & sz & data & Hin & -> & Hm & Hs).
      destruct (well_formed_entry _ _ _ Hwf Hin) as (Hp & _ & Hl).
      exists [], fn, sz, data. simpl. rewrite Hl.
      repeat split; try assumption. now constructor.
    + apply in_flat_map in Hin as ([d child] & Hin & Hf).
      destruct (is_dir child && walk_into d); [|contradiction].
      destruct (well_formed_entry _ _ _ Hwf Hin) as (Hp & Hw & Hl).
      assert (Hsize : node_size child <= k).
      { assert (S := in_node_size _ _ _ Hin). simpl in Hk. lia. }
      destruct (IH child Hsize _ _ Hw Hf)
        as (rel' & fn & sz & data & Hpath & Hall & Hdesc & Hrest).
      exists (d :: rel'), fn, sz, data. repeat split; try apply Hrest.
      * rewrite Hpath. now rewrite <- app_assoc.
      * now constructor.
      * simpl. now rewrite Hl.
Qed.

Variable fs : filesystem.
Variable repo_path : path.

(** On a well-formed tree, reading the path of a listed descriptor reads
    the listed file: the descriptor carries its size, and [read_file]
    returns what reading that file gives; only an error of [os.stat] on
    the path keeps it from returning. *)
Theorem list_files_read_back (pattern : string) (top : node) (f : file_info) :
  resolve fs repo_path = Some top ->
  well_formed top = true ->
  In f (list_files fnmatch fs repo_path pattern) ->
  exists rel st_size data,
    descend top rel = Some (File st_size data)
    /\ fi_path f = Py.join "/" rel
    /\ fi_size f = st_size
    /\ fnmatch (fi_name f) pattern = true
    /\ Py.mem (fi_extension f) allowed_extensions = true
    /\ read_file fs repo_path (fi_path f)
       = match stat_error fs (joinpath repo_path (Path (fi_path f))) with
         | Some e => Py.Raise e
         | None => Py.Ok (read_result_of (fi_path f) data)
         end.
Proof.
  intros Htop Hwf Hin. unfold list_files in Hin. rewrite Htop in Hin.
  destruct (walk_sound pattern (node_size top) top (le_n _) [] f Hwf Hin)
    as (rel' & fn & sz & data & Hpath & Hall & Hdesc & Hsz & Hname & Hext & Hm & Hs).
  simpl in Hpath.
  exists (rel' ++ [fn]), sz, data.
  rewrite Hname, Hext. repeat split; try assumption.
  assert (Hne : rel' ++ [fn] <> []) by (destruct rel'; discriminate).
  assert (HP := Path_join _ Hne Hall).
  assert (Hres : resolve fs (joinpath repo_path (Path (fi_path f)))
                 = Some (File sz data)).
  { rewrite Hpath, HP. unfold joinpath, resolve. simpl.
    unfold resolve in Htop.
    destruct (String.eqb (root repo_path) EmptyString).
    - rewrite app_assoc, <- Hdesc. now apply walk_parts_app.
    - rewrite <- Hdesc. now apply walk_parts_app. }
  unfold read_file, exists_, open_read.
  destruct (stat_error fs (joinpath repo_path (Path (fi_path f)))); [reflexivity|].
  rewrite Hres. simpl.
  rewrite relative_argument_passes; [reflexivity|].
  now rewrite Hpath, HP.
Qed.

End ReadBack.

Example splitlines_boundaries :
  Py.splitlines
    ("a" +++ String Py.CR (String Py.LF (String Py.LF
       ("b" +++ String (Py.chr 133) ("c" +++ String (Py.chr 28)
          ("d" +++ String (Py.chr 11) "e"))))))
  = ["a"; EmptyString; "b"; "c"; "d"; "e"].
Proof. reflexivity. Qed.

Example get_file_structure_example :
  FileSystemMCP.get_file_structure Examples.disk Examples.repo
  = Py.Ok
      (Some
         (FileSystemMCP.TreeDir "repo"
            [FileSystemMCP.TreeDir "lib" [FileSystemMCP.TreeFile "login_utils.py" ".py"];
             FileSystemMCP.TreeFile "auth.py" ".py";
             FileSystemMCP.TreeFile "blob.py" ".py";
             FileSystemMCP.TreeFile "notes.txt" ".txt"])).
Proof. reflexivity. Qed.

(** * Further properties of the code *)

(** ** Listing files *)

Section Listing.
Import FS FileSystemMCP.

Variable fnmatch : string -> string -> bool.
Variable fs : filesystem.
Variable repo_path : path.

Lemma files_here_names (pattern : string) (rel : list string)
    (entries : list (string * node)) (f : file_info) :
  In f (files_here fnmatch pattern rel entries) ->
  fi_path f = Py.join "/" (rel ++ [fi_name f]).
Proof.
  intros H. apply (files_here_sound fnmatch) in H as (fn & sz & d & _ & -> & _).
  reflexivity.
Qed.

Lemma walk_kept (pattern : string) (k : nat) :
  forall top, node_size top <= k ->
  forall rel f,
    In f (walk fnmatch pattern rel top) ->
    exists dirs st_size data,
      at_path top (dirs ++ [fi_name f]) (File st_size data)
      /\ fi_path f = Py.join "/" (rel ++ dirs ++ [fi_name f])
      /\ Forall (fun d => walk_into d = true) dirs.
Proof.
  induction k as [|k IH]; intros top Hk rel f Hin.
  - destruct top; simpl in Hk; lia.
  - destruct top as [|entries]; [contradiction|].
    simpl in Hin. apply in_app_or in Hin as [Hin|Hin].
    + apply (files_here_sound fnmatch) in Hin as (fn & sz & data & Hin & -> & _).
      cbn [fi_path fi_name].
      exists [], sz, data. split; [|split; [reflexivity | constructor]].
      simpl. exists (File sz data). now split.
    + apply in_flat_map in Hin as ([d child] & Hin & Hf).
      destruct (is_dir child && walk_into d) eqn:E; [|contradiction].
      apply andb_true_iff in E as [_ Hd].
      assert (Hsize : node_size child <= k).
      { assert (S := in_node_size _ _ _ Hin). simpl in Hk. lia. }
      destruct (IH child Hsize _ _ Hf) as (dirs & sz & data & Hat & Hpath & Hall).
      exists (d :: dirs), sz, data. repeat split; [| |now constructor].
      * simpl. exists child. now split.
      * rewrite Hpath. now rewrite <- app_assoc.
Qed.

(** Every listed file lies in the tree under kept directories only: the
    directories that lead to it from the repository, whose names make up
    its path, have no name that starts with a dot or is one of
    node_modules, venv, __pycache__, dist and build. *)
Theorem list_files_skips_ignored (pattern : string) (f : file_info) :
  In f (list_files fnmatch fs repo_path pattern) ->
  exists top dirs st_size data,
    resolve fs repo_path = Some top
    /\ at_path top (dirs ++ [fi_name f]) (File st_size data)
    /\ fi_path f = Py.join "/" (dirs ++ [fi_name f])
    /\ Forall (fun d =>
                 Py.startswith d "." = false
                 /\ ~ In d ["node_modules"; "venv"; "__pycache__"; "dist"; "build"])
         dirs.
Proof.
  unfold list_files. destruct (resolve fs repo_path) as [top|]; [|contradiction].
  intros Hin.
  destruct (walk_kept pattern (node_size top) top (le_n _) [] f Hin)
    as (dirs & sz & data & Hat & Hp & Hall).
  exists top, dirs, sz, data. repeat split; [exact Hat | exact Hp |].
  eapply Forall_impl; [|exact Hall]. intros d Hd.
  unfold walk_into in Hd. apply andb_true_iff in Hd as [H1 H2].
  apply negb_true_iff in H1, H2. split; [assumption|].
  intros Hin'. unfold Py.mem in H2.
  assert (X : existsb (String.eqb d)
                ["node_modules"; "venv"; "__pycache__"; "dist"; "build"] = true).
  { apply existsb_exists. exists d. split; [assumption | apply String.eqb_refl]. }
  rewrite X in H2. discriminate.
Qed.




End Listing.

Lemma list_files_skips_ignored_witness :
  exists top dirs st_size data,
    FS.resolve Examples.disk Examples.repo = Some top
    /\ at_path top (dirs ++ ["login_utils.py"]) (FS.File st_size data)
    /\ "lib/login_utils.py" = Py.join "/" (dirs ++ ["login_utils.py"])
    /\ Forall (fun d =>
                 Py.startswith d "." = false
                 /\ ~ In d ["node_modules"; "venv"; "__pycache__"; "dist"; "build"])
         dirs.
Proof.
  apply (list_files_skips_ignored Examples.fnmatch Examples.disk Examples.repo "*.py"
           (descriptor ["lib"] "login_utils.py" 38)).
  vm_compute. right; right; left; reflexivity.
Defined.


Lemma list_files_read_back_witness :
  exists rel st_size data,
    descend (FS.Dir [("documented.py", Examples.text_file Examples.documented_py)]) rel
    = Some (FS.File st_size data)
    /\ FileSystemMCP.fi_path (descriptor [] "documented.py" 196) = Py.join "/" rel
    /\ FileSystemMCP.fi_size (descriptor [] "documented.py" 196) = st_size
    /\ Examples.fnmatch (FileSystemMCP.fi_name (descriptor [] "documented.py" 196)) "*.py" = true
    /\ Py.mem (FileSystemMCP.fi_extension (descriptor [] "documented.py" 196))
         FileSystemMCP.allowed_extensions = true
    /\ FileSystemMCP.read_file Examples.documented_disk Examples.repo
         (FileSystemMCP.fi_path (descriptor [] "documented.py" 196))
       = Py.Ok (read_result_of
                  (FileSystemMCP.fi_path (descriptor [] "documented.py" 196)) data).
Proof.
  apply (list_files_read_back Examples.fnmatch Examples.documented_disk Examples.repo "*.py").
  - reflexivity.
  - reflexivity.
  - vm_compute. left; reflexivity.
Defined.

(** ** Matches and their context *)

Section Matches.
Import FS FileSystemMCP.

Variable fnmatch : string -> string -> bool.
Variable fs : filesystem.
Variable repo_path : path.

Lemma selected_in {A B} (test : A -> bool) (item : Z -> A -> B)
    (start : Z) (l : list A) (idx : nat) (x : A) :
  nth_error l idx = Some x ->
  test x = true ->
  In (item (start + Z.of_nat idx)%Z x)
    (flat_map (fun '(n, x) => if test x then [item n x] else [])
       (Py.enumerate start l)).
Proof.
  intros Hn Ht. apply in_flat_map. exists ((start + Z.of_nat idx)%Z, x).
  split; [now apply enumerate_nth|]. rewrite Ht. now left.
Qed.

Lemma in_selected {A B} (test : A -> bool) (item : Z -> A -> B) (l : list A) (y : B) :
  forall start,
    In y (flat_map (fun '(n, x) => if test x then [item n x] else [])
            (Py.enumerate start l)) ->
    exists idx x,
      nth_error l idx = Some x /\ test x = true
      /\ y = item (start + Z.of_nat idx)%Z x.
Proof.
  induction l as [|x l IH]; intros start H; [contradiction|].
  simpl in H. apply in_app_or in H as [H|H].
  - destruct (test x) eqn:E; [|contradiction]. destruct H as [<-|[]].
    exists 0, x. repeat split; [assumption|]. f_equal. lia.
  - destruct (IH _ H) as (idx & x' & Hn & Ht & ->).
    exists (S idx), x'. repeat split; try assumption. f_equal. lia.
Qed.

Lemma in_matches_in (query file : string) (lines : list string) (m : search_match) :
  In m (matches_in query file lines)
  <-> exists idx line,
        nth_error lines idx = Some line
        /\ line_contains query line = true
        /\ m = match_of file lines idx line.
Proof.
  unfold matches_in, match_of. split.
  - intros H.
    apply (in_selected (line_contains query)
             (fun line_num line =>
                {| sm_file := file; sm_line := line_num;
                   sm_content := Py.strip line;
                   sm_context := _get_context lines line_num |})) in H
      as (idx & line & Hn & Ht & ->).
    exists idx, line. repeat split; try assumption.
    now replace (1 + Z.of_nat idx)%Z with (Z.of_nat idx + 1)%Z by lia.
  - intros (idx & line & Hn & Ht & ->).
    replace (Z.of_nat idx + 1)%Z with (1 + Z.of_nat idx)%Z by lia.
    apply (selected_in (line_contains query)
             (fun line_num line =>
                {| sm_file := file; sm_line := line_num;
                   sm_content := Py.strip line;
                   sm_context := _get_context lines line_num |}));
      assumption.
Qed.

(** When the search returns, it has a match for every line of a listed,
    readable file whose lower-cased text holds the lower-cased query: the
    match carries the path of the file, the number of the line counted
    from 1, the stripped line and its context. *)
Theorem search_in_files_complete (query file_pattern : string)
    (ms : list search_match) (f : file_info)
    (p content : string) (n k : Z) (idx : nat) (line : string) :
  search_in_files fnmatch fs repo_path query file_pattern = Py.Ok ms ->
  In f (list_files fnmatch fs repo_path file_pattern) ->
  read_file fs repo_path (fi_path f) = Py.Ok (FileData p content n k) ->
  nth_error (Py.splitlines content) idx = Some line ->
  Py.contains (Py.lower query) (Py.lower line) = true ->
  In (match_of (fi_path f) (Py.splitlines content) idx line) ms.
Proof.
  intros Hok Hf Hr Hn Hq. unfold search_in_files in Hok.
  apply (search_files_in fs repo_path _ _ _ _ Hok).
  exists f, (FileData p content n k). repeat split; try assumption.
  apply in_matches_in. exists idx, line. now repeat split.
Qed.

(** The context window: for a line number within the file it holds
    between 1 and 5 lines, and the line itself sits in it after the one
    or two lines before it. *)
Lemma get_context_window (lines : list string) (line_num : Z) :
  (1 <= line_num <= Py.len lines)%Z ->
  1 <= length (_get_context lines line_num) <= 5
  /\ nth_error (_get_context lines line_num) (Z.to_nat (Z.min (line_num - 1) 2))
     = nth_error lines (Z.to_nat (line_num - 1)).
Proof.
  unfold _get_context, Py.slice, Py.len. intros H.
  rewrite length_skipn, length_firstn, nth_error_skipn, nth_error_firstn.
  split; [lia|].
  replace (Z.to_nat (Z.max 0 (line_num - 2 - 1)) + Z.to_nat (Z.min (line_num - 1) 2))
    with (Z.to_nat (line_num - 1)) by lia.
  assert (E : Nat.ltb (Z.to_nat (line_num - 1))
                (Z.to_nat (Z.min (Z.of_nat (length lines)) (line_num + 2))) = true)
    by (apply Nat.ltb_lt; lia).
  now rewrite E.
Qed.

(** Every match carries between 1 and 5 lines of context, and the line
    it reports, before stripping, is one of them. *)
Theorem search_in_files_context (query file_pattern : string)
    (ms : list search_match) (m : search_match) :
  search_in_files fnmatch fs repo_path query file_pattern = Py.Ok ms ->
  In m ms ->
  1 <= length (sm_context m) <= 5
  /\ exists line, In line (sm_context m) /\ sm_content m = Py.strip line.
Proof.
  unfold search_in_files. intros Hok Hin.
  apply (search_files_in fs repo_path _ _ _ _ Hok) in Hin as (f & d & _ & _ & Hm).
  destruct d as [p content n k|]; [|contradiction].
  apply in_matches_in in Hm as (idx & line & Hn & _ & ->).
  assert (Hlen : idx < length (Py.splitlines content)).
  { apply nth_error_Some. rewrite Hn. discriminate. }
  destruct (get_context_window (Py.splitlines content) (Z.of_nat idx + 1)) as [Hl Hc].
  { unfold Py.len. lia. }
  simpl. split; [exact Hl|]. exists line. split; [|reflexivity].
  replace (Z.to_nat (Z.of_nat idx + 1 - 1)) with idx in Hc by lia.
  rewrite Hn in Hc. eapply nth_error_In. exact Hc.
Qed.

Lemma line_contains_empty (line : string) : line_contains EmptyString line = true.
Proof. unfold line_contains. simpl. now destruct (Py.lower line). Qed.

(** The empty query matches every line: when the search returns, it has
    one match for each line of each listed file that can be read. *)
Theorem search_in_files_empty_query (file_pattern : string)
    (ms : list search_match) :
  search_in_files fnmatch fs repo_path EmptyString file_pattern = Py.Ok ms ->
  length ms
  = list_sum
      (map (fun f => lines_of (read_file fs repo_path (fi_path f)))
         (list_files fnmatch fs repo_path file_pattern)).
Proof.
  unfold search_in_files. intros Hok.
  rewrite (search_files_length fs repo_path _ _ _ Hok). f_equal.
  apply map_ext. intros f. unfold lines_of.
  destruct (read_file fs repo_path (fi_path f)) as [[p content n k|]|];
    try reflexivity.
  unfold file_matches. rewrite length_matches_in.
  induction (Py.splitlines content) as [|l ls IH]; [reflexivity|].
  simpl. rewrite line_contains_empty. simpl. now f_equal.
Qed.

Lemma relative_root (file_path : string) :
  Py.startswith file_path "/" = false -> root (Path file_path) = EmptyString.
Proof.
  unfold Py.startswith. destruct file_path as [|c s]; [reflexivity|].
  simpl. intros H. apply parse_root_relative.
  destruct (Ascii.eqb c "/") eqn:E; [|reflexivity].
  apply Ascii.eqb_eq in E. subst c. simpl in H. now destruct s.
Qed.

(** The containment test never refuses an argument that does not start
    with a slash: when the joined location exists, [read_file] returns
    what reading it gives, wherever its [..] components lead. *)
Theorem read_file_relative_argument (file_path : string) :
  Py.startswith file_path "/" = false ->
  exists_ fs (joinpath repo_path (Path file_path)) = Py.Ok true ->
  read_file fs repo_path file_path
  = Py.Ok (read_result_of file_path
             (open_read fs (joinpath repo_path (Path file_path)))).
Proof.
  intros Hrel Hex.
  rewrite (read_file_relative fs repo_path file_path (relative_root _ Hrel) Hex).
  reflexivity.
Qed.

End Matches.

Lemma search_in_files_sound_witness :
  exists file_info p content n k line,
    In file_info
      (FileSystemMCP.list_files Examples.fnmatch Examples.disk Examples.repo "*.py")
    /\ FileSystemMCP.sm_file
         (match_of "auth.py" (Py.splitlines Examples.auth_py) 0 "def login(user):")
       = FileSystemMCP.fi_path file_info
    /\ FileSystemMCP.read_file Examples.disk Examples.repo
         (FileSystemMCP.fi_path file_info)
       = Py.Ok (FileSystemMCP.FileData p content n k)
    /\ nth_error (Py.splitlines content)
         (Z.to_nat
            (FileSystemMCP.sm_line
               (match_of "auth.py" (Py.splitlines Examples.auth_py) 0 "def login(user):")
             - 1))
       = Some line
    /\ (1 <= FileSystemMCP.sm_line
               (match_of "auth.py" (Py.splitlines Examples.auth_py) 0 "def login(user):"))%Z
    /\ occurs_ignoring_case "LOGIN" line
    /\ FileSystemMCP.sm_content
         (match_of "auth.py" (Py.splitlines Examples.auth_py) 0 "def login(user):")
       = Py.strip line.
Proof.
  eapply (search_in_files_sound Examples.fnmatch Examples.disk Examples.repo
            "LOGIN" "*.py").
  - vm_compute. reflexivity.
  - vm_compute. left; reflexivity.
Defined.

Lemma search_in_files_complete_witness :
  match FileSystemMCP.search_in_files Examples.fnmatch Examples.disk Examples.repo
          "LOGIN" "*.py" with
  | Py.Ok ms =>
      In (match_of "auth.py" (Py.splitlines Examples.auth_py) 0 "def login(user):") ms
  | Py.Raise _ => False
  end.
Proof.
  destruct (FileSystemMCP.search_in_files Examples.fnmatch Examples.disk Examples.repo
              "LOGIN" "*.py") as [ms|e] eqn:E; [|vm_compute in E; discriminate E].
  apply (search_in_files_complete Examples.fnmatch Examples.disk Examples.repo
           "LOGIN" "*.py" ms (descriptor [] "auth.py" 84)
           "auth.py" Examples.auth_py 3 84 0 "def login(user):" E).
  - vm_compute. left; reflexivity.
  - reflexivity.
  - reflexivity.
  - reflexivity.
Defined.

Lemma search_in_files_context_witness :
  1 <= length (FileSystemMCP.sm_context
                 (match_of "auth.py" (Py.splitlines Examples.auth_py) 0 "def login(user):"))
    <= 5
  /\ exists line,
       In line (FileSystemMCP.sm_context
                  (match_of "auth.py" (Py.splitlines Examples.auth_py) 0 "def login(user):"))
       /\ FileSystemMCP.sm_content
            (match_of "auth.py" (Py.splitlines Examples.auth_py) 0 "def login(user):")
          = Py.strip line.
Proof.
  eapply (search_in_files_context Examples.fnmatch Examples.disk Examples.repo
            "LOGIN" "*.py").
  - vm_compute. reflexivity.
  - vm_compute. left; reflexivity.
Defined.

Lemma search_in_files_empty_query_witness :
  match FileSystemMCP.search_in_files Examples.fnmatch Examples.disk Examples.repo
          "" "*.py" with
  | Py.Ok ms =>
      length ms
      = list_sum
          (map (fun f =>
                  lines_of
                    (FileSystemMCP.read_file Examples.disk Examples.repo
                       (FileSystemMCP.fi_path f)))
             (FileSystemMCP.list_files Examples.fnmatch Examples.disk Examples.repo
                "*.py"))
  | Py.Raise _ => False
  end.
Proof.
  destruct (FileSystemMCP.search_in_files Examples.fnmatch Examples.disk Examples.repo
              "" "*.py") as [ms|e] eqn:E; [|vm_compute in E; discriminate E].
  apply (search_in_files_empty_query Examples.fnmatch Examples.disk Examples.repo
           "*.py" ms E).
Defined.

Lemma read_file_relative_argument_witness :
  FileSystemMCP.read_file Examples.disk Examples.repo "../../etc/passwd"
  = Py.Ok (read_result_of "../../etc/passwd"
             (FS.open_read Examples.disk
                (FS.joinpath Examples.repo (FS.Path "../../etc/passwd")))).
Proof.
  apply (read_file_relative_argument Examples.disk Examples.repo "../../etc/passwd");
    reflexivity.
Defined.

(** ** Line metrics *)

Section LineMetrics.
Import CodeAnalyzerTools.

Lemma count_line_total (state : bool * line_metrics) (line : string) :
  total_lines (snd (count_line state line)) = total_lines (snd state)
  /\ counted_lines (snd (count_line state line)) = (counted_lines (snd state) + 1)%Z.
Proof.
  destruct state as [flag m]. unfold count_line, counted_lines.
  destruct (String.eqb (Py.strip line) EmptyString); [simpl; lia|].
  destruct (starts_triple (Py.strip line)); [simpl; lia|].
  destruct flag; [simpl; lia|].
  destruct (Py.startswith (Py.strip line) "#"); simpl; lia.
Qed.

Lemma fold_count_total (lines : list string) :
  forall state,
    total_lines (snd (fold_left count_line lines state)) = total_lines (snd state)
    /\ counted_lines (snd (fold_left count_line lines state))
       = (counted_lines (snd state) + Py.len lines)%Z.
Proof.
  induction lines as [|l lines IH]; intros state.
  - unfold Py.len. simpl. lia.
  - simpl. destruct (IH (count_line state l)) as [Ht Hc].
    destruct (count_line_total state l) as [Ht' Hc'].
    rewrite Ht, Hc, Ht', Hc'. unfold Py.len. simpl length. lia.
Qed.

(** For Python every line is counted_lines once: code, comment and blank
    lines add up to the total, which is the number of lines. *)
Theorem calculate_metrics_adds_up (content : string) :
  let m := calculate_metrics content "python" in
  (code_lines m + comment_lines m + blank_lines m = total_lines m)%Z
  /\ total_lines m = Py.len (Py.splitlines content).
Proof.
  unfold calculate_metrics. simpl String.eqb. cbv iota.
  set (start := (false, _)).
  destruct (fold_count_total (Py.splitlines content) start) as [Ht Hc].
  unfold counted_lines in Hc. simpl in Ht, Hc. rewrite Ht. split; [lia | reflexivity].
Qed.

(** For any other language no line is classified: the three counts stay
    0 next to the total. *)
Theorem calculate_metrics_other_language (content language : string) :
  language <> "python" ->
  let m := calculate_metrics content language in
  code_lines m = 0%Z /\ comment_lines m = 0%Z /\ blank_lines m = 0%Z
  /\ total_lines m = Py.len (Py.splitlines content).
Proof.
  intros H. apply String.eqb_neq in H. unfold calculate_metrics. rewrite H.
  now repeat split.
Qed.

Lemma count_cons {A} (test : A -> bool) (x : A) (l : list A) :
  count test (x :: l) = ((if test x then 1 else 0) + count test l)%Z.
Proof. unfold count. simpl. destruct (test x); simpl length; lia. Qed.

Lemma count_line_plain (flag : bool) (m : line_metrics) (l : string) :
  is_triple l = false ->
  fst (count_line (flag, m) l) = flag
  /\ blank_lines (snd (count_line (flag, m) l))
     = (blank_lines m + if is_blank l then 1 else 0)%Z
  /\ code_lines (snd (count_line (flag, m) l))
     = (code_lines m + if flag then 0 else if is_plain l then 1 else 0)%Z
  /\ comment_lines (snd (count_line (flag, m) l))
     = (comment_lines m
        + if flag then (if is_blank l then 0 else 1)
          else if is_hash l then 1 else 0)%Z.
Proof.
  unfold is_triple, is_plain, is_hash, is_blank, count_line. intros Ht.
  destruct (String.eqb (Py.strip l) EmptyString).
  - destruct flag; simpl; repeat split; lia.
  - rewrite Ht. destruct flag; [simpl; repeat split; lia|].
    destruct (Py.startswith (Py.strip l) "#"); simpl; repeat split; lia.
Qed.

(** The loop over lines none of which starts a triple-quoted block. *)
Lemma fold_count_plain (lines : list string) :
  Forall (fun l => is_triple l = false) lines ->
  forall flag m,
    fst (fold_left count_line lines (flag, m)) = flag
    /\ blank_lines (snd (fold_left count_line lines (flag, m)))
       = (blank_lines m + count is_blank lines)%Z
    /\ code_lines (snd (fold_left count_line lines (flag, m)))
       = (code_lines m + if flag then 0 else count is_plain lines)%Z
    /\ comment_lines (snd (fold_left count_line lines (flag, m)))
       = (comment_lines m
          + if flag then count (fun l => negb (is_blank l)) lines
            else count is_hash lines)%Z.
Proof.
  induction 1 as [|l lines Hl _ IH]; intros flag m.
  - unfold count. simpl. destruct flag; repeat split; lia.
  - cbn [fold_left].
    destruct (count_line_plain flag m l Hl) as (Hf & Hb & Hc & Hm).
    destruct (count_line (flag, m) l) as [flag' m'].
    cbn [fst snd] in Hf, Hb, Hc, Hm. subst flag'.
    destruct (IH flag m') as (Hf' & Hb' & Hc' & Hm').
    rewrite Hf', Hb', Hc', Hm', Hb, Hc, Hm, !count_cons.
    destruct flag, (is_blank l), (is_plain l), (is_hash l); simpl negb;
      cbv iota; repeat split; lia.
Qed.

(** Without a line that starts with three quotes the counts are exact:
    the blank lines, the lines that start with a hash sign, and the
    rest. *)
Theorem calculate_metrics_without_blocks (content : string) :
  Forall (fun l => is_triple l = false) (Py.splitlines content) ->
  let m := calculate_metrics content "python" in
  blank_lines m = count is_blank (Py.splitlines content)
  /\ comment_lines m = count is_hash (Py.splitlines content)
  /\ code_lines m = count is_plain (Py.splitlines content).
Proof.
  intros H. unfold calculate_metrics. simpl String.eqb. cbv iota.
  destruct (fold_count_plain _ H false
              {| total_lines := Py.len (Py.splitlines content); code_lines := 0;
                 comment_lines := 0; blank_lines := 0 |})
    as (_ & Hb & Hc & Hm).
  cbn [blank_lines code_lines comment_lines] in Hb, Hc, Hm.
  rewrite Hb, Hc, Hm. repeat split; lia.
Qed.

Lemma count_line_triple (flag : bool) (m : line_metrics) (l : string) :
  is_blank l = false ->
  is_triple l = true ->
  count_line (flag, m) l
  = (negb flag,
     {| total_lines := total_lines m; code_lines := code_lines m;
        comment_lines := comment_lines m + 1; blank_lines := blank_lines m |}).
Proof.
  unfold is_blank, is_triple, count_line. now intros -> ->.
Qed.

(** A line that starts with three quotes switches the comment mode, even
    when the docstring ends on the same line: when it is the only such
    line, no line after it is counted as code. *)
Theorem calculate_metrics_after_docstring (content : string)
    (before : list string) (docstring : string) (after : list string) :
  Py.splitlines content = before ++ docstring :: after ->
  Forall (fun l => is_triple l = false) before ->
  is_blank docstring = false ->
  is_triple docstring = true ->
  Forall (fun l => is_triple l = false) after ->
  let m := calculate_metrics content "python" in
  code_lines m = count is_plain before
  /\ comment_lines m
     = (count is_hash before + 1 + count (fun l => negb (is_blank l)) after)%Z.
Proof.
  intros Hsplit Hb Hnb Ht Ha. unfold calculate_metrics. simpl String.eqb. cbv iota.
  rewrite Hsplit, fold_left_app. cbn [fold_left].
  set (m0 := {| total_lines := _; code_lines := 0; comment_lines := 0;
                blank_lines := 0 |}).
  destruct (fold_count_plain _ Hb false m0) as (Hf & _ & Hc & Hm).
  destruct (fold_left count_line before (false, m0)) as [flag m1].
  cbn [fst snd] in Hf, Hc, Hm. subst flag.
  rewrite (count_line_triple false m1 docstring Hnb Ht). cbn [negb].
  destruct (fold_count_plain _ Ha true
              {| total_lines := total_lines m1; code_lines := code_lines m1;
                 comment_lines := comment_lines m1 + 1;
                 blank_lines := blank_lines m1 |})
    as (_ & _ & Hc' & Hm').
  cbn [code_lines comment_lines] in Hc', Hm'.
  rewrite Hc', Hm', Hc, Hm. subst m0. cbn [code_lines comment_lines].
  split; lia.
Qed.

End LineMetrics.

Lemma calculate_metrics_other_language_witness :
  let m := CodeAnalyzerTools.calculate_metrics Examples.auth_py "javascript" in
  CodeAnalyzerTools.code_lines m = 0%Z /\ CodeAnalyzerTools.comment_lines m = 0%Z
  /\ CodeAnalyzerTools.blank_lines m = 0%Z
  /\ CodeAnalyzerTools.total_lines m = Py.len (Py.splitlines Examples.auth_py).
Proof.
  apply (calculate_metrics_other_language Examples.auth_py "javascript").
  discriminate.
Defined.

Lemma calculate_metrics_without_blocks_witness :
  let m := CodeAnalyzerTools.calculate_metrics Examples.auth_py "python" in
  CodeAnalyzerTools.blank_lines m = count is_blank (Py.splitlines Examples.auth_py)
  /\ CodeAnalyzerTools.comment_lines m = count is_hash (Py.splitlines Examples.auth_py)
  /\ CodeAnalyzerTools.code_lines m = count is_plain (Py.splitlines Examples.auth_py).
Proof.
  apply (calculate_metrics_without_blocks Examples.auth_py).
  vm_compute. repeat constructor.
Defined.

Lemma calculate_metrics_after_docstring_witness :
  let m := CodeAnalyzerTools.calculate_metrics MoreExamples.north_py "python" in
  CodeAnalyzerTools.code_lines m = count is_plain ["def north():"]
  /\ CodeAnalyzerTools.comment_lines m
     = (count is_hash ["def north():"] + 1
        + count (fun l => negb (is_blank l)) ["    return 0"])%Z.
Proof.
  apply (calculate_metrics_after_docstring MoreExamples.north_py
           ["def north():"] MoreExamples.north_docstring ["    return 0"]).
  - reflexivity.
  - repeat constructor.
  - reflexivity.
  - reflexivity.
  - repeat constructor.
Defined.

Example calculate_metrics_example :
  CodeAnalyzerTools.calculate_metrics MoreExamples.north_py "python"
  = {| CodeAnalyzerTools.total_lines := 3; CodeAnalyzerTools.code_lines := 1;
       CodeAnalyzerTools.comment_lines := 2; CodeAnalyzerTools.blank_lines := 0 |}.
Proof. reflexivity. Qed.

(** ** What the analyzer lists *)

Section Listed.
Import CodeAnalyzerMCP CodeAnalyzerTools.

Lemma nodes_children (n : ast) :
  nodes n = n :: flat_map nodes (iter_child_nodes n).
Proof.
  destruct n; simpl; rewrite ?flat_map_app, ?app_nil_r; reflexivity.
Qed.

Lemma Permutation_flat_map {A B} (f : A -> list B) (l l' : list A) :
  Permutation l l' -> Permutation (flat_map f l) (flat_map f l').
Proof.
  induction 1 as [|x l l' _ IH|x y l|l l' l'' _ IH1 _ IH2]; simpl.
  - constructor.
  - now apply Permutation_app_head.
  - rewrite !app_assoc. apply Permutation_app_tail, Permutation_app_comm.
  - now transitivity (flat_map f l').
Qed.

(** The walk yields the nodes of the trees in the queue, each once. *)
Lemma walk_queue_nodes (fuel : nat) :
  forall todo,
    list_sum (map size todo) <= fuel ->
    Permutation (walk_queue fuel todo) (flat_map nodes todo).
Proof.
  induction fuel as [|fuel IH]; intros todo H.
  - destruct todo as [|n todo]; [constructor|].
    simpl in H. rewrite size_children in H. lia.
  - destruct todo as [|n todo]; [constructor|].
    simpl walk_queue. simpl flat_map. rewrite nodes_children. simpl.
    constructor.
    rewrite IH.
    + rewrite flat_map_app. apply Permutation_app_comm.
    + simpl in H. rewrite size_children in H.
      rewrite map_app, list_sum_app. lia.
Qed.

Lemma walk_nodes (tree : ast) : Permutation (walk tree) (nodes tree).
Proof.
  unfold walk. rewrite walk_queue_nodes by (simpl; lia).
  simpl. now rewrite app_nil_r.
Qed.

Variable ast_parse : string -> parse_outcome.
Variable cc_visit : string -> option (list cc_block).
Variable mi_visit : string -> option float.
Variable cleandoc : string -> string.

(** On a successful parse the analysis has one function entry for each
    [FunctionDef] of the tree, one class entry for each [ClassDef] and
    the names of each import statement, at whatever depth the node lies;
    an [AsyncFunctionDef] gets no entry. *)
Theorem analysis_lists_every_definition (content file_path : string) (tree : ast) :
  ast_parse content = Parsed tree ->
  exists a,
    analyze_python_file ast_parse cc_visit mi_visit content file_path = Analysis a
    /\ Permutation (a_functions a) (flat_map function_entry (nodes tree))
    /\ Permutation (a_classes a) (flat_map class_entry (nodes tree))
    /\ Permutation (a_imports a) (flat_map import_entry (nodes tree))
    /\ Z.of_nat (length (a_functions a)) = count is_FunctionDef (nodes tree).
Proof.
  intros H. unfold analyze_python_file. rewrite H. eexists. split; [reflexivity|].
  simpl. assert (P := walk_nodes tree).
  repeat split; try (now apply Permutation_flat_map).
  unfold count. rewrite function_entries_length. f_equal.
  apply Permutation_length.
  clear - P. induction P; simpl; auto.
  - destruct (is_FunctionDef x); auto.
  - destruct (is_FunctionDef x), (is_FunctionDef y); auto. constructor.
  - etransitivity; eassumption.
Qed.

Lemma map_flat_map {A B C} (g : B -> C) (f : A -> list B) (l : list A) :
  map g (flat_map f l) = flat_map (fun x => map g (f x)) l.
Proof.
  induction l as [|x l IH]; [reflexivity|]. simpl. now rewrite map_app, IH.
Qed.

(** [find_functions] and [analyze_python_file] report the same functions
    in the same order: the same names and lines, and as many parameters
    as the analysis counts. *)
Theorem find_functions_agrees_with_analysis (content file_path : string) (tree : ast) :
  ast_parse content = Parsed tree ->
  exists a,
    analyze_python_file ast_parse cc_visit mi_visit content file_path = Analysis a
    /\ map function_summary (find_functions ast_parse cleandoc content)
       = map function_summary (a_functions a).
Proof.
  intros H. unfold analyze_python_file, find_functions. rewrite H.
  eexists. split; [reflexivity|]. simpl.
  rewrite !map_flat_map. apply flat_map_ext. intros n.
  destruct n; try reflexivity. simpl. unfold function_summary. simpl.
  unfold Py.len. now rewrite length_map.
Qed.

(** [find_classes] and [analyze_python_file] report the same classes in
    the same order, and the analysis counts as many methods as
    [find_classes] names. *)
Theorem find_classes_agrees_with_analysis (content file_path : string) (tree : ast) :
  ast_parse content = Parsed tree ->
  exists a,
    analyze_python_file ast_parse cc_visit mi_visit content file_path = Analysis a
    /\ map class_summary (find_classes ast_parse cleandoc content "python")
       = map class_summary (a_classes a).
Proof.
  intros H. unfold analyze_python_file, find_classes. simpl String.eqb. rewrite H.
  eexists. split; [reflexivity|]. simpl.
  rewrite !map_flat_map. apply flat_map_ext. intros n.
  destruct n; try reflexivity.
  cbn [find_class_entry class_entry map]. unfold class_summary.
  cbn [Py.dict_get String.eqb Ascii.eqb Bool.eqb].
  unfold Py.len. rewrite (List.length_map Py.PyStr). do 5 f_equal.
  clear. induction body as [|b body IH]; [reflexivity|].
  simpl. rewrite length_app, IH. now destruct b.
Qed.

Lemma substring_length (n : nat) (s : string) :
  String.length (substring 0 n s) <= n.
Proof.
  revert s; induction n as [|n IH]; intros s.
  - destruct s; simpl; lia.
  - destruct s as [|c s]; simpl; [lia|]. specialize (IH s). lia.
Qed.

Lemma substring_nonempty (n : nat) (s : string) :
  s <> EmptyString -> 1 <= String.length (substring 0 (S n) s).
Proof. destruct s; [contradiction|]. simpl. lia. Qed.

(** Every entry of [find_functions] has a docstring that is [None] or a
    text of 1 to 100 characters, and says that the function is not
    asynchronous: asynchronous definitions are not listed at all. *)
Theorem find_functions_entries (content : string) (f : Py.dict) :
  In f (find_functions ast_parse cleandoc content) ->
  short_docstring f /\ Py.dict_get f "is_async" = Some (Py.PyBool false).
Proof.
  unfold find_functions. destruct (ast_parse content); try contradiction.
  rewrite in_flat_map. intros (n & _ & Hn).
  destruct n; try contradiction. destruct Hn as [<-|[]].
  split; [|reflexivity]. unfold short_docstring. simpl.
  destruct (get_docstring cleandoc body) as [d|]; [|now left].
  destruct (String.eqb d EmptyString) eqn:E; [now left|].
  right. exists (Py.str_take 100 d). split; [reflexivity|].
  apply String.eqb_neq in E. unfold Py.str_take. split.
  - now apply substring_nonempty.
  - apply substring_length.
Qed.

End Listed.

Lemma analysis_lists_every_definition_witness :
  exists a,
    CodeAnalyzerMCP.analyze_python_file Examples.ast_parse Examples.cc_visit
      Examples.mi_visit Examples.documented_py "documented.py"
    = CodeAnalyzerMCP.Analysis a
    /\ Permutation (CodeAnalyzerMCP.a_functions a)
         (flat_map CodeAnalyzerMCP.function_entry (nodes Examples.documented_tree))
    /\ Permutation (CodeAnalyzerMCP.a_classes a)
         (flat_map CodeAnalyzerMCP.class_entry (nodes Examples.documented_tree))
    /\ Permutation (CodeAnalyzerMCP.a_imports a)
         (flat_map CodeAnalyzerMCP.import_entry (nodes Examples.documented_tree))
    /\ Z.of_nat (length (CodeAnalyzerMCP.a_functions a))
       = count CodeAnalyzerMCP.is_FunctionDef (nodes Examples.documented_tree).
Proof.
  apply (analysis_lists_every_definition Examples.ast_parse Examples.cc_visit
           Examples.mi_visit Examples.documented_py "documented.py"
           Examples.documented_tree).
  reflexivity.
Defined.

Lemma find_functions_agrees_with_analysis_witness :
  exists a,
    CodeAnalyzerMCP.analyze_python_file Examples.ast_parse Examples.cc_visit
      Examples.mi_visit Examples.documented_py "documented.py"
    = CodeAnalyzerMCP.Analysis a
    /\ map function_summary
         (CodeAnalyzerMCP.find_functions Examples.ast_parse Examples.cleandoc
            Examples.documented_py)
       = map function_summary (CodeAnalyzerMCP.a_functions a).
Proof.
  apply (find_functions_agrees_with_analysis Examples.ast_parse Examples.cc_visit
           Examples.mi_visit Examples.cleandoc Examples.documented_py "documented.py"
           Examples.documented_tree).
  reflexivity.
Defined.

Lemma find_classes_agrees_with_analysis_witness :
  exists a,
    CodeAnalyzerMCP.analyze_python_file MoreExamples.ast_parse Examples.cc_visit
      Examples.mi_visit MoreExamples.shapes_py "shapes.py"
    = CodeAnalyzerMCP.Analysis a
    /\ map class_summary
         (CodeAnalyzerTools.find_classes MoreExamples.ast_parse Examples.cleandoc
            MoreExamples.shapes_py "python")
       = map class_summary (CodeAnalyzerMCP.a_classes a).
Proof.
  apply (find_classes_agrees_with_analysis MoreExamples.ast_parse Examples.cc_visit
           Examples.mi_visit Examples.cleandoc MoreExamples.shapes_py "shapes.py"
           MoreExamples.shapes_tree).
  reflexivity.
Defined.

Lemma find_functions_entries_witness :
  short_docstring
    [("name", Py.PyStr "north"); ("line", Py.PyInt 1); ("args", Py.PyList []);
     ("docstring", Py.PyStr "Return the north."); ("is_async", Py.PyBool false)]
  /\ Py.dict_get
       [("name", Py.PyStr "north"); ("line", Py.PyInt 1); ("args", Py.PyList []);
        ("docstring", Py.PyStr "Return the north."); ("is_async", Py.PyBool false)]
       "is_async"
     = Some (Py.PyBool false).
Proof.
  apply (find_functions_entries Examples.ast_parse Examples.cleandoc
           Examples.documented_py).
  vm_compute. left; reflexivity.
Defined.

Example find_classes_example :
  map class_summary
    (CodeAnalyzerTools.find_classes MoreExamples.ast_parse Examples.cleandoc
       MoreExamples.shapes_py "python")
  = [(Some (Py.PyStr "Square"), Some (Py.PyInt 1), Some (Py.PyInt 2))]
  /\ map (fun c => Py.dict_get c "bases")
       (CodeAnalyzerTools.find_classes MoreExamples.ast_parse Examples.cleandoc
          MoreExamples.shapes_py "python")
     = [Some (Py.PyList [Py.PyStr "Shape"])].
Proof. split; reflexivity. Qed.

(** ** The issue list *)

Section IssueList.
Import CodeAnalyzerMCP.

Lemma line_issues_facts (line_num : Z) (line : string) :
  Forall (fun i => i_line i = line_num) (line_issues line_num line)
  /\ length (line_issues line_num line) <= 5.
Proof.
  unfold line_issues.
  destruct (Py.contains "eval(" line), (Py.contains "exec(" line),
    (password_search line), (Py.contains "TODO" line || Py.contains "FIXME" line),
    (120 <? Py.strlen line)%Z;
    simpl; split; try lia; repeat constructor.
Qed.

Lemma StronglySorted_app {A} (R : A -> A -> Prop) (l1 l2 : list A) :
  StronglySorted R l1 ->
  StronglySorted R l2 ->
  (forall a b, In a l1 -> In b l2 -> R a b) ->
  StronglySorted R (l1 ++ l2).
Proof.
  induction 1 as [|x l1 Hs IH Hx]; intros H2 Hc; [assumption|].
  simpl. constructor.
  - apply IH; [assumption|]. intros a b Ha Hb. apply Hc; [now right | assumption].
  - apply Forall_app. split; [assumption|].
    apply Forall_forall. intros b Hb. apply Hc; [now left | assumption].
Qed.

Lemma same_line_sorted (n : Z) (l : list issue) :
  Forall (fun i => i_line i = n) l ->
  StronglySorted (fun a b => (i_line a <= i_line b)%Z) l.
Proof.
  induction 1 as [|x l Hx Hl IH]; constructor; [assumption|].
  eapply Forall_impl; [|exact Hl]. simpl. intros; lia.
Qed.

Lemma detect_from (lines : list string) :
  forall start,
    let found := flat_map (fun '(line_num, line) => line_issues line_num line)
                   (Py.enumerate start lines) in
    Forall (fun i => (start <= i_line i < start + Py.len lines)%Z) found
    /\ StronglySorted (fun a b => (i_line a <= i_line b)%Z) found
    /\ length found <= 5 * length lines.
Proof.
  induction lines as [|l lines IH]; intros start.
  - simpl. repeat split; constructor.
  - cbn zeta. simpl flat_map.
    destruct (line_issues_facts start l) as [Hsame Hlen].
    destruct (IH (start + 1)%Z) as (Hin & Hsorted & Hcount).
    assert (Hlen' : Py.len (l :: lines) = (Py.len lines + 1)%Z)
      by (unfold Py.len; simpl length; lia).
    repeat split.
    + apply Forall_app. split.
      * eapply Forall_impl; [|exact Hsame]. simpl. intros i ->.
        unfold Py.len in *. lia.
      * eapply Forall_impl; [|exact Hin]. simpl. intros; lia.
    + apply StronglySorted_app; [now apply same_line_sorted with (n := start) | assumption|].
      intros a b Ha Hb.
      rewrite Forall_forall in Hsame, Hin.
      rewrite (Hsame _ Ha). specialize (Hin _ Hb). simpl in Hin. lia.
    + rewrite length_app. simpl length. lia.
Qed.

(** The issues of a content come in the order of its lines, each with a
    line number between 1 and the number of lines, and at most five for
    each line. *)
Theorem detect_issues_shape (content : string) :
  let lines := Py.splitlines content in
  Forall (fun i => (1 <= i_line i <= Py.len lines)%Z) (_detect_python_issues content)
  /\ StronglySorted (fun a b => (i_line a <= i_line b)%Z) (_detect_python_issues content)
  /\ length (_detect_python_issues content) <= 5 * length lines.
Proof.
  cbv zeta. unfold _detect_python_issues.
  destruct (detect_from (Py.splitlines content) 1%Z) as (Hin & Hs & Hc).
  repeat split; try assumption.
  eapply Forall_impl; [|exact Hin]. cbv beta. intros; lia.
Qed.

End IssueList.

(** ** The stages of the agent *)

Section Stages.
Import FS FileSystemMCP CodeAnalyzerMCP CodeAssistantAgent.

Variable fnmatch : string -> string -> bool.
Variable fs : filesystem.
Variable requests_get : string -> GitHubMCP.http_outcome.
Variable get_repo_info : string -> Py.dict.
Variable ast_parse : string -> parse_outcome.
Variable cc_visit : string -> option (list cc_block).
Variable mi_visit : string -> option float.
Variable format_1f : float -> string.
Variable self : agent.

Let execute_search := execute_search fnmatch fs requests_get get_repo_info self.
Let analyze_code := analyze_code fs ast_parse cc_visit mi_visit format_1f self.
Let analyze_one := analyze_one ast_parse cc_visit mi_visit format_1f.
Let analyze_files := analyze_files fs ast_parse cc_visit mi_visit format_1f.
Let run_stages :=
  run_stages fnmatch fs requests_get get_repo_info ast_parse cc_visit mi_visit
    format_1f self.

(** When the local repository is missing or is no directory, the search
    stage raises: no file is listed, and the directory tree it asks for
    instead cannot be built. *)
Theorem execute_search_missing_repository (state : AgentState) (plan : search_plan) :
  r_search_plan (results state) = Some plan ->
  repo_is_directory fs self = false ->
  exists e, execute_search state = Py.Raise e.
Proof.
  intros Hplan Hdir.
  destruct (search_raises fnmatch fs requests_get get_repo_info self plan Hdir) as [e He].
  exists e. unfold execute_search, CodeAssistantAgent.execute_search.
  now rewrite Hplan, He.
Qed.

(** The directory tree is stored exactly when the local branch ran and
    listed no file. *)
Theorem execute_search_structure (state state' : AgentState) :
  execute_search state = Py.Ok state' ->
  exists found,
    r_search_results (results state') = Some found
    /\ (structure found <> None
        <-> nonempty (self_repo_path self) <> None /\ files found = []).
Proof.
  unfold execute_search, CodeAssistantAgent.execute_search.
  destruct (r_search_plan (results state)) as [plan|]; [|discriminate].
  unfold search.
  destruct (nonempty (self_repo_path self)) as [p|].
  - destruct (local_matches fnmatch fs (Path p) plan) as [ms|]; [|discriminate].
    destruct (local_files fnmatch fs (Path p) plan) eqn:E.
    + destruct (get_file_structure fs (Path p)); [|discriminate].
      intros H; injection H as <-. eexists. split; [reflexivity|]. simpl.
      split; [intros _; split; [discriminate | reflexivity] | discriminate].
    + intros H; injection H as <-. eexists. split; [reflexivity|]. simpl.
      split; [intros H; now elim H | intros [_ H]; discriminate H].
  - destruct (nonempty (self_github_url self));
      intros H; injection H as <-; eexists; (split; [reflexivity|]); simpl;
      (split; [intros H; now elim H | intros [H _]; now elim H]).
Qed.

(** The loop of [analyze_code] keeps the three lists in step: it appends
    an analysis, its issues and its suggestions together. *)
Lemma analyze_one_step (acc : code_analysis) (f : file_info) (d : read_result) :
  exists new,
    length new <= 1
    /\ Forall (fun r => Py.endswith (file_of r) ".py" = true) new
    /\ file_analyses (analyze_one acc f d) = file_analyses acc ++ new
    /\ issues (analyze_one acc f d) = issues acc ++ flat_map issues_of new
    /\ suggestions (analyze_one acc f d)
       = suggestions acc ++ flat_map (suggest_improvements format_1f) new.
Proof.
  unfold analyze_one, CodeAssistantAgent.analyze_one.
  destruct d as [p content n k|].
  - destruct (Py.endswith (fi_path f) ".py") eqn:E.
    + exists [analyze_python_file ast_parse cc_visit mi_visit content (fi_path f)].
      simpl. rewrite !app_nil_r. repeat split; [lia|].
      constructor; [|constructor].
      unfold analyze_python_file. now destruct (ast_parse content).
    + exists []. simpl. rewrite !app_nil_r. repeat split; [lia | constructor].
  - exists []. simpl. rewrite !app_nil_r. repeat split; [lia | constructor].
Qed.

Lemma analyze_loop (repo : path) (fl : list file_info) :
  forall acc result,
    analyze_files repo fl acc = Py.Ok result ->
    exists new,
      length new <= length fl
      /\ Forall (fun r => Py.endswith (file_of r) ".py" = true) new
      /\ file_analyses result = file_analyses acc ++ new
      /\ issues result = issues acc ++ flat_map issues_of new
      /\ suggestions result
         = suggestions acc ++ flat_map (suggest_improvements format_1f) new.
Proof.
  unfold analyze_files.
  induction fl as [|f fl IH]; intros acc result H; simpl in H.
  - injection H as <-. exists []. simpl. rewrite !app_nil_r.
    repeat split; [lia | constructor].
  - destruct (read_file fs repo (fi_path f)) as [d|]; [|discriminate].
    destruct (analyze_one_step acc f d) as (n1 & L1 & F1 & A1 & I1 & S1).
    destruct (IH _ _ H) as (n2 & L2 & F2 & A2 & I2 & S2).
    fold analyze_one in A2, I2, S2.
    exists (n1 ++ n2). rewrite A2, I2, S2, A1, I1, S1, !flat_map_app, <- !app_assoc.
    repeat split.
    + rewrite length_app. simpl length. lia.
    + apply Forall_app. now split.
Qed.

(** The loop returns when [os.stat] raises no error of its own on the
    files it reads. *)
Lemma analyze_files_returns (repo : path) (fl : list file_info) :
  stat_quiet fs repo fl ->
  forall acc, exists result, analyze_files repo fl acc = Py.Ok result.
Proof.
  unfold analyze_files, stat_quiet.
  induction 1 as [|f fl Hf _ IH]; intros acc; simpl.
  - eexists; reflexivity.
  - apply read_file_returns in Hf as [d ->]. apply IH.
Qed.

Lemma suggestions_length (r : analysis_result) :
  length (suggest_improvements format_1f r) <= 3.
Proof.
  unfold suggest_improvements, complexity_suggestion, maintainability_suggestion,
    doc_suggestion.
  rewrite !length_app.
  destruct (complexity (get_metrics r)) as [items|];
    [destruct (filter _ items)|];
    (destruct (maintainability_index (get_metrics r)) as [mi|];
     [destruct (PrimFloat.ltb mi 20)|]);
    destruct (3 <? _)%Z; simpl; lia.
Qed.

Lemma flat_map_length_bound {A B} (f : A -> list B) (b : nat) (l : list A) :
  (forall x, length (f x) <= b) -> length (flat_map f l) <= b * length l.
Proof.
  intros H. induction l as [|x l IH]; simpl; [lia|].
  rewrite length_app. specialize (H x). lia.
Qed.

(** The analysis stage returns when search results are stored and
    [os.stat] raises no error of its own on the first five files of
    their list.  Its analysis holds at most 5 analyses, all of files
    whose path ends in [.py]; its issue list is the issues of these
    analyses in order, its suggestion list their suggestions in order, at
    most 3 for each. *)
Theorem analyze_code_bounds (state : AgentState) (found : search_results) :
  r_search_results (results state) = Some found ->
  analysis_quiet fs self found ->
  exists state' analysis,
    analyze_code state = Py.Ok state'
    /\ r_code_analysis (results state') = Some analysis
    /\ length (file_analyses analysis) <= 5
    /\ Forall (fun r => Py.endswith (file_of r) ".py" = true) (file_analyses analysis)
    /\ issues analysis = flat_map issues_of (file_analyses analysis)
    /\ suggestions analysis
       = flat_map (suggest_improvements format_1f) (file_analyses analysis)
    /\ length (suggestions analysis) <= 15.
Proof.
  intros Hfound Hquiet. unfold analyze_code, CodeAssistantAgent.analyze_code.
  rewrite Hfound. unfold analysis_quiet in Hquiet.
  destruct (nonempty (self_repo_path self)) as [p|].
  - fold analyze_files.
    destruct (analyze_files_returns (Path p) (Py.take 5 (files found)) Hquiet
                {| file_analyses := []; issues := []; suggestions := [] |})
      as [analysis E].
    rewrite E. eexists. exists analysis. split; [reflexivity|].
    split; [reflexivity|].
    destruct (analyze_loop _ _ _ _ E) as (new & L & F & A & I & S).
    rewrite A, I, S. simpl.
    assert (L5 : length new <= 5).
    { assert (X := firstn_le_length 5 (files found)). unfold Py.take in L. lia. }
    repeat split; try assumption.
    assert (X := flat_map_length_bound (suggest_improvements format_1f) 3 new
                   suggestions_length).
    lia.
  - eexists. eexists. split; [reflexivity|]. split; [reflexivity|].
    simpl. repeat split; try lia. constructor.
Qed.


End Stages.

(** The plans of the planner against the caps of the search stage: the
    patterns are at most 3, so all of them are listed; the keywords,
    when there are any, are 4, so the last one is never searched. *)
Theorem plan_against_caps (query : string) :
  let plan := CodeAssistantAgent.choose_plan query in
  Py.take 5 (CodeAssistantAgent.patterns plan) = CodeAssistantAgent.patterns plan
  /\ (CodeAssistantAgent.keywords plan = []
      \/ exists last,
           In last ["token"; "sql"; "@app"; "except"]
           /\ CodeAssistantAgent.keywords plan
              = Py.take 3 (CodeAssistantAgent.keywords plan) ++ [last]).
Proof.
  cbv zeta. unfold CodeAssistantAgent.choose_plan.
  destruct (Py.contains "authentication" _ || Py.contains "auth" _);
    [split; [reflexivity | right; exists "token"; split; [simpl; auto | reflexivity]]|].
  destruct (Py.contains "database" _ || Py.contains "sql" _);
    [split; [reflexivity | right; exists "sql"; split; [simpl; auto | reflexivity]]|].
  destruct (Py.contains "api" _ || Py.contains "endpoint" _);
    [split; [reflexivity | right; exists "@app"; split; [simpl; auto | reflexivity]]|].
  destruct (Py.contains "bug" _ || Py.contains "error" _);
    [split; [reflexivity | right; exists "except"; split; [simpl; auto 6 | reflexivity]]|].
  split; [reflexivity | now left].
Qed.

Lemma execute_search_missing_repository_witness :
  exists e,
    CodeAssistantAgent.execute_search Examples.fnmatch Examples.disk
      Examples.requests_get Examples.get_repo_info MoreExamples.lost_agent
      (CodeAssistantAgent.plan_search (Examples.start "Where is the login?"))
    = Py.Raise e.
Proof.
  apply (execute_search_missing_repository Examples.fnmatch Examples.disk
           Examples.requests_get Examples.get_repo_info MoreExamples.lost_agent
           (CodeAssistantAgent.plan_search (Examples.start "Where is the login?"))
           (CodeAssistantAgent.choose_plan "Where is the login?"));
    reflexivity.
Defined.



Lemma execute_search_structure_witness :
  exists state' found,
    CodeAssistantAgent.execute_search Examples.fnmatch Examples.disk
      Examples.requests_get Examples.get_repo_info Examples.local_agent
      (CodeAssistantAgent.plan_search (Examples.start "Find the bug in the parser"))
    = Py.Ok state'
    /\ CodeAssistantAgent.r_search_results (CodeAssistantAgent.results state') = Some found
    /\ (CodeAssistantAgent.structure found <> None
        <-> CodeAssistantAgent.nonempty
              (CodeAssistantAgent.self_repo_path Examples.local_agent) <> None
            /\ CodeAssistantAgent.files found = []).
Proof.
  destruct (CodeAssistantAgent.execute_search Examples.fnmatch Examples.disk
              Examples.requests_get Examples.get_repo_info Examples.local_agent
              (CodeAssistantAgent.plan_search
                 (Examples.start "Find the bug in the parser")))
    as [state'|e] eqn:E; [|vm_compute in E; discriminate E].
  destruct (execute_search_structure Examples.fnmatch Examples.disk
              Examples.requests_get Examples.get_repo_info Examples.local_agent
              _ state' E) as (found & H1 & H2).
  exists state', found. split; [reflexivity|]. split; [exact H1 | exact H2].
Defined.

Lemma analyze_code_bounds_witness :
  exists state' analysis,
    CodeAssistantAgent.analyze_code Examples.disk Examples.ast_parse Examples.cc_visit
      Examples.mi_visit Examples.format_1f Examples.local_agent MoreExamples.searched
    = Py.Ok state'
    /\ CodeAssistantAgent.r_code_analysis (CodeAssistantAgent.results state') = Some analysis
    /\ length (CodeAssistantAgent.file_analyses analysis) <= 5
    /\ Forall (fun r => Py.endswith (file_of r) ".py" = true)
         (CodeAssistantAgent.file_analyses analysis)
    /\ CodeAssistantAgent.issues analysis
       = flat_map issues_of (CodeAssistantAgent.file_analyses analysis)
    /\ CodeAssistantAgent.suggestions analysis
       = flat_map (CodeAnalyzerMCP.suggest_improvements Examples.format_1f)
           (CodeAssistantAgent.file_analyses analysis)
    /\ length (CodeAssistantAgent.suggestions analysis) <= 15.
Proof.
  eapply (analyze_code_bounds Examples.disk Examples.ast_parse Examples.cc_visit
            Examples.mi_visit Examples.format_1f Examples.local_agent
            MoreExamples.searched).
  - vm_compute. reflexivity.
  - vm_compute. repeat constructor.
Defined.

Example analyze_code_example :
  match CodeAssistantAgent.analyze_code Examples.disk Examples.ast_parse
          Examples.cc_visit Examples.mi_visit Examples.format_1f Examples.local_agent
          MoreExamples.searched with
  | Py.Ok state' =>
      match CodeAssistantAgent.r_code_analysis (CodeAssistantAgent.results state') with
      | Some analysis =>
          map file_of (CodeAssistantAgent.file_analyses analysis)
          = ["auth.py"; "lib/login_utils.py"]
      | None => False
      end
  | Py.Raise _ => False
  end.
Proof. vm_compute. reflexivity. Qed.

(** ** Suggestions on an analysis *)

Section Suggestions.
Import CodeAnalyzerMCP.

Variable ast_parse : string -> parse_outcome.
Variable cc_visit : string -> option (list cc_block).
Variable mi_visit : string -> option float.
Variable format_1f : float -> string.

Let analyze := analyze_python_file ast_parse cc_visit mi_visit.

Lemma count_permutation {A} (test : A -> bool) (l l' : list A) :
  Permutation l l' -> count test l = count test l'.
Proof.
  intros P. unfold count. f_equal. apply Permutation_length.
  induction P; simpl; auto.
  - destruct (test x); auto.
  - destruct (test x), (test y); auto. constructor.
  - etransitivity; eassumption.
Qed.

(** On the analysis of a content that parses, [suggest_improvements]
    gives the doc-suggestion exactly when the tree has more than 3
    function definitions, and the number it names is the number of all
    of them: whether a function has a docstring plays no role. *)
Theorem analysis_doc_suggestion (content file_path : string) (tree : ast) :
  ast_parse content = Parsed tree ->
  let n := count is_FunctionDef (nodes tree) in
  ((3 < n)%Z ->
   In (doc_message n) (suggest_improvements format_1f (analyze content file_path)))
  /\ ((n <= 3)%Z ->
      forall m, ~ In (doc_message m)
                  (suggest_improvements format_1f (analyze content file_path))).
Proof.
  intros H n.
  assert (Hdoc := doc_suggestion_counts_definitions ast_parse cc_visit mi_visit
                    content file_path tree H).
  cbv zeta in Hdoc. fold analyze in Hdoc.
  assert (Hn : Py.len (filter is_FunctionDef (walk tree)) = n).
  { unfold n. rewrite <- (count_permutation is_FunctionDef _ _ (walk_nodes tree)).
    reflexivity. }
  rewrite Hn in Hdoc. split.
  - intros Hlt. unfold suggest_improvements. rewrite Hdoc.
    apply in_or_app; right. apply in_or_app; right.
    apply Z.ltb_lt in Hlt. rewrite Hlt. now left.
  - intros Hle m Hin.
    assert (X : exists k, In (doc_message k)
                            (suggest_improvements format_1f (analyze content file_path)))
      by (now exists m).
    apply doc_suggestion_iff in X.
    assert (Y : doc_suggestion (analyze content file_path) <> []).
    { unfold doc_suggestion, Py.len.
      replace (3 <? _)%Z with true by (symmetry; apply Z.ltb_lt; lia). discriminate. }
    rewrite Hdoc in Y. destruct (3 <? n)%Z eqn:E; [|now apply Y].
    apply Z.ltb_lt in E. lia.
Qed.

(** When the content does not parse, the analysis gets no suggestion at
    all. *)
Theorem failed_analysis_no_suggestions (content file_path : string) :
  (forall tree, ast_parse content <> Parsed tree) ->
  suggest_improvements format_1f (analyze content file_path) = [].
Proof.
  intros H. unfold analyze, analyze_python_file.
  destruct (ast_parse content) as [tree| |]; [now elim (H tree) | reflexivity..].
Qed.

End Suggestions.

Lemma analysis_doc_suggestion_witness :
  ((3 < 4)%Z ->
   In (CodeAnalyzerMCP.doc_message 4)
     (CodeAnalyzerMCP.suggest_improvements Examples.format_1f
        (CodeAnalyzerMCP.analyze_python_file Examples.ast_parse Examples.cc_visit
           Examples.mi_visit Examples.documented_py "documented.py")))
  /\ ((4 <= 3)%Z ->
      forall m,
        ~ In (CodeAnalyzerMCP.doc_message m)
            (CodeAnalyzerMCP.suggest_improvements Examples.format_1f
               (CodeAnalyzerMCP.analyze_python_file Examples.ast_parse Examples.cc_visit
                  Examples.mi_visit Examples.documented_py "documented.py"))).
Proof.
  apply (analysis_doc_suggestion Examples.ast_parse Examples.cc_visit Examples.mi_visit
           Examples.format_1f Examples.documented_py "documented.py"
           Examples.documented_tree).
  reflexivity.
Defined.

Lemma failed_analysis_no_suggestions_witness :
  CodeAnalyzerMCP.suggest_improvements Examples.format_1f
    (CodeAnalyzerMCP.analyze_python_file Examples.ast_parse Examples.cc_visit
       Examples.mi_visit Examples.broken_py "broken.py") = [].
Proof.
  apply (failed_analysis_no_suggestions Examples.ast_parse Examples.cc_visit
           Examples.mi_visit Examples.format_1f Examples.broken_py "broken.py").
  intros tree. vm_compute. discriminate.
Defined.

(** ** The GitHub client *)

Section Reversal.

Lemma rev_string_acc (s : string) :
  forall acc, Py.rev_string acc s = Py.rev_string "" s +++ acc.
Proof.
  induction s as [|c s IH]; intros acc; [reflexivity|].
  simpl. rewrite (IH (String c acc)), (IH (String c "")).
  now rewrite append_assoc.
Qed.

Lemma append_nil_r (s : string) : s +++ "" = s.
Proof. induction s as [|c s IH]; [reflexivity|]. simpl. now rewrite IH. Qed.

Lemma rev_string_app (a b : string) :
  Py.rev_string "" (a +++ b) = Py.rev_string "" b +++ Py.rev_string "" a.
Proof.
  induction a as [|c a IH]; simpl.
  - now rewrite append_nil_r.
  - rewrite (rev_string_acc (a +++ b) (String c "")), IH.
    rewrite (rev_string_acc a (String c "")). now rewrite append_assoc.
Qed.

Lemma rev_string_involutive (s : string) :
  Py.rev_string "" (Py.rev_string "" s) = s.
Proof.
  induction s as [|c s IH]; [reflexivity|].
  simpl. rewrite (rev_string_acc s (String c "")), rev_string_app, IH. reflexivity.
Qed.

Lemma prefix_append (p s : string) : prefix p (p +++ s) = true.
Proof.
  induction p as [|c p IH]; simpl; [now destruct s|].
  destruct (ascii_dec c c); [assumption | congruence].
Qed.

Lemma endswith_append (s p : string) : Py.endswith (s +++ p) p = true.
Proof. unfold Py.endswith. rewrite rev_string_app. apply prefix_append. Qed.

Lemma rev_slashes (k : nat) : Py.rev_string "" (slashes k) = slashes k.
Proof.
  induction k as [|k IH]; [reflexivity|].
  simpl. rewrite (rev_string_acc (slashes k) (String "/" "")), IH.
  clear. induction k as [|k IH]; [reflexivity|]. simpl. now rewrite IH.
Qed.

Lemma lstrip_slashes (k : nat) (s : string) :
  Py.lstrip_char "/" (slashes k +++ s) = Py.lstrip_char "/" s.
Proof. induction k as [|k IH]; [reflexivity|]. simpl. exact IH. Qed.

(** A text that ends in a character other than the slash loses exactly
    the slashes put after it. *)
Lemma rstrip_slashes (s : string) (c : ascii) (k : nat) :
  Ascii.eqb c "/" = false ->
  Py.rstrip_char "/" (s +++ String c "" +++ slashes k) = s +++ String c "".
Proof.
  intros Hc. unfold Py.rstrip_char.
  rewrite <- (append_assoc s (String c "") (slashes k)).
  rewrite rev_string_app, rev_slashes, lstrip_slashes.
  rewrite rev_string_app. simpl. rewrite Hc.
  change (String c (Py.rev_string "" s)) with (String c "" +++ Py.rev_string "" s).
  rewrite rev_string_app, rev_string_involutive. reflexivity.
Qed.

Lemma split_nonempty (sep : ascii) (s : string) : Py.split sep s <> [].
Proof.
  destruct s as [|c s]; simpl; [discriminate|].
  destruct (Ascii.eqb c sep); [discriminate|].
  destruct (Py.split sep s); discriminate.
Qed.

Lemma split_append (sep : ascii) (a b : string) :
  Py.split sep (a +++ String sep b) = Py.split sep a ++ Py.split sep b.
Proof.
  induction a as [|c a IH]; simpl.
  - now rewrite Ascii.eqb_refl.
  - destruct (Ascii.eqb c sep); [now rewrite IH|].
    rewrite IH. assert (N := split_nonempty sep a).
    destruct (Py.split sep a); [now elim N | reflexivity].
Qed.

Lemma ends_in_char (s : string) :
  s <> EmptyString -> exists s' c, s = s' +++ String c "".
Proof.
  induction s as [|c s IH]; intros H; [now elim H|].
  destruct s as [|d s].
  - now exists "", c.
  - destruct IH as (s' & e & E); [discriminate|].
    exists (String c s'), e. simpl. now rewrite E.
Qed.

Lemma contains_append_r (a b : string) :
  Py.contains "/" (a +++ b) = false -> Py.contains "/" b = false.
Proof.
  intros H. destruct (Py.contains "/" b) eqn:E; [|reflexivity].
  apply contains_iff in E as (u & v & ->).
  assert (X : Py.contains "/" (a +++ (u +++ "/" +++ v)) = true).
  { apply contains_iff. exists (a +++ u), v. now rewrite <- !append_assoc. }
  congruence.
Qed.

End Reversal.

Section GitHubClient.
Import GitHubMCP.

Variable requests_get : string -> http_outcome.

(** Owner and repository are the last two pieces of the URL: whatever
    stands before them and however many slashes follow, a URL that ends
    in [/owner/repo] gives that owner and that repository. *)
Theorem owner_repo_of_url (base owner repo : string) (k : nat) :
  Py.contains "/" owner = false ->
  Py.contains "/" repo = false ->
  repo <> EmptyString ->
  owner_repo (base +++ "/" +++ owner +++ "/" +++ repo +++ slashes k)
  = Py.Ok (owner, repo).
Proof.
  intros Ho Hr Hne. unfold owner_repo.
  destruct (ends_in_char repo Hne) as (r & c & E).
  assert (Hc : Ascii.eqb c "/" = false).
  { rewrite E in Hr. apply contains_append_r in Hr.
    now apply no_slash_head in Hr. }
  replace (base +++ "/" +++ owner +++ "/" +++ repo +++ slashes k)
    with ((base +++ "/" +++ owner +++ "/" +++ r) +++ String c "" +++ slashes k)
    by (rewrite E, ?append_assoc; reflexivity).
  rewrite (rstrip_slashes _ c k Hc).
  replace ((base +++ "/" +++ owner +++ "/" +++ r) +++ String c "")
    with (base +++ String "/" (owner +++ String "/" repo))
    by (rewrite E, ?append_assoc; reflexivity).
  rewrite !split_append, (split_no_slash owner Ho), (split_no_slash repo Hr).
  rewrite !rev_app_distr. reflexivity.
Qed.

(** [search_code] answers with results or with one error entry, never
    with both: the results are one entry with exactly the keys name,
    path and url for each of the first 10 items of a response with
    status 200; an item that lacks a key turns the whole answer into the
    error entry. *)
Theorem search_code_results_or_error (query repo_url : string) :
  (exists e, search_code requests_get query repo_url = error_entry e)
  \/ (exists url items,
        requests_get url = Response 200 (Py.Ok items)
        /\ length (search_code requests_get query repo_url)
           = Nat.min 10 (length items)
        /\ Forall (fun d => map fst d = ["name"; "path"; "url"])
             (search_code requests_get query repo_url)).
Proof.
  unfold search_code.
  destruct (owner_repo repo_url) as [[owner repo]|e]; [|left; now exists e].
  set (url := _ +++ _).
  destruct (requests_get url) as [status items|e] eqn:R; [|left; now exists e].
  destruct (status =? 200)%Z eqn:S; [|left; eexists; reflexivity].
  apply Z.eqb_eq in S. subst status.
  destruct items as [items|e]; [|left; now exists e].
  destruct (collect_items (Py.take 10 items)) as [results|e] eqn:C;
    [|left; now exists e].
  right. exists url, items. split; [assumption|].
  assert (G : forall l res, collect_items l = Py.Ok res ->
                length res = length l
                /\ Forall (fun d => map fst d = ["name"; "path"; "url"]) res).
  { clear. induction l as [|item l IH]; intros res H; simpl in H.
    - injection H as <-. split; [reflexivity | constructor].
    - destruct (getitem item "name"); [|discriminate].
      destruct (getitem item "path"); [|discriminate].
      destruct (getitem item "html_url"); [|discriminate].
      destruct (collect_items l) as [r|]; [|discriminate].
      injection H as <-. destruct (IH r eq_refl) as [L F].
      split; [simpl; now rewrite L | now constructor]. }
  destruct (G _ _ C) as [L F]. split; [|assumption].
  rewrite L. unfold Py.take. apply length_firstn.
Qed.

(** A URL without any slash has no owner: [search_code] sends no request
    and answers with the error of the failed indexing. *)
Theorem search_code_no_slash (query repo_url : string) :
  Py.contains "/" repo_url = false ->
  search_code requests_get query repo_url = error_entry "list index out of range".
Proof.
  intros H. unfold search_code, owner_repo.
  assert (E : Py.rstrip_char "/" repo_url = repo_url).
  { destruct (String.eqb repo_url "") eqn:Z; [apply String.eqb_eq in Z; now subst|].
    apply String.eqb_neq in Z. destruct (ends_in_char repo_url Z) as (r & c & E).
    assert (Hc : Ascii.eqb c "/" = false).
    { rewrite E in H. apply contains_append_r in H. now apply no_slash_head in H. }
    rewrite E. rewrite <- (append_nil_r (String c "")) at 1.
    change "" with (slashes 0). now rewrite rstrip_slashes. }
  rewrite E, (split_no_slash repo_url H). reflexivity.
Qed.

End GitHubClient.

(** The clone URL always ends in [.git], and converting it again changes
    nothing. *)
Theorem clone_repo_url_ends_in_git (repo_url : string) :
  Py.endswith (GitHubTools.clone_repo_url repo_url) ".git" = true
  /\ GitHubTools.clone_repo_url (GitHubTools.clone_repo_url repo_url)
     = GitHubTools.clone_repo_url repo_url.
Proof.
  assert (H : Py.endswith (GitHubTools.clone_repo_url repo_url) ".git" = true).
  { unfold GitHubTools.clone_repo_url.
    destruct (Py.endswith repo_url ".git") eqn:E; [assumption|].
    apply endswith_append. }
  split; [assumption|].
  unfold GitHubTools.clone_repo_url at 1. now rewrite H.
Qed.

Lemma owner_repo_of_url_witness :
  GitHubMCP.owner_repo
    ("https://github.com" +++ "/" +++ "abuzerexe" +++ "/" +++ "code-assistant"
     +++ slashes 2)
  = Py.Ok ("abuzerexe", "code-assistant").
Proof.
  apply (owner_repo_of_url "https://github.com" "abuzerexe" "code-assistant" 2);
    [reflexivity | reflexivity | discriminate].
Defined.

Lemma search_code_no_slash_witness :
  GitHubMCP.search_code Examples.requests_get "token" "code-assistant"
  = GitHubMCP.error_entry "list index out of range".
Proof.
  apply (search_code_no_slash Examples.requests_get "token" "code-assistant").
  reflexivity.
Defined.

(** ** The directory tree *)

Section DirectoryTree.
Import FS FileSystemMCP.

Variable fs : filesystem.
Variable repo_path : path.

Lemma insert_sorted_in (x y : string * node) (l : list (string * node)) :
  In y (insert_sorted x l) <-> y = x \/ In y l.
Proof.
  induction l as [|z l IH]; simpl.
  - intuition.
  - destruct (sort_key_le x z); simpl; [intuition|]. rewrite IH. intuition.
Qed.

Lemma sorted_entries_in (y : string * node) (l : list (string * node)) :
  In y (sorted_entries l) <-> In y l.
Proof.
  induction l as [|x l IH]; simpl; [reflexivity|].
  fold (sorted_entries l). rewrite insert_sorted_in, IH. intuition.
Qed.

(** What [build_tree] appends for one directory entry. *)
Let shows_of (depth' : nat) : string * node -> list tree_node :=
  fun '(item, child) =>
    if Py.startswith item "." || Py.mem item ["node_modules"; "venv"; "__pycache__"]
    then []
    else
      match child with
      | File _ _ =>
          if Py.mem (suffix item) allowed_extensions
          then [TreeFile item (suffix item)] else []
      | Dir sub =>
          match build_tree depth' item sub with
          | Some subtree =>
              match tree_children subtree with
              | [] => []
              | _ => [subtree]
              end
          | None => []
          end
      end.

Lemma build_tree_step (depth' : nat) (dirname : string) (entries : list (string * node)) :
  build_tree (S depth') dirname entries
  = Some (TreeDir dirname (flat_map (shows_of depth') (sorted_entries entries))).
Proof. reflexivity. Qed.

Lemma build_tree_name (depth : nat) (dirname : string) (entries : list (string * node))
    (t : tree_node) :
  build_tree depth dirname entries = Some t ->
  exists cs, t = TreeDir dirname cs.
Proof.
  destruct depth; [discriminate|]. rewrite build_tree_step.
  intros H; injection H as <-. eexists; reflexivity.
Qed.

Lemma build_tree_sound (depth : nat) :
  forall dirname entries t rel,
    build_tree depth dirname entries = Some t ->
    shown (tree_children t) rel ->
    exists dirs f st_size data,
      rel = dirs ++ [f]
      /\ at_path (Dir entries) rel (File st_size data)
      /\ length rel <= depth
      /\ Forall (fun d => tree_visible d = true) rel
      /\ Py.mem (suffix f) allowed_extensions = true.
Proof.
  induction depth as [|depth IH]; intros dirname entries t rel Hb Hs; [discriminate|].
  rewrite build_tree_step in Hb. injection Hb as <-. simpl tree_children in Hs.
  inversion Hs as [cs f ext Hin|cs d sub rel' Hin Hsub]; subst.
  - apply in_flat_map in Hin as ([item child] & Hin & Hf).
    apply (proj1 (sorted_entries_in _ _)) in Hin. unfold shows_of in Hf.
    destruct (Py.startswith item "." || Py.mem item _) eqn:V; [contradiction|].
    destruct child as [st_size data|sub].
    + destruct (Py.mem (suffix item) allowed_extensions) eqn:A; [|contradiction].
      destruct Hf as [Hf|[]]. injection Hf as <- <-.
      exists [], item, st_size, data. repeat split; try assumption.
      * simpl. eexists. split; [exact Hin | reflexivity].
      * simpl. lia.
      * constructor; [|constructor]. unfold tree_visible. now rewrite V.
    + destruct (build_tree depth item sub) as [subtree|] eqn:B; [|contradiction].
      destruct (build_tree_name _ _ _ _ B) as [cs ->].
      destruct (tree_children (TreeDir item cs)); [contradiction|].
      destruct Hf as [Hf|[]]. discriminate Hf.
  - apply in_flat_map in Hin as ([item child] & Hin & Hf).
    apply (proj1 (sorted_entries_in _ _)) in Hin. unfold shows_of in Hf.
    destruct (Py.startswith item "." || Py.mem item _) eqn:V; [contradiction|].
    destruct child as [st_size data|entries'].
    + destruct (Py.mem (suffix item) allowed_extensions); [|contradiction].
      destruct Hf as [Hf|[]]. discriminate Hf.
    + destruct (build_tree depth item entries') as [subtree|] eqn:B; [|contradiction].
      destruct (tree_children subtree) eqn:C; [contradiction|].
      destruct Hf as [Hf|[]]. subst subtree.
      destruct (build_tree_name _ _ _ _ B) as [cs' E]. injection E as -> ->.
      destruct (IH item entries' (TreeDir item cs') rel' B Hsub)
        as (dirs & f & st_size & data & -> & Hat & Hlen & Hvis & Hext).
      exists (item :: dirs), f, st_size, data. repeat split; try assumption.
      * simpl. eexists. split; [exact Hin | exact Hat].
      * simpl. simpl in Hlen. lia.
      * constructor; [|assumption]. unfold tree_visible. now rewrite V.
Qed.


(** Every file the directory tree shows is a file of the repository,
    under the names the tree gives, at most 3 names deep; no name on the
    way has a leading dot or is node_modules, venv or __pycache__, and
    the extension of the file is an allowed one. *)
Theorem get_file_structure_sound (t : tree_node) (rel : list string) :
  get_file_structure fs repo_path = Py.Ok (Some t) ->
  shown (tree_children t) rel ->
  exists top dirs f st_size data,
    resolve fs repo_path = Some top
    /\ rel = dirs ++ [f]
    /\ at_path top rel (File st_size data)
    /\ length rel <= 3
    /\ Forall (fun d => tree_visible d = true) rel
    /\ Py.mem (suffix f) allowed_extensions = true.
Proof.
  unfold get_file_structure.
  destruct (resolve fs repo_path) as [[? ?|entries]|]; try discriminate.
  intros H Hs.
  assert (B : build_tree 3 (name repo_path) entries = Some t) by congruence.
  destruct (build_tree_sound 3 _ _ _ _ B Hs)
    as (dirs & f & st_size & data & E & Hat & Hlen & Hvis & Hext).
  exists (Dir entries), dirs, f, st_size, data. repeat split; assumption.
Qed.


Lemma all_files_dirs_first (cs : list tree_node) :
  forallb is_tree_file cs = true -> dirs_first cs = true.
Proof.
  destruct cs as [|[? ?|? ?] cs]; simpl; intros H;
    [reflexivity | assumption | discriminate].
Qed.

Let entry_is_file (e : string * node) : bool := negb (is_dir (snd e)).

Let dirs_then_files : list (string * node) -> bool :=
  fix go l :=
    match l with
    | [] => true
    | e :: l' => if is_dir (snd e) then go l' else forallb entry_is_file l'
    end.

Lemma insert_sorted_files (x : string * node) (l : list (string * node)) :
  entry_is_file x = true ->
  forallb entry_is_file l = true ->
  forallb entry_is_file (insert_sorted x l) = true.
Proof.
  intros Hx. induction l as [|y l IH]; simpl; intros H.
  - now rewrite Hx.
  - apply andb_true_iff in H as [Hy Hl].
    destruct (sort_key_le x y); simpl.
    + now rewrite Hx, Hy, Hl.
    + now rewrite Hy, IH.
Qed.

Lemma insert_sorted_dirs_then_files (x : string * node) (l : list (string * node)) :
  dirs_then_files l = true -> dirs_then_files (insert_sorted x l) = true.
Proof.
  induction l as [|y l IH]; intros H.
  - simpl. now destruct (is_dir (snd x)).
  - simpl insert_sorted. destruct (sort_key_le x y) eqn:K.
    + change (dirs_then_files (x :: y :: l))
        with (if is_dir (snd x) then dirs_then_files (y :: l)
              else forallb entry_is_file (y :: l)).
      destruct (is_dir (snd x)) eqn:Dx; [assumption|].
      unfold sort_key_le in K. rewrite Dx in K.
      change (dirs_then_files (y :: l))
        with (if is_dir (snd y) then dirs_then_files l
              else forallb entry_is_file l) in H.
      destruct (is_dir (snd y)) eqn:Dy; [discriminate|].
      simpl. unfold entry_is_file at 1. now rewrite Dy.
    + change (dirs_then_files (y :: insert_sorted x l))
        with (if is_dir (snd y) then dirs_then_files (insert_sorted x l)
              else forallb entry_is_file (insert_sorted x l)).
      change (dirs_then_files (y :: l))
        with (if is_dir (snd y) then dirs_then_files l
              else forallb entry_is_file l) in H.
      destruct (is_dir (snd y)) eqn:Dy; [now apply IH|].
      apply insert_sorted_files; [|assumption].
      unfold sort_key_le in K. rewrite Dy in K.
      unfold entry_is_file. now destruct (is_dir (snd x)).
Qed.

Lemma sorted_dirs_then_files (l : list (string * node)) :
  dirs_then_files (sorted_entries l) = true.
Proof.
  induction l as [|x l IH]; [reflexivity|].
  simpl. now apply insert_sorted_dirs_then_files.
Qed.

Lemma shows_of_kind (depth' : nat) (e : string * node) :
  shows_of depth' e = []
  \/ (exists t, shows_of depth' e = [t] /\ is_tree_file t = entry_is_file e).
Proof.
  destruct e as [item child]. unfold shows_of, entry_is_file. simpl snd.
  destruct (Py.startswith item "." || Py.mem item _); [now left|].
  destruct child as [? ?|sub].
  - destruct (Py.mem (suffix item) allowed_extensions); [|now left].
    right. eexists. split; reflexivity.
  - destruct (build_tree depth' item sub) as [subtree|] eqn:B; [|now left].
    destruct (build_tree_name _ _ _ _ B) as [cs ->].
    destruct (tree_children (TreeDir item cs)); [now left|].
    right. eexists. split; reflexivity.
Qed.

Lemma shows_of_files (depth' : nat) (l : list (string * node)) :
  forallb entry_is_file l = true ->
  forallb is_tree_file (flat_map (shows_of depth') l) = true.
Proof.
  induction l as [|e l IH]; [reflexivity|]. simpl. intros H.
  apply andb_true_iff in H as [He Hl]. rewrite forallb_app, (IH Hl), andb_true_r.
  destruct (shows_of_kind depth' e) as [->|(t & -> & K)]; [reflexivity|].
  simpl. now rewrite K, He.
Qed.

Lemma shows_of_dirs_first (depth' : nat) (l : list (string * node)) :
  dirs_then_files l = true ->
  dirs_first (flat_map (shows_of depth') l) = true.
Proof.
  induction l as [|e l IH]; [reflexivity|]. intros H.
  change (dirs_then_files (e :: l))
    with (if is_dir (snd e) then dirs_then_files l
          else forallb entry_is_file l) in H.
  simpl flat_map.
  destruct (shows_of_kind depth' e) as [->|(t & -> & K)].
  - simpl. destruct (is_dir (snd e)); [now apply IH|].
    now apply all_files_dirs_first, shows_of_files.
  - unfold entry_is_file in K. simpl.
    destruct (is_dir (snd e)); destruct t; try discriminate K.
    + now apply IH.
    + now apply shows_of_files.
Qed.

Lemma build_tree_tidy (depth : nat) :
  forall dirname entries cs,
    build_tree depth dirname entries = Some (TreeDir dirname cs) ->
    dirs_first cs = true /\ forallb tidy cs = true.
Proof.
  induction depth as [|depth IH]; intros dirname entries cs H; [discriminate|].
  rewrite build_tree_step in H. injection H as <-.
  split; [apply shows_of_dirs_first, sorted_dirs_then_files|].
  apply forallb_forall. intros t Hin.
  apply in_flat_map in Hin as ([item child] & _ & Hf). unfold shows_of in Hf.
  destruct (Py.startswith item "." || Py.mem item _); [contradiction|].
  destruct child as [? ?|sub].
  - destruct (Py.mem (suffix item) allowed_extensions); [|contradiction].
    destruct Hf as [<-|[]]. reflexivity.
  - destruct (build_tree depth item sub) as [subtree|] eqn:B; [|contradiction].
    destruct (build_tree_name _ _ _ _ B) as [cs' ->].
    destruct (IH _ _ _ B) as [D T]. simpl tree_children in Hf.
    destruct cs' as [|c cs']; [contradiction|].
    destruct Hf as [<-|[]].
    change (tidy (TreeDir item (c :: cs')))
      with (true && dirs_first (c :: cs') && forallb tidy (c :: cs')).
    now rewrite D, T.
Qed.

(** When it returns, [get_file_structure] gives a tree for the
    repository directory, named after it, in which every directory
    lists its directories before its files and no directory below the
    root is empty: a directory with nothing to show is left out. *)
Theorem get_file_structure_shape (r : option tree_node) :
  get_file_structure fs repo_path = Py.Ok r ->
  exists cs,
    r = Some (TreeDir (name repo_path) cs)
    /\ dirs_first cs = true
    /\ forallb tidy cs = true.
Proof.
  unfold get_file_structure.
  destruct (resolve fs repo_path) as [[? ?|entries]|]; try discriminate.
  intros H.
  assert (B : r = build_tree 3 (name repo_path) entries) by congruence.
  subst r. eexists. split; [apply build_tree_step|].
  apply (build_tree_tidy 3 (name repo_path) entries). apply build_tree_step.
Qed.

End DirectoryTree.


Lemma get_file_structure_sound_witness :
  exists top dirs f st_size data,
    FS.resolve Examples.disk Examples.repo = Some top
    /\ ["lib"; "login_utils.py"] = dirs ++ [f]
    /\ at_path top ["lib"; "login_utils.py"] (FS.File st_size data)
    /\ length ["lib"; "login_utils.py"] <= 3
    /\ Forall (fun d => tree_visible d = true) ["lib"; "login_utils.py"]
    /\ Py.mem (FS.suffix f) FileSystemMCP.allowed_extensions = true.
Proof.
  eapply (get_file_structure_sound Examples.disk Examples.repo).
  - vm_compute. reflexivity.
  - simpl. eapply shown_dir; [find_entry|]. eapply shown_file. find_entry.
Defined.


Lemma get_file_structure_shape_witness :
  exists cs,
    match FileSystemMCP.get_file_structure Examples.disk Examples.repo with
    | Py.Ok r => r
    | Py.Raise _ => None
    end = Some (FileSystemMCP.TreeDir (FS.name Examples.repo) cs)
    /\ dirs_first cs = true
    /\ forallb tidy cs = true.
Proof.
  apply (get_file_structure_shape Examples.disk Examples.repo).
  vm_compute. reflexivity.
Defined.

(** ** The agent without a local repository *)

Section RemoteAgent.
Import FS FileSystemMCP CodeAnalyzerMCP CodeAssistantAgent.

Variable fnmatch : string -> string -> bool.
Variable fs : filesystem.
Variable requests_get : string -> GitHubMCP.http_outcome.
Variable get_repo_info : string -> Py.dict.
Variable ast_parse : string -> parse_outcome.
Variable cc_visit : string -> option (list cc_block).
Variable mi_visit : string -> option float.
Variable format_1f : float -> string.
Variable self : agent.

(** Without a local repository the stages always return, whatever the
    server answers: they list no file, store no directory tree and at
    most 30 matches, error entries included, and analyse no code. *)
Theorem remote_agent_analyses_nothing (state : AgentState) :
  nonempty (self_repo_path self) = None ->
  exists state' found,
    run_stages fnmatch fs requests_get get_repo_info ast_parse cc_visit mi_visit
      format_1f self state = Py.Ok state'
    /\ r_search_results (results state') = Some found
    /\ files found = []
    /\ structure found = None
    /\ length (matches found) <= 30
    /\ r_code_analysis (results state')
       = Some {| file_analyses := []; issues := []; suggestions := [] |}.
Proof.
  intros Hlocal.
  unfold run_stages, execute_search, plan_search, search, analyze_code.
  simpl r_search_plan. rewrite Hlocal.
  destruct (nonempty (self_github_url self)) as [url|].
  - eexists. eexists. split; [reflexivity|]. simpl. rewrite ?Hlocal.
    repeat split.
    apply (chunked_length 3 10), remote_matches_chunked.
  - eexists. eexists. split; [reflexivity|]. simpl. rewrite ?Hlocal.
    repeat split. simpl. lia.
Qed.

End RemoteAgent.

Lemma remote_agent_analyses_nothing_witness :
  exists state' found,
    CodeAssistantAgent.run_stages Examples.fnmatch Examples.disk Examples.requests_get
      Examples.get_repo_info Examples.ast_parse Examples.cc_visit Examples.mi_visit
      Examples.format_1f MoreExamples.remote_agent
      (Examples.start "How does authentication work?")
    = Py.Ok state'
    /\ CodeAssistantAgent.r_search_results (CodeAssistantAgent.results state') = Some found
    /\ CodeAssistantAgent.files found = []
    /\ CodeAssistantAgent.structure found = None
    /\ length (CodeAssistantAgent.matches found) <= 30
    /\ CodeAssistantAgent.r_code_analysis (CodeAssistantAgent.results state')
       = Some {| CodeAssistantAgent.file_analyses := [];
                 CodeAssistantAgent.issues := [];
                 CodeAssistantAgent.suggestions := [] |}.
Proof.
  apply (remote_agent_analyses_nothing Examples.fnmatch Examples.disk
           Examples.requests_get Examples.get_repo_info Examples.ast_parse
           Examples.cc_visit Examples.mi_visit Examples.format_1f
           MoreExamples.remote_agent (Examples.start "How does authentication work?")).
  reflexivity.
Defined.
